(** * watson-online-store: the context-driven action router and the
      Discovery result formatter of [watson_online_store.py]

    A shallow embedding of [WatsonOnlineStore] and of the helper functions
    nested in [format_discovery_response], followed by the properties
    C1..C10 of the specification.

    Conventions of the embedding.
    - A Python [str] is a Rocq [string]; an index or an [int] is a [Z], so
      that the [-1] of [str.find] and the tests [sidx > 0] read as in the
      source.
    - A Python [float] is a binary64 [float] of the kernel.
    - A [dict] keyed by strings whose values are dynamically typed (the
      Watson context) is a [gmap string pyval]; a [dict] with a fixed set
      of optional keys (a Discovery result, the Discovery response) is a
      record of [option]s, [None] standing for an absent key.
    - A method of [WatsonOnlineStore] is a computation in the monad [M]:
      it takes the fields of [self], and returns the new fields together
      with either a value or the exception that escaped. *)

From Stdlib Require Import ZArith Ascii Floats Lia.
From stdpp Require Import gmap strings list pretty.

#[local] Set Warnings "-inexact-float,-register-all".
#[local] Open Scope Z_scope.

(** ** Python builtins used by the program *)

Module Py.

(** Exceptions that the modelled code can raise.  [ServiceError] stands
    for whatever an external client (Discovery, Cloudant) raises; the
    string is its [repr]. *)
Inductive exn :=
  | AttributeError
  | ValueError
  | TypeError
  | OverflowError
  | IndexError
  | KeyError
  | ServiceError (repr : string).

(** Values found in the Watson context (decoded JSON). *)
Inductive pyval :=
  | PNone
  | PBool (b : bool)
  | PInt (z : Z)
  | PFloat (f : float)
  | PStr (s : string)
  | PList (l : list pyval)
  | PDict (d : list (string * pyval)).

(** [len(s)] *)
Definition len (s : string) : Z := Z.of_nat (String.length s).

(** Truth value of an object, as tested by [if x:] and [x and ...]. *)
Definition truthy (v : pyval) : bool :=
  match v with
  | PNone => false
  | PBool b => b
  | PInt z => negb (z =? 0)
  | PFloat f => negb (PrimFloat.eqb f 0%float)
  | PStr s => negb (String.eqb s "")
  | PList l => match l with [] => false | _ => true end
  | PDict d => match d with [] => false | _ => true end
  end.

(** [v == s] for a string literal [s]. *)
Definition eq_str (v : pyval) (s : string) : bool :=
  match v with
  | PStr t => String.eqb t s
  | _ => false
  end.

(** *** Strings *)

Fixpoint str_drop (n : nat) (s : string) : string :=
  match n, s with
  | O, _ => s
  | S n', String _ s' => str_drop n' s'
  | S _, EmptyString => EmptyString
  end.

Fixpoint str_take (n : nat) (s : string) : string :=
  match n, s with
  | O, _ => EmptyString
  | S n', String c s' => String c (str_take n' s')
  | S _, EmptyString => EmptyString
  end.

(** [s.startswith(sub)] *)
Fixpoint startswith (sub s : string) : bool :=
  match sub, s with
  | EmptyString, _ => true
  | String a sub', String b s' => Ascii.eqb a b && startswith sub' s'
  | String _ _, EmptyString => false
  end.

(** Clamping of slice bounds: a negative bound counts from the end, and
    bounds are cut to [0..len]. *)
Definition clamp (i n : Z) : Z :=
  if i <? 0 then Z.max (i + n) 0 else Z.min i n.

(** [s[a:b]] *)
Definition slice (s : string) (a b : Z) : string :=
  let a' := clamp a (len s) in
  let b' := clamp b (len s) in
  if a' <? b'
  then str_take (Z.to_nat (b' - a')) (str_drop (Z.to_nat a') s)
  else EmptyString.

(** Lowest offset at which [sub] occurs in [s], counted from [i]. *)
Fixpoint find_from (sub s : string) (i : nat) : option nat :=
  if startswith sub s then Some i
  else match s with
       | EmptyString => None
       | String _ s' => find_from sub s' (S i)
       end.

(** Highest offset at which [sub] occurs in [s], counted from [i]. *)
Fixpoint rfind_from (sub s : string) (i : nat) : option nat :=
  match s with
  | EmptyString => if startswith sub s then Some i else None
  | String _ s' =>
      match rfind_from sub s' (S i) with
      | Some j => Some j
      | None => if startswith sub s then Some i else None
      end
  end.

(** Bounds of [find]/[rfind]: [end] is cut to [len], negative bounds
    count from the end; [start] is not cut to [len]. *)
Definition adjust_start (i n : Z) : Z :=
  if i <? 0 then Z.max (i + n) 0 else i.

(** [s.find(sub, start, end)]: the lowest index in [s[start:end]] where
    [sub] is found, or [-1]. *)
Definition find (s sub : string) (start end_ : Z) : Z :=
  let e := clamp end_ (len s) in
  let b := adjust_start start (len s) in
  if e - b <? len sub then -1
  else
    match find_from sub (slice s b e) O with
    | Some i => b + Z.of_nat i
    | None => -1
    end.

(** [s.rfind(sub, start, end)]: the highest such index, or [-1]. *)
Definition rfind (s sub : string) (start end_ : Z) : Z :=
  let e := clamp end_ (len s) in
  let b := adjust_start start (len s) in
  if e - b <? len sub then -1
  else
    match rfind_from sub (slice s b e) O with
    | Some i => b + Z.of_nat i
    | None => -1
    end.

(** [s.replace(old, new)] for a one-character [old]. *)
Fixpoint replace_char (old : Ascii.ascii) (new s : string) : string :=
  match s with
  | EmptyString => EmptyString
  | String c s' =>
      if Ascii.eqb c old then new +:+ replace_char old new s'
      else String c (replace_char old new s')
  end.

(** [str(n)] for an [int]. *)
Definition str_of_int (n : Z) : string := pretty n.

(** *** [int(x)] *)

Definition is_digit (c : Ascii.ascii) : bool :=
  let n := Ascii.nat_of_ascii c in (48 <=? n)%nat && (n <=? 57)%nat.

Definition digit_val (c : Ascii.ascii) : Z := Z.of_nat (Ascii.nat_of_ascii c) - 48.

(** White space of [str.isspace], which [str.strip] removes, on the code
    points below 256: TAB..CR, FS..US, the space, NEL and the no-break
    space. *)
Definition is_space (c : Ascii.ascii) : bool :=
  let n := Ascii.nat_of_ascii c in
  ((9 <=? n)%nat && (n <=? 13)%nat) || ((28 <=? n)%nat && (n <=? 32)%nat)
  || (n =? 133)%nat || (n =? 160)%nat.

(** White space that [int] skips around a numeral: the same without
    FS..US, which the parser of [int] does not take for blanks. *)
Definition is_int_space (c : Ascii.ascii) : bool :=
  let n := Ascii.nat_of_ascii c in
  ((9 <=? n)%nat && (n <=? 13)%nat) || (n =? 32)%nat
  || (n =? 133)%nat || (n =? 160)%nat.

Fixpoint lstrip_of (blank : Ascii.ascii → bool) (s : string) : string :=
  match s with
  | String c s' => if blank c then lstrip_of blank s' else s
  | EmptyString => EmptyString
  end.

Definition strip_of (blank : Ascii.ascii → bool) (s : string) : string :=
  String.rev (lstrip_of blank (String.rev (lstrip_of blank s))).

(** [s.lstrip()] and [s.strip()] *)
Definition lstrip (s : string) : string := lstrip_of is_space s.

Definition strip (s : string) : string := strip_of is_space s.

(** Decimal digits, single underscores allowed between two digits.
    [seen] tells that the previous character was a digit. *)
Fixpoint parse_digits (s : string) (acc : Z) (seen : bool) : option Z :=
  match s with
  | EmptyString => if seen then Some acc else None
  | String c s' =>
      if is_digit c then parse_digits s' (10 * acc + digit_val c) true
      else if Ascii.eqb c "_"%char && seen then parse_digits s' acc false
      else None
  end.

(** Number of digits of a numeral, its underscores not counted. *)
Fixpoint count_digits (s : string) : Z :=
  match s with
  | EmptyString => 0
  | String c s' => if is_digit c then 1 + count_digits s' else count_digits s'
  end.

(** The default of [sys.int_max_str_digits]: [int] refuses, with a
    [ValueError], a numeral of more digits. *)
Definition MAX_STR_DIGITS : Z := 4300.

Definition numeral (d : string) : option Z :=
  if count_digits d <=? MAX_STR_DIGITS then parse_digits d 0 false else None.

(** [int(s)] for a [str]: optional white space, optional sign, digits. *)
Definition int_of_str (s : string) : option Z :=
  match strip_of is_int_space s with
  | String "-"%char d => Z.opp <$> numeral d
  | String "+"%char d => numeral d
  | d => numeral d
  end.

(** [int(f)] for a [float]: truncation toward zero. *)
Definition int_of_float (f : float) : exn + Z :=
  match Prim2SF f with
  | S754_zero _ => inr 0
  | S754_finite sg m e =>
      let v := if 0 <=? e then Z.pos m * 2 ^ e else Z.pos m / 2 ^ (- e) in
      inr (if sg then - v else v)
  | S754_infinity _ => inl OverflowError
  | S754_nan => inl ValueError
  end.

(** [int(v)] *)
Definition int (v : pyval) : exn + Z :=
  match v with
  | PInt z => inr z
  | PBool b => inr (if b then 1 else 0)
  | PFloat f => int_of_float f
  | PStr s => match int_of_str s with Some z => inr z | None => inl ValueError end
  | PNone | PList _ | PDict _ => inl TypeError
  end.

End Py.

(** ** Result of a call that may raise *)

Abbreviation result A := (Py.exn + A)%type.

#[global] Instance result_ret : MRet (sum Py.exn) := λ A x, inr x.
#[global] Instance result_bind : MBind (sum Py.exn) := λ A B f m,
  match m with
  | inl e => inl e
  | inr x => f x
  end.

(** ** Constants of the module *)

(** Limit the result count when calling Discovery query. *)
Definition DISCOVERY_QUERY_COUNT : Z := 10.
(** Limit more when formatting and filtering out weak results. *)
Definition DISCOVERY_KEEP_COUNT : Z := 5.
(** Truncation length of the Discovery text (not used by any function). *)
Definition DISCOVERY_TRUNCATE : Z := 500.

(** ** Data *)

(** The [extracted_metadata] object of a Discovery result. *)
Record metadata := Metadata {
  title : option string
}.

(** One element of [discovery_response['results']]. *)
Record entry := Entry {
  text : option string;
  html : option string;
  extracted_metadata : option metadata;
  score : option float
}.

(** The object returned by [discovery_client.query]. *)
Record discovery_response := DiscoveryResponse {
  results : option (list entry);
  matching_results : option Z
}.

(** The [product_data] objects built by [format_discovery_response]. *)
Record product_data := ProductData {
  cart_number : string;
  name : string;
  url : string;
  image : string
}.

(** [range(n)] and [len(l)] *)
Definition range (n : Z) : list nat := seq 0 (Z.to_nat n).
Definition llen {A} (l : list A) : Z := Z.of_nat (length l).

(** ** The helpers nested in [format_discovery_response] *)

(** Pull product name from entry data for nice user display. *)
Definition get_product_name (e : entry) (data_source : string) : string :=
  let product_name := "" in
  if String.eqb data_source "amazon" then
    match extracted_metadata e with
    | Some metadata =>
        match title metadata with
        | Some t => t
        | None => product_name
        end
    | None => product_name
    end
  else if String.eqb data_source "ibm_store" then
    match text e with
    | Some text =>
        let product_tag := "Product:" in
        let category_tag := "Category:" in
        let sidx := Py.find text product_tag 0 (Py.len text) in
        if 0 <? sidx then
          let sidx := sidx + Py.len product_tag in
          let eidx := Py.find text category_tag sidx (Py.len text) in
          if 0 <? eidx then Py.slice text sidx (eidx - 1)
          else product_name
        else product_name
    | None => product_name
    end
  else product_name.

(** Pull product url from entry data so user can navigate to product
    page. *)
Definition get_product_url (e : entry) (data_source : string) : string :=
  let product_url := "" in
  match html e with
  | Some html =>
      if String.eqb data_source "amazon" then
        let href_tag := "<a href=" in
        let sidx := Py.rfind html href_tag 0 (Py.len html) in
        if 0 <? sidx then
          let sidx := sidx + Py.len href_tag in
          let eidx := Py.find html ">" sidx (Py.len html) in
          if 0 <? eidx then Py.slice html (sidx + 1) (eidx - 1)
          else product_url
        else product_url
      else if String.eqb data_source "ibm_store" then
        let url_start := "http://www.logostore-globalid.us" in
        let href_tag := "/ProductDetail.aspx?pid=" in
        let sidx := Py.find html href_tag 0 (Py.len html) in
        if 0 <? sidx then
          let sidx := sidx + Py.len href_tag in
          let product_id := Py.slice html sidx (sidx + 6) in
          url_start +:+ href_tag +:+ product_id
        else product_url
      else product_url
  | None => product_url
  end.

(** Number of leading decimal digits of [s]. *)
Fixpoint span_digits (s : string) : nat :=
  match s with
  | String c s' => if Py.is_digit c then S (span_digits s') else O
  | EmptyString => O
  end.

(** Length of the match of [scale\[[0-9]+\]] at the start of [s]. *)
Definition match_scale (s : string) : option nat :=
  if Py.startswith "scale[" s then
    let r := Py.str_drop 6 s in
    let n := span_digits r in
    if (0 <? n)%nat && Py.startswith "]" (Py.str_drop n r)
    then Some (6 + n + 1)%nat
    else None
  else None.

(** [re.sub(r'scale\[[0-9]+\]', 'scale[50]', s)]: every match, leftmost
    first and without overlap, is replaced; [skip] counts the characters
    of the current match that are still to be dropped. *)
Fixpoint sub_scale (s : string) (skip : nat) : string :=
  match s with
  | EmptyString => EmptyString
  | String c s' =>
      match skip with
      | S k => sub_scale s' k
      | O =>
          match match_scale s with
          | Some n => "scale[50]" +:+ sub_scale s' (n - 1)
          | None => String c (sub_scale s' O)
          end
      end
  end.

(** The one-character string holding a double quote. *)
Definition dquote : string := String "034"%char EmptyString.

(** Pull product image url from entry data to allow pictures in slack. *)
Definition get_image_url (e : entry) (data_source : string) : string :=
  let image_url := "" in
  if String.eqb data_source "amazon" then
    get_product_url e data_source
  else if String.eqb data_source "ibm_store" then
    match html e with
    | Some html =>
        let img_tag :=
          "<a class=" +:+ dquote +:+ "jqzoom" +:+ dquote +:+ " href=" +:+ dquote in
        let simg := Py.find html img_tag 0 (Py.len html) in
        if 0 <? simg then
          let simg := simg + Py.len img_tag in
          let eimg := Py.find html dquote simg (Py.len html) in
          if 0 <? eimg then
            let img := Py.slice html simg eimg in
            sub_scale img O
          else image_url
        else image_url
    | None => image_url
    end
  else image_url.

(** Remove chars <, &, > for Slack. *)
Definition slack_encode (input_text : string) : string :=
  if String.eqb input_text "" then input_text
  else
    Py.replace_char ">" "&gt;"
      (Py.replace_char "<" "&lt;"
         (Py.replace_char "&" "&amp;" input_text)).

(** ** [format_discovery_response] *)

(** The [product_data] built for [result] under the ordinal [cart_number]. *)
Definition make_product_data (cart_number : Z) (result : entry)
    (data_source : string) : product_data :=
  {| cart_number := Py.str_of_int cart_number;
     name := slack_encode (get_product_name result data_source);
     url := slack_encode (get_product_url result data_source);
     image := slack_encode (get_image_url result data_source) |}.

(** The body of the [for i in range(...)] loop, run over the remaining
    indices with the current [cart_number] and [output]. *)
Fixpoint format_loop (results : list entry) (data_source : string)
    (indices : list nat) (cart_number : Z) (output : list product_data)
    : result (list product_data) :=
  match indices with
  | [] => inr output
  | i :: indices' =>
      match results !! i with
      | None => inl Py.IndexError
      | Some result =>
          let product_data := make_product_data cart_number result data_source in
          format_loop results data_source indices' (cart_number + 1)
            (output ++ [product_data])
      end
  end.

Definition format_discovery_response (response : discovery_response)
    (data_source : string) : result (list product_data) :=
  let output := [] in
  match results response with
  | None | Some [] => inr output
  | Some results =>
      format_loop results data_source
        (range (Z.min (llen results) DISCOVERY_KEEP_COUNT)) 1 output
  end.

(** ** Collaborators of [WatsonOnlineStore] *)

(** A customer of the store. *)
Record OnlineStoreCustomer := Customer {
  email : string;
  first_name : string;
  last_name : string;
  shopping_cart : list string
}.

(** Returns a dict in form usable by our cloudant_online_store DB. *)
Definition get_customer_dict (c : OnlineStoreCustomer) : gmap string Py.pyval :=
  {[ "type" := Py.PStr "customer";
     "email" := Py.PStr (email c);
     "first_name" := Py.PStr (first_name c);
     "last_name" := Py.PStr (last_name c);
     "shopping_cart" := Py.PList (Py.PStr <$> shopping_cart c) ]}.

(** The interface of [cloudant_online_store] that the handlers use, over
    a database state [DB].  Each call may raise. *)
Class CloudantOnlineStore (DB : Type) := {
  list_shopping_cart : DB → string → result (list string);
  add_to_shopping_cart : DB → string → string → result DB;
  delete_item_shopping_cart : DB → string → string → result DB
}.

(** The calls issued to the store, in order. *)
Inductive store_call :=
  | ListShoppingCart (email : string)
  | AddToShoppingCart (email item : string)
  | DeleteItemShoppingCart (email item : string).

(** The reply of [conversation_client.message]: an optional [context]
    and the lines of [output.text]. *)
Record watson_response := WatsonResponse {
  wr_context : option (gmap string Py.pyval);
  wr_output_text : list string
}.

(** [response = ''; for text in output.text: response += text + LF] *)
Definition joined_output (w : watson_response) : string :=
  foldl (λ acc text, acc +:+ (text +:+ String "010"%char EmptyString))
        EmptyString (wr_output_text w).

(** The fields of [self] that are set once by [__init__]. *)
Record config := Config {
  conversation_client : string → gmap string Py.pyval → result watson_response;
  discovery_client : option (Py.pyval → Z → result discovery_response);
  discovery_data_source : string;
  discovery_score_filter : float
}.

(** The fields of [self] that the handlers read and write, the database
    behind [cloudant_online_store], and the two logs of what was sent to
    the store and to Slack. *)
Record self (DB : Type) := Self {
  context : gmap string Py.pyval;
  customer : option OnlineStoreCustomer;
  response_tuple : option (list product_data);
  database : DB;
  store_calls : list store_call;
  slack_messages : list string
}.
Arguments Self {DB}.
Arguments context {DB}.
Arguments customer {DB}.
Arguments response_tuple {DB}.
Arguments database {DB}.
Arguments store_calls {DB}.
Arguments slack_messages {DB}.

(** Assignments to the fields. *)
Definition with_context {DB} (c : gmap string Py.pyval) (s : self DB) : self DB :=
  Self c (customer s) (response_tuple s) (database s)
    (store_calls s) (slack_messages s).

Definition with_response_tuple {DB} (r : list product_data) (s : self DB)
    : self DB :=
  Self (context s) (customer s) (Some r) (database s)
    (store_calls s) (slack_messages s).

Definition with_database {DB} (d : DB) (s : self DB) : self DB :=
  Self (context s) (customer s) (response_tuple s) d
    (store_calls s) (slack_messages s).

Definition with_call {DB} (c : store_call) (s : self DB) : self DB :=
  Self (context s) (customer s) (response_tuple s) (database s)
    (store_calls s ++ [c]) (slack_messages s).

Definition with_message {DB} (m : string) (s : self DB) : self DB :=
  Self (context s) (customer s) (response_tuple s) (database s)
    (store_calls s) (slack_messages s ++ [m]).

(** The one-character string holding a line feed. *)
Definition nl : string := String "010"%char EmptyString.

(** ** [context_merge] *)

(** Combine 2 dicts into one for Watson Conversation context.  Common
    data in dict2 will override data in dict1. *)
Definition context_merge (dict1 dict2 : gmap string Py.pyval)
    : gmap string Py.pyval :=
  let new_dict := dict1 in
  if bool_decide (dict2 = ∅) then new_dict
  else dict2 ∪ new_dict.

(** ** The score filter of [get_discovery_response] *)

(** [x for x in results if 'score' in x and x['score'] > threshold] *)
Definition keep_entry (threshold : float) (x : entry) : bool :=
  match score x with
  | Some sc => PrimFloat.ltb threshold sc
  | None => false
  end.

(** The [if self.discovery_score_filter and 'results' in ...] block. *)
Definition score_filter_step (threshold : float) (r : discovery_response)
    : discovery_response :=
  match results r with
  | Some rs =>
      if Py.truthy (Py.PFloat threshold) then
        let fr := List.filter (keep_entry threshold) rs in
        {| results := Some fr; matching_results := Some (llen fr) |}
      else r
  | None => r
  end.

(** ** Methods of [WatsonOnlineStore] *)

Section WatsonOnlineStore.

Context {DB : Type} `{!CloudantOnlineStore DB}.
(** The configuration of the instance. *)
Variable cfg : config.
(** [repr(e)] of an exception. *)
Variable repr_exn : Py.exn → string.
(** [str(item.encode('utf-8'))], which depends on the Python version. *)
Variable str_utf8 : string → string.
(** The element of [FAKE_DISCOVERY] drawn by [random.randint]. *)
Variable fake_discovery : Py.pyval.

(** A method: from the fields of [self] to the outcome and the fields
    afterwards. *)
Definition M (A : Type) : Type := self DB → result A * self DB.

#[global] Instance M_ret : MRet M := λ A x s, (inr x, s).
#[global] Instance M_bind : MBind M := λ A B f m s,
  match m s with
  | (inl e, s') => (inl e, s')
  | (inr x, s') => f x s'
  end.

Definition raise {A} (e : Py.exn) : M A := λ s, (inl e, s).

Definition lift {A} (r : result A) : M A := λ s, (r, s).

(** [try: body except ValueError: handler] *)
Definition try_except_ValueError {A} (body handler : M A) : M A := λ s,
  match body s with
  | (inl Py.ValueError, s') => handler s'
  | r => r
  end.

(** [try: body except Exception as e: handler e] *)
Definition try_except_Exception {A} (body : M A) (handler : Py.exn → M A)
    : M A := λ s,
  match body s with
  | (inl e, s') => handler e s'
  | r => r
  end.

(** [for index, x in enumerate(l): body index x], counted from [index]. *)
Fixpoint for_enumerate {A} (body : nat → A → M unit) (index : nat)
    (l : list A) : M unit :=
  match l with
  | [] => mret tt
  | x :: l' => body index x ;; for_enumerate body (S index) l'
  end.

(** Reads and writes of the fields. *)
Definition get_context : M (gmap string Py.pyval) := λ s, (inr (context s), s).

Definition set_context (c : gmap string Py.pyval) : M unit := λ s,
  (inr tt, with_context c s).

Definition set_response_tuple (r : list product_data) : M unit := λ s,
  (inr tt, with_response_tuple r s).

(** [self.context[k]] *)
Definition context_item (k : string) : M Py.pyval :=
  c ← get_context;
  match c !! k with
  | Some v => mret v
  | None => raise Py.KeyError
  end.

(** [self.context[k] = v] *)
Definition set_context_item (k : string) (v : Py.pyval) : M unit :=
  c ← get_context; set_context (<[k := v]> c).

(** [self.customer.email] *)
Definition customer_email : M string := λ s,
  match customer s with
  | Some c => (inr (email c), s)
  | None => (inl Py.AttributeError, s)
  end.

(** [enumerate(self.response_tuple)] needs an iterable. *)
Definition iter_response_tuple : M (list product_data) := λ s,
  match response_tuple s with
  | Some r => (inr r, s)
  | None => (inl Py.TypeError, s)
  end.

(** Calls to [self.cloudant_online_store]. *)
Definition log_call (c : store_call) : M unit := λ s,
  (inr tt, with_call c s).

Definition set_database (d : DB) : M unit := λ s,
  (inr tt, with_database d s).

Definition get_database : M DB := λ s, (inr (database s), s).

Definition call_list_shopping_cart (email : string) : M (list string) :=
  log_call (ListShoppingCart email) ;;
  d ← get_database;
  lift (list_shopping_cart d email).

Definition call_add_to_shopping_cart (email item : string) : M unit :=
  log_call (AddToShoppingCart email item) ;;
  d ← get_database;
  d' ← lift (add_to_shopping_cart d email item);
  set_database d'.

Definition call_delete_item_shopping_cart (email item : string) : M unit :=
  log_call (DeleteItemShoppingCart email item) ;;
  d ← get_database;
  d' ← lift (delete_item_shopping_cart d email item);
  set_database d'.

(** [sender.send_message(message)] *)
Definition send_message (message : string) : M unit := λ s,
  (inr tt, with_message message s).

(** Send Customer info to Watson using context. *)
Definition add_customer_to_context : M unit := λ s,
  match customer s with
  | Some c => set_context (context_merge (context s) (get_customer_dict c)) s
  | None => (inl Py.AttributeError, s)
  end.

(** Returns fake response from IBM Discovery for testing purposes. *)
Definition get_fake_discovery_response (input_text : Py.pyval)
    : gmap string Py.pyval :=
  {[ "discovery_result" := fake_discovery ]}.

(** Sends text and context to Watson and gets reply. *)
Definition get_watson_response (message : string) : M watson_response :=
  c ← get_context; lift (conversation_client cfg message c).

(** Call discovery with input_text and return formatted response. *)
Definition get_discovery_response (input_text : Py.pyval)
    : M (gmap string Py.pyval) :=
  query ← match discovery_client cfg with
          | Some q => mret q
          | None => raise Py.AttributeError
          end;
  discovery_response ← lift (query input_text DISCOVERY_QUERY_COUNT);
  let discovery_response :=
    score_filter_step (discovery_score_filter cfg) discovery_response in
  response ← lift (format_discovery_response discovery_response
                     (discovery_data_source cfg));
  set_response_tuple response ;;
  let formatted_response :=
    foldl (λ acc item,
             acc +:+ (nl +:+ cart_number item +:+ ") " +:+ name item
                        +:+ nl +:+ image item))
          EmptyString response in
  mret {[ "discovery_result" := Py.PStr formatted_response ]}.

(** Take query string from Watson Context and send to Discovery. *)
Definition handle_DiscoveryQuery : M bool :=
  query_string ← context_item "discovery_string";
  response ←
    match discovery_client cfg with
    | Some _ =>
        try_except_Exception (get_discovery_response query_string)
          (λ e, mret {[ "discovery_result" := Py.PStr (repr_exn e) ]})
    | None => mret (get_fake_discovery_response query_string)
    end;
  c ← get_context;
  set_context (context_merge c response) ;;
  mret false.

(** Get shopping_cart from DB and return formatted version to Watson. *)
Definition handle_list_shopping_cart : M bool :=
  cust ← customer_email;
  shopping_list ← call_list_shopping_cart cust;
  let formatted_out :=
    foldl (λ acc '(index, item),
             acc +:+ (Py.str_of_int (Z.of_nat index + 1) +:+ ") "
                        +:+ str_utf8 item +:+ nl))
          EmptyString (imap pair shopping_list) in
  set_context_item "shopping_cart" (Py.PStr formatted_out) ;;
  mret false.

(** Clear shopping_cart and cart_item fields in context. *)
Definition clear_shopping_cart : M unit :=
  set_context_item "shopping_cart" (Py.PStr "") ;;
  set_context_item "cart_item" (Py.PStr "").

(** [int(self.context['cart_item'])] under [except ValueError]: [None]
    when the handler of the exception ran. *)
Definition int_cart_item : M (option Z) :=
  try_except_ValueError
    (v ← context_item "cart_item"; n ← lift (Py.int v); mret (Some n))
    (mret None).

(** Pulls cart_item from Watson context and deletes from Cloudant DB. *)
Definition handle_delete_from_cart : M bool :=
  email ← customer_email;
  shopping_list ← call_list_shopping_cart email;
  parsed ← int_cart_item;
  match parsed with
  | None => mret false
  | Some item_num =>
      for_enumerate
        (λ index item,
           if Z.of_nat index + 1 =? item_num
           then call_delete_item_shopping_cart email item
           else mret tt)
        O shopping_list ;;
      clear_shopping_cart ;;
      mret false
  end.

(** Adds cart_item from Watson context and saves in Cloudant DB. *)
Definition handle_add_to_cart : M bool :=
  parsed ← int_cart_item;
  match parsed with
  | None => mret false
  | Some cart_item =>
      email ← customer_email;
      response_tuple ← iter_response_tuple;
      for_enumerate
        (λ index entry,
           if Z.of_nat index + 1 =? cart_item
           then
             let item := name entry +:+ ": " +:+ url entry +:+ nl in
             call_add_to_shopping_cart email item
           else mret tt)
        O response_tuple ;;
      clear_shopping_cart ;;
      mret false
  end.

(** ['k' in self.context.keys() and test(self.context['k'])] *)
Definition has (c : gmap string Py.pyval) (k : string)
    (test : Py.pyval → bool) : bool :=
  match c !! k with
  | Some v => test v
  | None => false
  end.

(** Handler for messages coming from Watson Conversation using context.
    Returns [true] if UI input is required, [false] if we want app
    processing and no input. *)
Definition handle_message (message : string) : M bool :=
  watson_response ← get_watson_response message;
  match wr_context watson_response with
  | Some c => set_context c
  | None => mret tt
  end ;;
  let response := joined_output watson_response in
  send_message response ;;
  c ← get_context;
  if has c "discovery_string" Py.truthy
     && bool_decide (is_Some (discovery_client cfg))
  then handle_DiscoveryQuery
  else if has c "shopping_cart" (λ v, Py.eq_str v "list")
  then handle_list_shopping_cart
  else if has c "shopping_cart" (λ v, Py.eq_str v "add")
          && has c "cart_item" (λ v, negb (Py.eq_str v ""))
  then handle_add_to_cart
  else if has c "shopping_cart" (λ v, Py.eq_str v "delete")
          && has c "cart_item" (λ v, negb (Py.eq_str v ""))
  then handle_delete_from_cart
  else if has c "get_input" (λ v, Py.eq_str v "no")
  then mret false
  else mret true.

(** The inner loop of [run] for one message: [handle_message] is called
    again until it asks for user input.  [fuel] bounds the number of
    calls; [None] is returned when it is exhausted. *)
Fixpoint converse (fuel : nat) (message : string) : M (option bool) :=
  match fuel with
  | O => mret None
  | S fuel' =>
      get_input ← handle_message message;
      if negb get_input then converse fuel' message else mret (Some true)
  end.

End WatsonOnlineStore.

(** ** A store to run the handlers on *)

(** Removes the first occurrence of [item]. *)
Fixpoint remove_first (item : string) (l : list string) : list string :=
  match l with
  | [] => []
  | x :: l' => if String.eqb x item then l' else x :: remove_first item l'
  end.

(** Modelled from the spec: the [CustomerStore] behind
    [cloudant_online_store], whose module is not among the sources; a
    cart is the ordered sequence of item strings kept under the
    customer's email, and no call fails. *)
#[global] Instance memory_store : CloudantOnlineStore (gmap string (list string)) := {|
  list_shopping_cart d email := inr (default [] (d !! email));
  add_to_shopping_cart d email item :=
    inr (<[email := default [] (d !! email) ++ [item]]> d);
  delete_item_shopping_cart d email item :=
    inr (<[email := remove_first item (default [] (d !! email))]> d)
|}.

(** ** Sample inputs *)

(** A result whose text holds the two markers, with text around them. *)
Definition red_mug : entry :=
  {| text := Some "xx Product: Red Mug Category: Drinkware yy";
     html := None; extracted_metadata := None; score := None |}.

(** The same text starting with the [Product:] marker. *)
Definition red_mug_at_start : entry :=
  {| text := Some "Product: Red Mug Category: Drinkware yy";
     html := None; extracted_metadata := None; score := None |}.

(** A text with the markers in the wrong order, and one with none. *)
Definition category_first : entry :=
  {| text := Some "a Category: Drinkware Product: Red Mug";
     html := None; extracted_metadata := None; score := None |}.

Definition no_marker : entry :=
  {| text := Some "a red mug";
     html := None; extracted_metadata := None; score := None |}.

(** A page with two anchors, and one with none. *)
Definition two_anchors_html : string :=
  "<p><a href='u1'>x</a> <a href='u2'>y</a>".

Definition two_anchors : entry :=
  {| text := None; html := Some two_anchors_html;
     extracted_metadata := None; score := None |}.

Definition no_anchor : entry :=
  {| text := None; html := Some "<p>nothing</p>";
     extracted_metadata := None; score := None |}.

(** Four results with the scores 0.9, 0.4, 0.7 and none. *)
Definition scored (label : string) (sc : option float) : entry :=
  {| text := Some label; html := None; extracted_metadata := None;
     score := sc |}.

Definition four_scores : discovery_response :=
  {| results := Some [scored "first" (Some 0.9%float);
                      scored "second" (Some 0.4%float);
                      scored "third" (Some 0.7%float);
                      scored "fourth" None];
     matching_results := Some 4 |}.

(** A customer with two items in the stored cart, and sessions of that
    customer or of nobody, in a given context. *)
Definition alice : OnlineStoreCustomer :=
  {| email := "alice@example.com"; first_name := "Alice";
     last_name := "Ames"; shopping_cart := [] |}.

Definition two_item_db : gmap string (list string) :=
  {[ "alice@example.com" := ["mug: u1"; "cap: u2"] ]}.

Definition session (c : gmap string Py.pyval)
    (cust : option OnlineStoreCustomer) : self (gmap string (list string)) :=
  {| context := c; customer := cust; response_tuple := Some [];
     database := two_item_db; store_calls := []; slack_messages := [] |}.

Definition cart_request (action item : string) : gmap string Py.pyval :=
  {[ "shopping_cart" := Py.PStr action; "cart_item" := Py.PStr item ]}.

(** A Watson service that answers one line and leaves the context as it
    is, with no Discovery client. *)
Definition quiet_config : config :=
  {| conversation_client := λ _ _, inr (WatsonResponse None ["ok"]);
     discovery_client := None;
     discovery_data_source := "ibm_store";
     discovery_score_filter := 0 |}.

(** A Watson service as above, with a Discovery client that returns the
    four scored results. *)
Definition search_config : config :=
  {| conversation_client := λ _ _, inr (WatsonResponse None ["ok"]);
     discovery_client := Some (λ _ _, inr four_scores);
     discovery_data_source := "ibm_store";
     discovery_score_filter := 0.6 |}.

(** A context that asks for a search and for the listing of the cart. *)
Definition search_and_list : gmap string Py.pyval :=
  {[ "discovery_string" := Py.PStr "mug"; "shopping_cart" := Py.PStr "list" ]}.

(** ** Predicates used to state the properties *)

(** [sub] occurs in [s] at index [i]. *)
Definition occurs_at (sub s : string) (i : nat) : Prop :=
  ∃ a b, s = a +:+ sub +:+ b ∧ String.length a = i.

(** The same as a test. *)
Definition occurs_atb (sub s : string) (i : nat) : bool :=
  (i <=? String.length s)%nat && Py.startswith sub (Py.str_drop i s).

(** No index of [l] is one where [sub] occurs in [s]. *)
Definition none_occurs (sub s : string) (l : list nat) : bool :=
  forallb (λ i, negb (occurs_atb sub s i)) l.

(** A result carries a score strictly above the threshold. *)
Definition above_threshold (threshold : float) (x : entry) : Prop :=
  ∃ sc, score x = Some sc ∧ PrimFloat.ltb threshold sc = true.

#[global] Instance above_threshold_dec threshold x :
  Decision (above_threshold threshold x).
Proof.
  unfold above_threshold.
  destruct (score x) as [sc|].
  - destruct (PrimFloat.ltb threshold sc) eqn:E.
    + left. eauto.
    + right. intros (sc' & [= <-] & H). congruence.
  - right. intros (sc' & [=] & _).
Defined.

(** ** Further predicates and functions used to state properties *)

(** What one character becomes under the escaping for Slack. *)
Definition slack_entity (c : ascii) : string :=
  if Ascii.eqb c "&" then "&amp;"
  else if Ascii.eqb c "<" then "&lt;"
  else if Ascii.eqb c ">" then "&gt;"
  else String c EmptyString.

(** Every character replaced by its entity, in one pass. *)
Fixpoint escape_each (s : string) : string :=
  match s with
  | EmptyString => EmptyString
  | String c s' => slack_entity c +:+ escape_each s'
  end.

(** The tags and the host used for source [ibm_store]. *)
Definition pid_tag : string := "/ProductDetail.aspx?pid=".
Definition store_host : string := "http://www.logostore-globalid.us".
Definition zoom_tag : string :=
  "<a class=" +:+ dquote +:+ "jqzoom" +:+ dquote +:+ " href=" +:+ dquote.

(** Every character of [s] is a decimal digit. *)
Fixpoint all_digits (s : string) : bool :=
  match s with
  | EmptyString => true
  | String c s' => Py.is_digit c && all_digits s'
  end.

(** Pages for source [ibm_store]. *)
Definition product_page : entry :=
  {| text := None;
     html := Some ("<p>" +:+ zoom_tag +:+ "img/scale[200]/mug.jpg" +:+ dquote
                   +:+ "> /ProductDetail.aspx?pid=1234567 </p>");
     extracted_metadata := None; score := None |}.

Definition short_pid_page : entry :=
  {| text := None; html := Some "<p>/ProductDetail.aspx?pid=12";
     extracted_metadata := None; score := None |}.

Definition anchor_at_start : entry :=
  {| text := None; html := Some "<a href='u1'>x</a>";
     extracted_metadata := None; score := None |}.

(** The text shown for one formatted result, and for a list of them. *)
Definition rendered_item (item : product_data) : string :=
  nl +:+ cart_number item +:+ ") " +:+ name item +:+ nl +:+ image item.

Fixpoint rendered (items : list product_data) : string :=
  match items with
  | [] => EmptyString
  | item :: items' => rendered_item item +:+ rendered items'
  end.

(** The lines of a cart listing, numbered from [index + 1]. *)
Fixpoint cart_listing (str_utf8 : string → string) (index : nat)
    (cart : list string) : string :=
  match cart with
  | [] => EmptyString
  | item :: cart' =>
      Py.str_of_int (Z.of_nat index + 1) +:+ ") " +:+ str_utf8 item +:+ nl
        +:+ cart_listing str_utf8 (S index) cart'
  end.

(** A Discovery client that fails. *)
Definition failing_config : config :=
  {| conversation_client := λ _ _, inr (WatsonResponse None ["ok"]);
     discovery_client := Some (λ _ _, inl (Py.ServiceError "timeout"));
     discovery_data_source := "ibm_store";
     discovery_score_filter := 0.6 |}.

(** A store that lists the cart it holds and refuses every change. *)
#[global] Instance read_only_store : CloudantOnlineStore (list string) := {|
  list_shopping_cart d _ := inr d;
  add_to_shopping_cart _ _ _ := inl (Py.ServiceError "read only");
  delete_item_shopping_cart _ _ _ := inl (Py.ServiceError "read only")
|}.

Definition read_only_session (c : gmap string Py.pyval) : self (list string) :=
  {| context := c; customer := Some alice; response_tuple := None;
     database := ["mug: u1"]; store_calls := []; slack_messages := [] |}.

(** Three formatted results, and sessions before and after a search. *)
Definition three_results : list product_data :=
  [ {| cart_number := "1"; name := "mug"; url := "u1"; image := "i1" |};
    {| cart_number := "2"; name := "cap"; url := "u2"; image := "i2" |};
    {| cart_number := "3"; name := "pen"; url := "u3"; image := "i3" |} ].

Definition fresh_session (c : gmap string Py.pyval)
    : self (gmap string (list string)) :=
  {| context := c; customer := Some alice; response_tuple := None;
     database := two_item_db; store_calls := []; slack_messages := [] |}.

(** The fields of [self] once Watson has answered [w]: its context, if
    it sent one, is installed and its lines are sent to Slack. *)
Definition after_exchange {DB} (w : watson_response) (s : self DB) : self DB :=
  with_message (joined_output w)
    (match wr_context w with
     | Some c => with_context c s
     | None => s
     end).

(** The test made on the context before the Discovery query. *)
Definition wants_discovery (cfg : config) (c : gmap string Py.pyval) : bool :=
  has c "discovery_string" Py.truthy
  && bool_decide (is_Some (discovery_client cfg)).

(** A Watson service that sends the context back as it received it. *)
Definition echo_config : config :=
  {| conversation_client := λ _ c, inr (WatsonResponse (Some c) ["ok"]);
     discovery_client := None;
     discovery_data_source := "ibm_store";
     discovery_score_filter := 0 |}.

(** What no handler does to the session: [s'] has the customer and the
    Slack messages of [s], and its store calls begin with those of [s]. *)
Definition extends {DB} (s s' : self DB) : Prop :=
  customer s' = customer s
  ∧ slack_messages s' = slack_messages s
  ∧ store_calls s `prefix_of` store_calls s'.

Definition keeps_session {DB A} (m : self DB → result A * self DB) : Prop :=
  ∀ s, extends s (m s).2.

(** ** [setup_conversation_workspace] *)

(** An element of [list_workspaces()['workspaces']]. *)
Record workspace := Workspace {
  workspace_id : string;
  workspace_name : string
}.

(** The parts of data/workspace.json handed to [create_workspace]. *)
Record workspace_definition := WorkspaceDefinition {
  language : Py.pyval;
  intents : Py.pyval;
  entities : Py.pyval;
  dialog_nodes : Py.pyval;
  counterexamples : Py.pyval;
  metadata_json : Py.pyval
}.

(** The workspace calls of the Conversation client: the listing, and
    the creation, which returns the [workspace_id] of what it created. *)
Record workspace_client := WorkspaceClient {
  list_workspaces : result (list workspace);
  create_workspace : string → string → workspace_definition → result string
}.

(** What [setup_conversation_workspace] raises: its own [Exception] for
    a [WORKSPACE_ID] that does not exist, or what a call raised. *)
Inductive setup_exn :=
  | WorkspaceNotFound (id : string)
  | SetupRaised (e : Py.exn).

(** What it does on the way, in order. *)
Inductive workspace_call :=
  | ListWorkspaces
  | ReadWorkspaceJson
  | CreateWorkspace (name description : string) (d : workspace_definition).

Definition workspace_description : string :=
  "Conversation workspace created by watson-online-store.".

(** [workspace['language']], [workspace['intents']], ... in the order in
    which the arguments of [create_workspace] are evaluated. *)
Definition read_definition (j : gmap string Py.pyval)
    : result workspace_definition :=
  match j !! "language", j !! "intents", j !! "entities",
        j !! "dialog_nodes", j !! "counterexamples", j !! "metadata" with
  | Some l, Some i, Some e, Some d, Some c, Some m =>
      inr (WorkspaceDefinition l i e d c m)
  | _, _, _, _, _, _ => inl Py.KeyError
  end.

(** Verify and/or initialize the conversation workspace.
    [get_workspace_json] is the outcome of reading data/workspace.json. *)
Definition setup_conversation_workspace (conversation_client : workspace_client)
    (get_workspace_json : result (gmap string Py.pyval))
    (environ : gmap string string)
    : (setup_exn + string) * list workspace_call :=
  match list_workspaces conversation_client with
  | inl e => (inl (SetupRaised e), [ListWorkspaces])
  | inr workspaces =>
      let env_workspace_id := environ !! "WORKSPACE_ID" in
      match env_workspace_id with
      | Some (String c id') =>
          let id := String c id' in
          match List.find (λ w, String.eqb (workspace_id w) id) workspaces with
          | Some _ => (inr id, [ListWorkspaces])
          | None => (inl (WorkspaceNotFound id), [ListWorkspaces])
          end
      | Some EmptyString | None =>
          let name := default "watson-online-store" (environ !! "WORKSPACE_NAME") in
          match List.find (λ w, String.eqb (workspace_name w) name) workspaces with
          | Some w => (inr (workspace_id w), [ListWorkspaces])
          | None =>
              match get_workspace_json ≫= read_definition with
              | inl e =>
                  (inl (SetupRaised e), [ListWorkspaces; ReadWorkspaceJson])
              | inr d =>
                  let created :=
                    create_workspace conversation_client name
                      workspace_description d in
                  (match created with
                   | inl e => inl (SetupRaised e)
                   | inr id => inr id
                   end,
                   [ListWorkspaces; ReadWorkspaceJson;
                    CreateWorkspace name workspace_description d])
              end
          end
      end
  end.

(** Two workspaces, and a client that lists them and creates [new-id]. *)
Definition two_workspaces : list workspace :=
  [ Workspace "id-1" "other"; Workspace "id-2" "watson-online-store" ].

Definition sample_workspace_client (l : list workspace) : workspace_client :=
  {| list_workspaces := inr l;
     create_workspace := λ _ _ _, inr "new-id" |}.

Definition sample_workspace_json : gmap string Py.pyval :=
  {[ "language" := Py.PStr "en"; "intents" := Py.PList [];
     "entities" := Py.PList []; "dialog_nodes" := Py.PList [];
     "counterexamples" := Py.PList []; "metadata" := Py.PNone ]}.

(** ** [parse_slack_output] *)

(** One element of the list read from Slack: the keys [text], [user]
    and [channel] when present, and whether [user_profile] is present. *)
Record slack_event := SlackEvent {
  ev_text : option string;
  ev_user : option string;
  ev_channel : option string;
  ev_user_profile : bool
}.

(** [sub in s] *)
Definition str_contains (sub s : string) : bool :=
  match Py.find_from sub s O with
  | Some _ => true
  | None => false
  end.

(** [''.join(s.split(sep))] for a non-empty [sep]: the occurrences of
    [sep], taken from the left and without overlap, are dropped; [skip]
    counts the characters of the current occurrence still to drop. *)
Fixpoint remove_all (sep s : string) (skip : nat) : string :=
  match s with
  | EmptyString => EmptyString
  | String c s' =>
      match skip with
      | S k => remove_all sep s' k
      | O =>
          if Py.startswith sep s
          then remove_all sep s' (String.length sep - 1)
          else String c (remove_all sep s' O)
      end
  end.

(** [s.lower()]: the cased characters below code point 256 are the
    letters A to Z and the capital letters of Latin-1 (192 to 222 without
    the multiplication sign 215); each is 32 below its lower-case form. *)
Definition lower_char (c : ascii) : ascii :=
  let n := nat_of_ascii c in
  if ((65 <=? n)%nat && (n <=? 90)%nat)
     || ((192 <=? n)%nat && (n <=? 214)%nat)
     || ((216 <=? n)%nat && (n <=? 222)%nat)
  then ascii_of_nat (n + 32) else c.

Fixpoint lower (s : string) : string :=
  match s with
  | EmptyString => EmptyString
  | String c s' => String (lower_char c) (lower s')
  end.

(** [self.at_bot] *)
Definition at_bot (bot_id : string) : string := "<@" +:+ bot_id +:+ ">".

(** Prepare output when using Slack as UI.  The triple of [None] that
    the source returns when nothing is found is [None] here. *)
Fixpoint parse_slack_output (bot_id : string) (output_dict : list slack_event)
    : result (option (string * string * string)) :=
  match output_dict with
  | [] => inr None
  | output :: rest =>
      match ev_text output, ev_user output with
      | Some text, Some user =>
          if ev_user_profile output then parse_slack_output bot_id rest
          else if str_contains (at_bot bot_id) text then
            let said :=
              lower (Py.strip (remove_all (at_bot bot_id) text O)) in
            match ev_channel output with
            | Some channel => inr (Some (said, channel, user))
            | None => inl Py.KeyError
            end
          else
            match ev_channel output with
            | None => inl Py.KeyError
            | Some channel =>
                if Py.startswith "D" channel && negb (String.eqb user bot_id)
                then inr (Some (lower (Py.strip text), channel, user))
                else parse_slack_output bot_id rest
            end
      | _, _ => parse_slack_output bot_id rest
      end
  end.

(** An event that [parse_slack_output] passes over. *)
Definition ignored (bot_id : string) (ev : slack_event) : Prop :=
  ev_text ev = None
  ∨ ev_user ev = None
  ∨ ev_user_profile ev = true
  ∨ ∃ text user channel,
      ev_text ev = Some text ∧ ev_user ev = Some user
      ∧ ev_channel ev = Some channel
      ∧ str_contains (at_bot bot_id) text = false
      ∧ (Py.startswith "D" channel = false ∨ user = bot_id).

(** Events: a message in a public channel, the same with a mention of
    the bot [B1], a direct message, and one that carries a profile. *)
Definition public_event : slack_event :=
  SlackEvent (Some "Hello") (Some "U7") (Some "C1") false.
Definition mention_event : slack_event :=
  SlackEvent (Some " <@B1> Find a MUG ") (Some "U7") (Some "C1") false.
Definition direct_event : slack_event :=
  SlackEvent (Some " Show my Cart") (Some "U7") (Some "D9") false.
Definition profile_event : slack_event :=
  SlackEvent (Some "<@B1> hi") (Some "U7") (Some "D9") true.
Definition no_channel_event : slack_event :=
  SlackEvent (Some "<@B1> hi") (Some "U7") None false.

(** ** [init_customer] *)

(** The [profile] of a Slack user and the reply of [users.info]. *)
Record slack_profile := SlackProfile {
  pr_email : option string;
  pr_first_name : option string;
  pr_last_name : option string
}.

Record slack_user := SlackUser {
  su_profile : option slack_profile
}.

(** The customer documents of [cloudant_online_store]: [find_customer]
    returns the document of the customer, if any, and
    [add_customer_obj] stores the customer object it is given. *)
Class CustomerDirectory (DB : Type) := {
  find_customer : DB → string → result (option (gmap string string));
  add_customer_obj : DB → option OnlineStoreCustomer → result DB
}.

Definition with_customer {DB} (c : OnlineStoreCustomer) (s : self DB) : self DB :=
  Self (context s) (Some c) (response_tuple s) (database s)
    (store_calls s) (slack_messages s).

Section InitCustomer.

Context {DB : Type} `{!CustomerDirectory DB}.

(** [self.slack_client.api_call("users.info", user=user_id)]: the
    [user] of the reply, [None] when the reply has no such key. *)
Variable users_info : string → result (option slack_user).

(** [d[k]] on a document. *)
Definition document_item (d : gmap string string) (k : string) : @M DB string :=
  match d !! k with
  | Some v => mret v
  | None => raise Py.KeyError
  end.

(** [p[k]] on a key of the profile that may be absent. *)
Definition profile_item (v : option string) : @M DB string :=
  match v with
  | Some x => mret x
  | None => raise Py.KeyError
  end.

Definition set_customer (c : OnlineStoreCustomer) : @M DB unit := λ s,
  (inr tt, with_customer c s).

(** Set the customer using data from Cloudant DB. *)
Definition customer_from_db (user_data : gmap string string) : @M DB unit :=
  email_addr ← document_item user_data "email";
  first ← document_item user_data "first_name";
  last ← document_item user_data "last_name";
  set_customer (Customer email_addr first last []).

(** Set the customer using data from Slack. *)
Definition create_user_from_ui (user : slack_user) : @M DB unit :=
  profile ← match su_profile user with
            | Some p => mret p
            | None => raise Py.KeyError
            end;
  email_addr ← profile_item (pr_email profile);
  first ← profile_item (pr_first_name profile);
  last ← profile_item (pr_last_name profile);
  set_customer (Customer email_addr first last []).

(** [user_json['user'].get('profile', {}).get('email')] *)
Definition profile_email (user : slack_user) : option string :=
  match su_profile user with
  | Some p => pr_email p
  | None => None
  end.

(** [self.cloudant_online_store.add_customer_obj(self.customer)] *)
Definition persist_customer : @M DB unit := λ s,
  match add_customer_obj (database s) (customer s) with
  | inr d => (inr tt, with_database d s)
  | inl e => (inl e, s)
  end.

(** The body of [if cust:]. *)
Definition find_or_create (user : slack_user) (cust : string) : @M DB unit :=
  d ← get_database;
  user_data ← lift (find_customer d cust);
  match user_data with
  | Some data =>
      if bool_decide (data = ∅)
      then create_user_from_ui user ;; persist_customer
      else customer_from_db data
  | None => create_user_from_ui user ;; persist_customer
  end.

(** [if self.customer: self.add_customer_to_context()] *)
Definition add_customer_if_any : @M DB unit := λ s,
  match customer s with
  | Some _ => add_customer_to_context s
  | None => (inr tt, s)
  end.

(** Get user from DB, or create entry for user.  The [AssertionError]
    of [assert user_id] is carried by its name. *)
Definition init_customer (user_id : string) : @M DB unit :=
  if String.eqb user_id "" then raise (Py.ServiceError "AssertionError")
  else
    match users_info user_id with
    | inl _ => mret tt
    | inr None => mret tt
    | inr (Some user) =>
        match profile_email user with
        | Some (String c cust') => find_or_create user (String c cust')
        | Some EmptyString | None => mret tt
        end ;;
        add_customer_if_any
    end.

End InitCustomer.

(** Modelled from the spec: the customer documents of the
    [CustomerStore], whose module is not among the sources; the
    directory maps an email to the document of the customer. *)
#[global] Instance memory_directory
    : CustomerDirectory (gmap string (gmap string string)) := {|
  find_customer d email := inr (d !! email);
  add_customer_obj d customer :=
    match customer with
    | Some c =>
        inr (<[email c := {[ "email" := email c;
                             "first_name" := first_name c;
                             "last_name" := last_name c ]}]> d)
    | None => inl Py.AttributeError
    end
|}.

Definition alice_document : gmap string string :=
  {[ "email" := "alice@example.com"; "first_name" := "Alice";
     "last_name" := "Ames" ]}.

Definition alice_profile : slack_user :=
  SlackUser (Some (SlackProfile (Some "alice@example.com") (Some "Alice")
                     (Some "Ames"))).

Definition directory_session (d : gmap string (gmap string string))
    : self (gmap string (gmap string string)) :=
  {| context := {[ "get_input" := Py.PStr "yes" ]}; customer := None;
     response_tuple := None; database := d;
     store_calls := []; slack_messages := [] |}.

(** * Checks of the model on concrete inputs *)

Example find_first_index : Py.find "abcabc" "bc" 0 6 = 1.
Proof. reflexivity. Qed.

Example find_from_start : Py.find "abcabc" "bc" 2 6 = 4.
Proof. reflexivity. Qed.

Example find_missing : Py.find "abcabc" "x" 0 6 = -1.
Proof. reflexivity. Qed.

Example find_empty_at_end : Py.find "abc" EmptyString 3 3 = 3.
Proof. reflexivity. Qed.

Example find_start_past_end : Py.find "abc" EmptyString 4 3 = -1.
Proof. reflexivity. Qed.

Example rfind_last_index : Py.rfind "abcabc" "bc" 0 6 = 4.
Proof. reflexivity. Qed.

Example rfind_missing : Py.rfind "abcabc" "x" 0 6 = -1.
Proof. reflexivity. Qed.

Example slice_inside : Py.slice "abcdef" 2 4 = "cd".
Proof. reflexivity. Qed.

Example slice_crossed : Py.slice "abcdef" 4 2 = EmptyString.
Proof. reflexivity. Qed.

Example slice_negative : Py.slice "abcdef" 1 (-1) = "bcde".
Proof. reflexivity. Qed.

Example int_of_padded : Py.int (Py.PStr " 12 ") = inr 12.
Proof. reflexivity. Qed.

Example int_of_signed : Py.int (Py.PStr "-7") = inr (-7).
Proof. reflexivity. Qed.

Example int_of_letters : Py.int (Py.PStr "abc") = inl Py.ValueError.
Proof. reflexivity. Qed.

Example int_of_empty : Py.int (Py.PStr "") = inl Py.ValueError.
Proof. reflexivity. Qed.

Example int_of_fraction : Py.int (Py.PFloat 3.7) = inr 3.
Proof. reflexivity. Qed.

Example int_of_none : Py.int Py.PNone = inl Py.TypeError.
Proof. reflexivity. Qed.

(** A file separator (code 28) is white space for [strip], not for [int];
    the no-break space (160) and NEL (133) are white space for both. *)
Example int_of_fs_padded :
  Py.int (Py.PStr (String "028"%char "3")) = inl Py.ValueError.
Proof. reflexivity. Qed.

Example int_of_nbsp_padded :
  Py.int (Py.PStr ("3" +:+ String "160"%char "")) = inr 3.
Proof. reflexivity. Qed.

Example int_of_nel_padded :
  Py.int (Py.PStr (String "133"%char "42" +:+ String "011"%char "")) = inr 42.
Proof. reflexivity. Qed.

Example strip_fs_nbsp :
  Py.strip (String "028"%char "3" +:+ String "160"%char "") = "3".
Proof. reflexivity. Qed.

Example int_of_underscores :
  Py.int (Py.PStr " 1_0 ") = inr 10
  ∧ Py.int (Py.PStr "1__0") = inl Py.ValueError
  ∧ Py.int (Py.PStr "_1") = inl Py.ValueError
  ∧ Py.int (Py.PStr "1_") = inl Py.ValueError
  ∧ Py.int (Py.PStr "+5") = inr 5
  ∧ Py.int (Py.PStr "- 5") = inl Py.ValueError
  ∧ Py.int (Py.PStr "+") = inl Py.ValueError.
Proof. repeat split; reflexivity. Qed.

(** The limit on the digits of a numeral: 4300 digits are read, 4301 are
    refused, leading zeros counted. *)
Example int_of_4300_digits :
  Py.int (Py.PStr (String.string_of_list_ascii (repeat "1"%char 4300)))
  = inr ((10 ^ 4300 - 1) / 9).
Proof. vm_compute. reflexivity. Qed.

Example int_of_4301_digits :
  Py.int (Py.PStr (String.string_of_list_ascii (repeat "1"%char 4301)))
  = inl Py.ValueError
  ∧ Py.int (Py.PStr (String.string_of_list_ascii (repeat "0"%char 4301)))
    = inl Py.ValueError.
Proof. split; vm_compute; reflexivity. Qed.

(** [lower] on the capital letters of Latin-1: E acute (201) becomes
    e acute (233); the multiplication sign (215) has no case. *)
Example lower_latin1 :
  lower (String "067"%char (String "201"%char (String "215"%char "")))
  = String "099"%char (String "233"%char (String "215"%char "")).
Proof. reflexivity. Qed.

(** A direct message whose text stands between a no-break space and a
    NEL and has a capital letter of Latin-1. *)
Example parse_direct_latin1 :
  parse_slack_output "B1"
    [SlackEvent
       (Some (String "160"%char
                ("CAF" +:+ String "201"%char (String "133"%char ""))))
       (Some "U7") (Some "D9") false]
  = inr (Some ("caf" +:+ String "233"%char "", "D9", "U7")).
Proof. reflexivity. Qed.

Example str_of_twelve : Py.str_of_int 12 = "12".
Proof. reflexivity. Qed.

Example slack_encode_entities : slack_encode "A & B <C>" = "A &amp; B &lt;C&gt;".
Proof. reflexivity. Qed.

Example sub_scale_rewrites :
  sub_scale "img/scale[200]/a/scale[]/scale[7]x" O
  = "img/scale[50]/a/scale[]/scale[50]x".
Proof. reflexivity. Qed.

Example ibm_store_url :
  get_product_url
    {| text := None; html := Some "<p>/ProductDetail.aspx?pid=1234567";
       extracted_metadata := None; score := None |} "ibm_store"
  = "http://www.logostore-globalid.us/ProductDetail.aspx?pid=123456".
Proof. reflexivity. Qed.

Example format_two_results :
  format_discovery_response
    {| results := Some [red_mug; two_anchors]; matching_results := Some 2 |}
    "ibm_store"
  = inr [ {| cart_number := "1"; name := " Red Mug"; url := EmptyString;
             image := EmptyString |};
          {| cart_number := "2"; name := EmptyString; url := EmptyString;
             image := EmptyString |} ].
Proof. reflexivity. Qed.

Example delete_second_item :
  handle_delete_from_cart (session (cart_request "delete" "2") (Some alice))
  = (inr false,
     {| context := cart_request EmptyString EmptyString;
        customer := Some alice;
        response_tuple := Some [];
        database := {[ "alice@example.com" := ["mug: u1"] ]};
        store_calls := [ListShoppingCart "alice@example.com";
                        DeleteItemShoppingCart "alice@example.com" "cap: u2"];
        slack_messages := [] |}).
Proof. reflexivity. Qed.

(** * Auxiliary facts *)

(** ** Strings: lengths, prefixes and slices *)

Section StringFacts.

Implicit Types (s sub a b r : string) (c : ascii) (i k n : nat).

Lemma str_app_cons c a b : String c a +:+ b = String c (a +:+ b).
Proof. reflexivity. Qed.

Lemma str_app_nil_l b : EmptyString +:+ b = b.
Proof. reflexivity. Qed.

Lemma str_app_nil_r a : a +:+ EmptyString = a.
Proof. induction a as [|c a IH]; [done|]. by rewrite str_app_cons, IH. Qed.

Lemma str_app_assoc a b r : (a +:+ b) +:+ r = a +:+ (b +:+ r).
Proof. induction a as [|c a IH]; [done|]. by rewrite !str_app_cons, IH. Qed.

Lemma str_length_app a b :
  String.length (a +:+ b) = (String.length a + String.length b)%nat.
Proof. induction a as [|c a IH]; [done|]. rewrite str_app_cons. simpl. by rewrite IH. Qed.

Lemma len_app a b : Py.len (a +:+ b) = Py.len a + Py.len b.
Proof. unfold Py.len. rewrite str_length_app. lia. Qed.

Lemma len_nonneg s : 0 ≤ Py.len s.
Proof. unfold Py.len. lia. Qed.

Lemma str_drop_app a b : Py.str_drop (String.length a) (a +:+ b) = b.
Proof. induction a as [|c a IH]; [done|]. rewrite str_app_cons. simpl. exact IH. Qed.

Lemma str_take_app a b : Py.str_take (String.length a) (a +:+ b) = a.
Proof. induction a as [|c a IH]; [by destruct b|]. rewrite str_app_cons. simpl. by rewrite IH. Qed.

Lemma str_take_all s : Py.str_take (String.length s) s = s.
Proof. induction s as [|c s IH]; [done|]. simpl. by rewrite IH. Qed.

Lemma str_drop_all s : Py.str_drop (String.length s) s = EmptyString.
Proof. induction s as [|c s IH]; [done|]. simpl. exact IH. Qed.

Lemma str_take_drop n s : Py.str_take n s +:+ Py.str_drop n s = s.
Proof.
  revert s. induction n as [|n IH]; intros [|c s]; simpl; try done.
  by rewrite str_app_cons, IH.
Qed.

Lemma length_str_take n s :
  (n ≤ String.length s)%nat → String.length (Py.str_take n s) = n.
Proof.
  revert s. induction n as [|n IH]; intros [|c s]; simpl; try lia.
  intros. rewrite IH; lia.
Qed.

Lemma length_str_drop n s :
  String.length (Py.str_drop n s) = (String.length s - n)%nat.
Proof. revert s. induction n as [|n IH]; intros [|c s]; simpl; try done. Qed.

Lemma startswith_app sub r : Py.startswith sub (sub +:+ r) = true.
Proof.
  induction sub as [|c sub IH]; [done|].
  rewrite str_app_cons. simpl. by rewrite Ascii.eqb_refl, IH.
Qed.

Lemma startswith_inv sub s :
  Py.startswith sub s = true → ∃ r, s = sub +:+ r.
Proof.
  revert s. induction sub as [|c sub IH]; intros s H.
  - by exists s.
  - destruct s as [|d s]; [done|]. simpl in H.
    apply andb_true_iff in H as [Hc Hs]. apply Ascii.eqb_eq in Hc as ->.
    destruct (IH _ Hs) as [r ->]. by exists r.
Qed.

Lemma startswith_length sub s :
  Py.startswith sub s = true → (String.length sub ≤ String.length s)%nat.
Proof. intros [r ->]%startswith_inv. rewrite str_length_app. lia. Qed.

(** *** Occurrences *)

Lemma occurs_at_0 sub s : occurs_at sub s 0 ↔ Py.startswith sub s = true.
Proof.
  split.
  - intros (a & b & -> & Ha). destruct a; [|done].
    rewrite str_app_nil_l. apply startswith_app.
  - intros [r ->]%startswith_inv. by exists EmptyString, r.
Qed.

Lemma occurs_at_S sub c s i :
  occurs_at sub (String c s) (S i) ↔ occurs_at sub s i.
Proof.
  split.
  - intros (a & b & E & Ha). destruct a as [|d a]; [done|].
    rewrite str_app_cons in E. injection E as -> ->. exists a, b. split; [done|].
    simpl in Ha. lia.
  - intros (a & b & -> & Ha). exists (String c a), b. split; [done|].
    simpl. lia.
Qed.

Lemma occurs_at_nil_S sub i : ¬ occurs_at sub EmptyString (S i).
Proof. intros (a & b & E & Ha). by destruct a. Qed.

Lemma occurs_at_app sub a b : occurs_at sub (a +:+ sub +:+ b) (String.length a).
Proof. by exists a, b. Qed.

Lemma occurs_at_shift sub a s i :
  occurs_at sub s i → occurs_at sub (a +:+ s) (String.length a + i).
Proof.
  intros (p & q & -> & Hp). exists (a +:+ p), q.
  rewrite str_app_assoc, str_length_app. split; [done|lia].
Qed.

Lemma occurs_at_length sub s i :
  occurs_at sub s i → (i + String.length sub ≤ String.length s)%nat.
Proof. intros (a & b & -> & <-). rewrite !str_length_app. lia. Qed.

Lemma startswith_app_l sub a r :
  Py.startswith sub (a +:+ r) = true →
  (String.length sub ≤ String.length a)%nat →
  Py.startswith sub a = true.
Proof.
  revert a. induction sub as [|c sub IH]; intros a H Hl; [done|].
  destruct a as [|d a]; [simpl in Hl; lia|].
  rewrite str_app_cons in H. simpl in *.
  apply andb_true_iff in H as [-> H]. apply IH; [done|lia].
Qed.

(** An occurrence that ends inside the first part lies in that part. *)
Lemma occurs_at_app_l sub a r i :
  occurs_at sub (a +:+ r) i →
  (i + String.length sub ≤ String.length a)%nat →
  occurs_at sub a i.
Proof.
  revert a. induction i as [|i IH]; intros a H Hl.
  - apply occurs_at_0. apply occurs_at_0 in H.
    by apply (startswith_app_l _ _ r).
  - destruct a as [|d a]; [simpl in Hl; lia|].
    rewrite str_app_cons in H. apply occurs_at_S in H. apply occurs_at_S.
    apply IH; [done|]. simpl in Hl. lia.
Qed.

Lemma occurs_atb_spec sub s i : occurs_at sub s i ↔ occurs_atb sub s i = true.
Proof.
  unfold occurs_atb. revert s. induction i as [|i IH]; intros s.
  - rewrite occurs_at_0. simpl. done.
  - destruct s as [|c s].
    + split; [by intros ?%occurs_at_nil_S|done].
    + rewrite occurs_at_S, IH. simpl. done.
Qed.

Lemma none_occurs_spec sub s l i :
  none_occurs sub s l = true → i ∈ l → ¬ occurs_at sub s i.
Proof.
  unfold none_occurs. rewrite forallb_forall. intros H Hi Ho.
  apply list_elem_of_In in Hi. specialize (H _ Hi).
  apply occurs_atb_spec in Ho. by rewrite Ho in H.
Qed.

(** Checks by computation that an occurrence is the first, the last, or
    that there is none. *)
Lemma first_occurrence_check sub s n :
  none_occurs sub s (seq 0 n) = true → ∀ i, occurs_at sub s i → (n ≤ i)%nat.
Proof.
  intros H i Ho. destruct (decide (n ≤ i)%nat) as [|Hlt]; [done|].
  exfalso. eapply none_occurs_spec; [exact H| |exact Ho].
  apply elem_of_seq. lia.
Qed.

Lemma last_occurrence_check sub s n :
  none_occurs sub s (seq (S n) (String.length s)) = true →
  ∀ i, occurs_at sub s i → (i ≤ n)%nat.
Proof.
  intros H i Ho. destruct (decide (i ≤ n)%nat) as [|Hlt]; [done|].
  exfalso. eapply none_occurs_spec; [exact H| |exact Ho].
  apply occurs_at_length in Ho. apply elem_of_seq. lia.
Qed.

Lemma no_occurrence_check sub s :
  none_occurs sub s (seq 0 (S (String.length s))) = true →
  ∀ i, ¬ occurs_at sub s i.
Proof.
  intros H i Ho. eapply none_occurs_spec; [exact H| |exact Ho].
  apply occurs_at_length in Ho. apply elem_of_seq. lia.
Qed.

End StringFacts.

(** ** [find], [rfind] and slices on a text split in parts *)

Section FindFacts.

Implicit Types (s sub a b r pre rest : string) (c : ascii) (i k n : nat).

(** Turns the outcome of a comparison on [Z] into a fact for [lia]. *)
Ltac ltb_facts :=
  repeat match goal with
    | H : (_ <? _) = true |- _ => apply Z.ltb_lt in H
    | H : (_ <? _) = false |- _ => apply Z.ltb_ge in H
    end.

Lemma find_from_eq sub s k :
  Py.find_from sub s k =
  if Py.startswith sub s then Some k
  else match s with
       | EmptyString => None
       | String _ s' => Py.find_from sub s' (S k)
       end.
Proof. by destruct s. Qed.

Lemma find_from_none sub s k :
  (∀ i, ¬ occurs_at sub s i) → Py.find_from sub s k = None.
Proof.
  revert k. induction s as [|c s IH]; intros k H; rewrite find_from_eq.
  - destruct (Py.startswith sub EmptyString) eqn:E; [|done].
    apply occurs_at_0 in E. by apply H in E.
  - destruct (Py.startswith sub (String c s)) eqn:E.
    + apply occurs_at_0 in E. by apply H in E.
    + apply IH. intros i Hi. apply (H (S i)). by apply occurs_at_S.
Qed.

Lemma find_from_short sub s k :
  (String.length s < String.length sub)%nat → Py.find_from sub s k = None.
Proof.
  intros H. apply find_from_none. intros i Hi%occurs_at_length. lia.
Qed.

(** The first occurrence is the one found. *)
Lemma find_from_first sub pre rest k :
  (∀ i, occurs_at sub (pre +:+ sub +:+ rest) i → (String.length pre ≤ i)%nat) →
  Py.find_from sub (pre +:+ sub +:+ rest) k = Some (k + String.length pre)%nat.
Proof.
  revert k. induction pre as [|c pre IH]; intros k H; rewrite find_from_eq.
  - rewrite str_app_nil_l, startswith_app. simpl. f_equal. lia.
  - rewrite str_app_cons.
    destruct (Py.startswith sub (String c (pre +:+ sub +:+ rest))) eqn:E.
    + apply occurs_at_0 in E. rewrite <- str_app_cons in E.
      apply H in E. simpl in E. lia.
    + rewrite IH; [simpl; f_equal; lia|].
      intros i Hi. apply (occurs_at_S sub c) in Hi. rewrite <- str_app_cons in Hi.
      apply H in Hi. simpl in Hi. lia.
Qed.

Lemma rfind_from_none sub s k :
  (∀ i, ¬ occurs_at sub s i) → Py.rfind_from sub s k = None.
Proof.
  revert k. induction s as [|c s IH]; intros k H; simpl.
  - destruct sub; [|done]. exfalso. apply (H O). by apply occurs_at_0.
  - rewrite IH.
    + destruct (Py.startswith sub (String c s)) eqn:E; [|done].
      apply occurs_at_0 in E. by apply H in E.
    + intros i Hi. apply (H (S i)). by apply occurs_at_S.
Qed.

(** The last occurrence is the one found. *)
Lemma rfind_from_last sub pre rest k :
  (∀ i, occurs_at sub (pre +:+ sub +:+ rest) i → (i ≤ String.length pre)%nat) →
  Py.rfind_from sub (pre +:+ sub +:+ rest) k = Some (k + String.length pre)%nat.
Proof.
  revert k. induction pre as [|c pre IH]; intros k H.
  - rewrite str_app_nil_l in *. simpl in H.
    assert (Hs : Py.startswith sub (sub +:+ rest) = true) by apply startswith_app.
    destruct (sub +:+ rest) as [|d t] eqn:Et; simpl.
    + rewrite Hs. f_equal. lia.
    + rewrite rfind_from_none.
      * simpl in Hs. rewrite Hs. f_equal. lia.
      * intros i Hi. apply (occurs_at_S sub d) in Hi. apply H in Hi. lia.
  - rewrite str_app_cons. simpl. rewrite IH; [f_equal; lia|].
    intros i Hi. apply (occurs_at_S sub c) in Hi. rewrite <- str_app_cons in Hi.
    apply H in Hi. simpl in Hi. lia.
Qed.

Lemma slice_suffix a r : Py.slice (a +:+ r) (Py.len a) (Py.len (a +:+ r)) = r.
Proof.
  unfold Py.slice, Py.clamp. rewrite len_app.
  pose proof (len_nonneg a). pose proof (len_nonneg r).
  repeat case_match; ltb_facts; try lia.
  - replace (Z.to_nat (Z.min (Py.len a) (Py.len a + Py.len r)))
      with (String.length a) by (unfold Py.len in *; lia).
    rewrite str_drop_app.
    replace (Z.to_nat _) with (String.length r) by (unfold Py.len in *; lia).
    apply str_take_all.
  - destruct r; [done|]. unfold Py.len in *. simpl in *. lia.
Qed.

(** [s[len(a):len(a)+len(m)]] is the part [m] of [a + m + b]. *)
Lemma slice_mid a m b :
  Py.slice (a +:+ m +:+ b) (Py.len a) (Py.len a + Py.len m) = m.
Proof.
  unfold Py.slice, Py.clamp. rewrite !len_app.
  pose proof (len_nonneg a). pose proof (len_nonneg m).
  pose proof (len_nonneg b).
  repeat case_match; ltb_facts; try lia.
  - replace (Z.to_nat (Z.min (Py.len a) (Py.len a + (Py.len m + Py.len b))))
      with (String.length a) by (unfold Py.len in *; lia).
    rewrite str_drop_app.
    replace (Z.to_nat _) with (String.length m) by (unfold Py.len in *; lia).
    apply str_take_app.
  - destruct m; [done|]. unfold Py.len in *. simpl in *. lia.
Qed.

(** [s.find(sub, len(a), len(s))] searches the part after [a]. *)
Lemma find_suffix a r sub :
  Py.find (a +:+ r) sub (Py.len a) (Py.len (a +:+ r)) =
  match Py.find_from sub r O with
  | Some i => Py.len a + Z.of_nat i
  | None => -1
  end.
Proof.
  unfold Py.find.
  pose proof (len_nonneg a). pose proof (len_nonneg r).
  assert (Hc : Py.clamp (Py.len (a +:+ r)) (Py.len (a +:+ r)) = Py.len (a +:+ r)).
  { unfold Py.clamp. rewrite len_app. case_match; ltb_facts; lia. }
  assert (Hb : Py.adjust_start (Py.len a) (Py.len (a +:+ r)) = Py.len a).
  { unfold Py.adjust_start. case_match; ltb_facts; lia. }
  rewrite Hc, Hb. case_match eqn:E; ltb_facts.
  - rewrite find_from_short; [done|].
    rewrite len_app in E. unfold Py.len in *. lia.
  - by rewrite slice_suffix.
Qed.

Lemma find_whole s sub :
  Py.find s sub 0 (Py.len s) =
  match Py.find_from sub s O with
  | Some i => Z.of_nat i
  | None => -1
  end.
Proof.
  pose proof (find_suffix EmptyString s sub) as H.
  rewrite str_app_nil_l in H. change (Py.len EmptyString) with 0 in H.
  rewrite H. by destruct (Py.find_from sub s 0).
Qed.

Lemma rfind_whole s sub :
  Py.rfind s sub 0 (Py.len s) =
  match Py.rfind_from sub s O with
  | Some i => Z.of_nat i
  | None => -1
  end.
Proof.
  unfold Py.rfind. pose proof (len_nonneg s).
  assert (Hc : Py.clamp (Py.len s) (Py.len s) = Py.len s).
  { unfold Py.clamp. case_match; ltb_facts; lia. }
  rewrite Hc. change (Py.adjust_start 0 (Py.len s)) with 0.
  pose proof (slice_suffix EmptyString s) as Hs.
  rewrite str_app_nil_l in Hs. change (Py.len EmptyString) with 0 in Hs.
  rewrite Hs. case_match eqn:E; ltb_facts.
  - rewrite rfind_from_none; [done|].
    intros i Hi%occurs_at_length. unfold Py.len in *. lia.
  - by destruct (Py.rfind_from sub s 0).
Qed.

End FindFacts.

(** ** The extractors for one result *)

Section Extractors.

Implicit Types (e : entry) (t pre nm post rest : string) (sep : ascii).

(** The [ibm_store] branch of [get_product_name] on an entry with a text. *)
Lemma get_product_name_ibm_store e t :
  text e = Some t →
  get_product_name e "ibm_store" =
  let sidx := Py.find t "Product:" 0 (Py.len t) in
  if 0 <? sidx then
    let eidx := Py.find t "Category:" (sidx + 8) (Py.len t) in
    if 0 <? eidx then Py.slice t (sidx + 8) (eidx - 1) else EmptyString
  else EmptyString.
Proof. intros H. unfold get_product_name. rewrite H. reflexivity. Qed.

(** The [amazon] branch of [get_product_url] on an entry with a page. *)
Lemma get_product_url_amazon e t :
  html e = Some t →
  get_product_url e "amazon" =
  let sidx := Py.rfind t "<a href=" 0 (Py.len t) in
  if 0 <? sidx then
    let eidx := Py.find t ">" (sidx + 8) (Py.len t) in
    if 0 <? eidx then Py.slice t (sidx + 8 + 1) (eidx - 1) else EmptyString
  else EmptyString.
Proof. intros H. unfold get_product_url. rewrite H. reflexivity. Qed.

(** A marker whose first occurrence is at [len(pre)] is found there. *)
Lemma find_first t sub pre rest :
  t = pre +:+ sub +:+ rest →
  (∀ i, occurs_at sub t i → (String.length pre ≤ i)%nat) →
  Py.find t sub 0 (Py.len t) = Py.len pre.
Proof.
  intros -> H. rewrite find_whole, (find_from_first _ _ _ O); [|done].
  unfold Py.len. lia.
Qed.

Lemma find_absent t sub :
  (∀ i, ¬ occurs_at sub t i) → Py.find t sub 0 (Py.len t) = -1.
Proof. intros H. by rewrite find_whole, find_from_none. Qed.

Lemma rfind_last t sub pre rest :
  t = pre +:+ sub +:+ rest →
  (∀ i, occurs_at sub t i → (i ≤ String.length pre)%nat) →
  Py.rfind t sub 0 (Py.len t) = Py.len pre.
Proof.
  intros -> H. rewrite rfind_whole, (rfind_from_last _ _ _ O); [|done].
  unfold Py.len. lia.
Qed.

Lemma rfind_absent t sub :
  (∀ i, ¬ occurs_at sub t i) → Py.rfind t sub 0 (Py.len t) = -1.
Proof. intros H. by rewrite rfind_whole, rfind_from_none. Qed.

(** Searching [sub] from the end of the part [a] of [a + mid + sub + post],
    when [sub] does not occur earlier in [mid + sub + post]. *)
Lemma find_after a mid sub post :
  (∀ i, occurs_at sub (mid +:+ sub +:+ post) i → (String.length mid ≤ i)%nat) →
  Py.find (a +:+ mid +:+ sub +:+ post) sub (Py.len a)
    (Py.len (a +:+ mid +:+ sub +:+ post)) = Py.len a + Py.len mid.
Proof.
  intros H. rewrite find_suffix, (find_from_first _ _ _ O); [|done].
  unfold Py.len. lia.
Qed.

Lemma find_after_absent a rest sub :
  (∀ i, ¬ occurs_at sub rest i) →
  Py.find (a +:+ rest) sub (Py.len a) (Py.len (a +:+ rest)) = -1.
Proof. intros H. by rewrite find_suffix, find_from_none. Qed.

Lemma len_pos s : s ≠ EmptyString → 0 < Py.len s.
Proof. destruct s; [done|]. unfold Py.len. simpl. lia. Qed.

End Extractors.

(** * Properties *)

(** ** Name and URL extraction (C8, C9, C10) *)

(** Brings both sides of an equation between concatenations to the same
    right-nested form. *)
Ltac str_norm :=
  repeat first
    [ rewrite str_app_assoc | rewrite str_app_cons | rewrite str_app_nil_l ];
  reflexivity.

Lemma str_app_sep nm sep rest :
  nm +:+ String sep rest = (nm +:+ String sep EmptyString) +:+ rest.
Proof. by rewrite str_app_assoc. Qed.

(** C8, as amended: for source [ibm_store], when the first [Product:]
    marker of the text is at a positive index, the name is the substring
    from just after that marker up to the next [Category:] marker, less
    exactly one trailing character; a blank that follows the marker is
    kept.  When [Product:] is absent, or no [Category:] follows it, the
    name is the empty string. *)
Theorem product_name_between_markers (e : entry) (t : string) :
  text e = Some t →
  (∀ pre nm sep post,
     t = pre +:+ "Product:" +:+ nm +:+ String sep ("Category:" +:+ post) →
     pre ≠ EmptyString →
     (∀ i, occurs_at "Product:" t i → (String.length pre ≤ i)%nat) →
     (∀ i, occurs_at "Category:" (nm +:+ String sep ("Category:" +:+ post)) i →
           (String.length nm + 1 ≤ i)%nat) →
     get_product_name e "ibm_store" = nm)
  ∧ ((∀ i, ¬ occurs_at "Product:" t i) →
     get_product_name e "ibm_store" = EmptyString)
  ∧ (∀ pre rest,
       t = pre +:+ "Product:" +:+ rest →
       (∀ i, occurs_at "Product:" t i → (String.length pre ≤ i)%nat) →
       (∀ i, ¬ occurs_at "Category:" rest i) →
       get_product_name e "ibm_store" = EmptyString).
Proof.
  intros Ht. rewrite (get_product_name_ibm_store e t Ht). split; [|split].
  - intros pre nm sep post E Hpre Hfirst Hcat.
    rewrite (find_first t "Product:" pre _ E Hfirst). cbv zeta.
    pose proof (len_pos pre Hpre) as Hpos.
    destruct (Z.ltb_spec 0 (Py.len pre)) as [_|]; [|lia].
    assert (Hl : Py.len pre + 8 = Py.len (pre +:+ "Product:")).
    { by rewrite len_app. }
    rewrite Hl. clear Ht Hfirst. subst t.
    set (a := pre +:+ "Product:").
    set (mid := nm +:+ String sep EmptyString).
    replace (pre +:+ "Product:" +:+ nm +:+ String sep ("Category:" +:+ post))
      with (a +:+ mid +:+ "Category:" +:+ post)
      by (unfold a, mid; by rewrite !str_app_assoc).
    rewrite find_after.
    2:{ intros i Hi. unfold mid in *. rewrite <- str_app_sep in Hi.
        apply Hcat in Hi. rewrite str_length_app. simpl. lia. }
    assert (Hmid : Py.len mid = Py.len nm + 1).
    { unfold mid. by rewrite len_app. }
    pose proof (len_nonneg a). pose proof (len_nonneg nm).
    destruct (Z.ltb_spec 0 (Py.len a + Py.len mid)) as [_|]; [|lia].
    replace (Py.len a + Py.len mid - 1) with (Py.len a + Py.len nm) by lia.
    unfold mid. rewrite (str_app_assoc nm). apply slice_mid.
  - intros Habs. by rewrite (find_absent t "Product:" Habs).
  - intros pre rest E Hfirst Hcat.
    rewrite (find_first t "Product:" pre _ E Hfirst). cbv zeta.
    destruct (Z.ltb_spec 0 (Py.len pre)) as [_|]; [|done].
    assert (E' : t = (pre +:+ "Product:") +:+ rest) by by rewrite E, str_app_assoc.
    assert (Hl : Py.len pre + 8 = Py.len (pre +:+ "Product:")).
    { by rewrite len_app. }
    rewrite Hl. rewrite E'. by rewrite (find_after_absent _ _ _ Hcat).
Qed.

(** The worked example of C8 as the specification states it fails: the
    blank between the marker and the name is part of the result. *)
Lemma red_mug_name_keeps_blank :
  get_product_name red_mug "ibm_store" = " Red Mug"
  ∧ get_product_name red_mug "ibm_store" ≠ "Red Mug".
Proof. split; [reflexivity|discriminate]. Qed.

Lemma product_name_between_markers_witness :
  get_product_name red_mug "ibm_store" = " Red Mug"
  ∧ get_product_name no_marker "ibm_store" = EmptyString
  ∧ get_product_name category_first "ibm_store" = EmptyString.
Proof.
  split; [|split].
  - apply (proj1 (product_name_between_markers red_mug _ eq_refl)
             "xx " " Red Mug" " "%char " Drinkware yy").
    + reflexivity.
    + discriminate.
    + apply first_occurrence_check. reflexivity.
    + apply first_occurrence_check. reflexivity.
  - apply (proj1 (proj2 (product_name_between_markers no_marker _ eq_refl))).
    apply no_occurrence_check. reflexivity.
  - apply (proj2 (proj2 (product_name_between_markers category_first _ eq_refl))
             "a Category: Drinkware " " Red Mug").
    + reflexivity.
    + apply first_occurrence_check. reflexivity.
    + apply no_occurrence_check. reflexivity.
Defined.

(** C10: for source [ibm_store], a text that begins with the [Product:]
    marker yields the empty name, whatever follows: the marker is
    accepted only at a strictly positive index. *)
Theorem product_name_marker_at_start (e : entry) (rest : string) :
  text e = Some ("Product:" +:+ rest) →
  get_product_name e "ibm_store" = EmptyString.
Proof.
  intros Ht. rewrite (get_product_name_ibm_store e _ Ht).
  rewrite find_whole, find_from_eq, startswith_app. reflexivity.
Qed.

Lemma product_name_marker_at_start_witness :
  get_product_name red_mug_at_start "ibm_store" = EmptyString.
Proof.
  apply (product_name_marker_at_start red_mug_at_start
           " Red Mug Category: Drinkware yy").
  reflexivity.
Defined.

(** C9: for source [amazon], on a page where the anchor-opening pattern
    occurs at least twice, the URL is taken from the last occurrence: it
    is the text between the character that follows the pattern and the
    character that precedes the next [>], both excluded.  When the
    pattern is absent the URL is the empty string. *)
Theorem product_url_from_last_anchor (e : entry) (t : string) :
  html e = Some t →
  (∀ pre q1 u q2 post,
     t = pre +:+ "<a href=" +:+ String q1 (u +:+ String q2 (">" +:+ post)) →
     (∀ i, occurs_at "<a href=" t i → (i ≤ String.length pre)%nat) →
     (∃ i, occurs_at "<a href=" t i ∧ i ≠ String.length pre) →
     (∀ i, ¬ occurs_at ">" (String q1 (u +:+ String q2 EmptyString)) i) →
     get_product_url e "amazon" = u)
  ∧ ((∀ i, ¬ occurs_at "<a href=" t i) →
     get_product_url e "amazon" = EmptyString).
Proof.
  intros Ht. rewrite (get_product_url_amazon e t Ht). split.
  - intros pre q1 u q2 post E Hlast (j & Hj & Hne) Hgt.
    rewrite (rfind_last t "<a href=" pre _ E Hlast). cbv zeta.
    assert (Hpos : 0 < Py.len pre).
    { apply Hlast in Hj. unfold Py.len. lia. }
    destruct (Z.ltb_spec 0 (Py.len pre)) as [_|]; [|lia].
    assert (Hl : Py.len pre + 8 = Py.len (pre +:+ "<a href=")).
    { by rewrite len_app. }
    rewrite Hl. clear Ht Hlast Hj. subst t.
    set (a := pre +:+ "<a href=").
    set (mid := String q1 (u +:+ String q2 EmptyString)).
    replace (pre +:+ "<a href=" +:+ String q1 (u +:+ String q2 (">" +:+ post)))
      with (a +:+ mid +:+ ">" +:+ post)
      by (unfold a, mid; str_norm).
    rewrite find_after.
    2:{ intros i Hi.
        destruct (decide (String.length mid ≤ i)%nat) as [|Hlt]; [done|].
        exfalso. apply (Hgt i). apply (occurs_at_app_l _ _ _ _ Hi).
        unfold mid in Hlt. simpl in *. lia. }
    assert (Hmid : Py.len mid = Py.len u + 2).
    { unfold mid, Py.len. simpl. rewrite str_length_app. simpl. lia. }
    pose proof (len_nonneg a). pose proof (len_nonneg u).
    destruct (Z.ltb_spec 0 (Py.len a + Py.len mid)) as [_|]; [|lia].
    replace (Py.len a + 1) with (Py.len (a +:+ String q1 EmptyString))
      by (by rewrite len_app).
    replace (Py.len a + Py.len mid - 1)
      with (Py.len (a +:+ String q1 EmptyString) + Py.len u)
      by (rewrite len_app; change (Py.len (String q1 EmptyString)) with 1; lia).
    replace (a +:+ mid +:+ ">" +:+ post)
      with ((a +:+ String q1 EmptyString) +:+ u +:+ String q2 (">" +:+ post))
      by (unfold mid; str_norm).
    apply slice_mid.
  - intros Habs. by rewrite (rfind_absent t "<a href=" Habs).
Qed.

Lemma product_url_from_last_anchor_witness :
  get_product_url two_anchors "amazon" = "u2"
  ∧ get_product_url no_anchor "amazon" = EmptyString.
Proof.
  split.
  - apply (proj1 (product_url_from_last_anchor two_anchors _ eq_refl)
             "<p><a href='u1'>x</a> " "'"%char "u2" "'"%char "y</a>").
    + reflexivity.
    + apply last_occurrence_check. reflexivity.
    + exists 3%nat. split; [|discriminate].
      apply occurs_atb_spec. reflexivity.
    + apply no_occurrence_check. reflexivity.
  - apply (proj2 (product_url_from_last_anchor no_anchor _ eq_refl)).
    apply no_occurrence_check. reflexivity.
Defined.

(** ** The context merge (C7) *)

Lemma context_merge_lookup (X Y : gmap string Py.pyval) (k : string) :
  context_merge X Y !! k =
  match Y !! k with
  | Some v => Some v
  | None => X !! k
  end.
Proof.
  unfold context_merge. case_bool_decide as HY.
  - subst Y. by rewrite lookup_empty.
  - rewrite lookup_union. destruct (Y !! k), (X !! k); done.
Qed.

(** C7: [context_merge A B] is [A] with every key of [B] overwritten by
    the value [B] gives it, the keys that only [A] has keeping their
    value; the merge is right-biased, so the two orders differ as soon as
    [A] and [B] give different values to one key. *)
Theorem context_merge_right_biased (A B : gmap string Py.pyval) :
  (∀ k, context_merge A B !! k =
        match B !! k with
        | Some v => Some v
        | None => A !! k
        end)
  ∧ (∀ k a b, A !! k = Some a → B !! k = Some b → a ≠ b →
              context_merge A B ≠ context_merge B A).
Proof.
  split; [apply context_merge_lookup|].
  intros k a b Ha Hb Hne Heq.
  assert (Hk : context_merge A B !! k = context_merge B A !! k) by by rewrite Heq.
  rewrite !context_merge_lookup, Ha, Hb in Hk. congruence.
Qed.

Lemma context_merge_right_biased_witness :
  context_merge {[ "get_input" := Py.PStr "yes" ]}
                {[ "get_input" := Py.PStr "no" ]}
  ≠ context_merge {[ "get_input" := Py.PStr "no" ]}
                  {[ "get_input" := Py.PStr "yes" ]}.
Proof.
  apply (proj2 (context_merge_right_biased
                  {[ "get_input" := Py.PStr "yes" ]}
                  {[ "get_input" := Py.PStr "no" ]})
           "get_input" (Py.PStr "yes") (Py.PStr "no")).
  - reflexivity.
  - reflexivity.
  - discriminate.
Defined.

(** ** The formatter (C5) *)

(** The loop over the indices [k, k+1, .., k+n-1] of the results appends
    one record for each of these results, in order, with consecutive
    ordinals. *)
Lemma format_loop_seq (rs : list entry) (ds : string) (n k : nat) (c : Z)
    (out : list product_data) :
  (k + n ≤ length rs)%nat →
  format_loop rs ds (seq k n) c out =
  inr (out ++ imap (λ j r, make_product_data (c + Z.of_nat j) r ds)
                   (take n (drop k rs))).
Proof.
  revert k c out. induction n as [|n IH]; intros k c out Hlen.
  - simpl. by rewrite app_nil_r.
  - simpl seq. simpl format_loop.
    destruct (rs !! k) as [r|] eqn:Hr.
    2:{ apply lookup_ge_None in Hr. lia. }
    rewrite IH by lia. rewrite (drop_S _ _ _ Hr). simpl.
    rewrite <- app_assoc. simpl. rewrite Z.add_0_r. do 3 f_equal.
    apply imap_ext. intros j x _. simpl. f_equal. lia.
Qed.

(** What [format_discovery_response] returns, in closed form. *)
Lemma format_discovery_response_eq (response : discovery_response)
    (ds : string) :
  format_discovery_response response ds =
  inr (imap (λ j r, make_product_data (1 + Z.of_nat j) r ds)
         (take (Z.to_nat DISCOVERY_KEEP_COUNT) (default [] (results response)))).
Proof.
  unfold format_discovery_response.
  destruct (results response) as [[|r rs]|]; [done| |done].
  unfold range, llen. set (l := r :: rs).
  rewrite format_loop_seq by lia. simpl default. rewrite drop_0, app_nil_l.
  f_equal. f_equal.
  destruct (decide (length l ≤ Z.to_nat DISCOVERY_KEEP_COUNT)%nat).
  - rewrite !take_ge; [done|lia|lia].
  - f_equal. lia.
Qed.

(** C5: on every response the formatter returns a list no longer than
    the keep-count and than the list of results it was given; the
    ordinals of the list are the decimal numerals of 1, 2, .. up to its
    length; and its [i]-th record is made from the [i]-th result. *)
Theorem format_discovery_response_ordinals (response : discovery_response)
    (data_source : string) :
  ∃ output,
    format_discovery_response response data_source = inr output
    ∧ llen output ≤ Z.min DISCOVERY_KEEP_COUNT
                      (llen (default [] (results response)))
    ∧ cart_number <$> output =
      (λ i, Py.str_of_int (Z.of_nat i)) <$> seq 1 (length output)
    ∧ ∀ i p, output !! i = Some p →
        ∃ r, default [] (results response) !! i = Some r
             ∧ p = make_product_data (Z.of_nat i + 1) r data_source.
Proof.
  eexists. split; [apply format_discovery_response_eq|].
  set (rs := default [] (results response)).
  set (n := Z.to_nat DISCOVERY_KEEP_COUNT).
  split; [|split].
  - unfold llen. rewrite length_imap, length_take.
    unfold n, DISCOVERY_KEEP_COUNT. lia.
  - rewrite length_imap. generalize (take n rs). intros l.
    apply list_eq. intros i. rewrite !list_lookup_fmap, list_lookup_imap.
    destruct (l !! i) as [r|] eqn:Hi; simpl.
    + rewrite lookup_seq_lt by (by eapply lookup_lt_Some).
      cbn [fmap option_fmap option_map]. do 2 f_equal. lia.
    + rewrite lookup_seq_ge; [done|]. by apply lookup_ge_None.
  - intros i p. rewrite list_lookup_imap.
    destruct (take n rs !! i) as [r|] eqn:Hi; [|done].
    intros [= <-]. exists r. split.
    + apply lookup_take_Some in Hi. by destruct Hi.
    + f_equal. lia.
Qed.

(** ** The score filter (C6) *)

(** A threshold above zero is a true value. *)
Lemma positive_float_truthy (threshold : float) :
  PrimFloat.ltb 0 threshold = true → Py.truthy (Py.PFloat threshold) = true.
Proof.
  unfold Py.truthy. rewrite FloatAxioms.ltb_spec, FloatAxioms.eqb_spec.
  change (Prim2SF 0) with (S754_zero false).
  destruct (Prim2SF threshold) as [sg| sg| |sg m ex]; try done.
  - by destruct sg.
  - by destruct sg.
Qed.

Lemma keep_entry_spec (threshold : float) (x : entry) :
  keep_entry threshold x = true ↔ above_threshold threshold x.
Proof.
  unfold keep_entry, above_threshold. split.
  - destruct (score x) as [sc|]; [eauto|done].
  - by intros (sc & -> & H).
Qed.

Lemma filter_keep_entry (threshold : float) (rs : list entry) :
  List.filter (keep_entry threshold) rs = filter (above_threshold threshold) rs.
Proof.
  induction rs as [|x rs IH]; [done|]. simpl. rewrite filter_cons, IH.
  destruct (decide (above_threshold threshold x)) as [H|H].
  - apply keep_entry_spec in H. by rewrite H.
  - destruct (keep_entry threshold x) eqn:E; [|done].
    by apply keep_entry_spec in E.
Qed.

(** C6: with a minimum score above zero, the results left by the filter
    step are those results, in their order, that carry a score strictly
    above the minimum, a result without score being dropped; from the
    scores 0.9, 0.4, 0.7 and none, a minimum of 0.6 keeps the first and
    the third; with a minimum of zero the response is left as it is. *)
Theorem score_filter_keeps_above_threshold :
  (∀ threshold r rs,
     PrimFloat.ltb 0 threshold = true →
     results r = Some rs →
     results (score_filter_step threshold r) =
     Some (filter (above_threshold threshold) rs))
  ∧ results (score_filter_step 0.6 four_scores) =
    Some [scored "first" (Some 0.9%float); scored "third" (Some 0.7%float)]
  ∧ (∀ r, score_filter_step 0 r = r).
Proof.
  split; [|split].
  - intros threshold r rs Hpos Hrs. unfold score_filter_step.
    rewrite Hrs, (positive_float_truthy _ Hpos). simpl.
    by rewrite filter_keep_entry.
  - reflexivity.
  - intros r. unfold score_filter_step. by destruct (results r).
Qed.

Lemma score_filter_keeps_above_threshold_witness :
  results (score_filter_step 0.6 four_scores) =
  Some (filter (above_threshold 0.6) (default [] (results four_scores))).
Proof.
  apply (proj1 score_filter_keeps_above_threshold 0.6%float four_scores).
  - reflexivity.
  - reflexivity.
Defined.

(** ** Running the monad *)

Section Runs.

Context {DB : Type} `{!CloudantOnlineStore DB}.
Implicit Types (s : self DB) (v : Py.pyval) (k : Z) (c : OnlineStoreCustomer).

Lemma bind_ok {A B} (m : M A) (f : A → @M DB B) s x s1 :
  m s = (inr x, s1) → (m ≫= f) s = f x s1.
Proof. intros H. unfold mbind, M_bind. by rewrite H. Qed.

Lemma bind_raise {A B} (m : M A) (f : A → @M DB B) s e s1 :
  m s = (inl e, s1) → (m ≫= f) s = (inl e, s1).
Proof. intros H. unfold mbind, M_bind. by rewrite H. Qed.

Lemma customer_email_ok s c :
  customer s = Some c → customer_email s = (inr (email c), s).
Proof. intros H. unfold customer_email. by rewrite H. Qed.

Lemma customer_email_None s :
  customer s = None → customer_email s = (inl Py.AttributeError, s).
Proof. intros H. unfold customer_email. by rewrite H. Qed.

Lemma call_list_shopping_cart_run s em :
  call_list_shopping_cart em s =
  (list_shopping_cart (database s) em, with_call (ListShoppingCart em) s).
Proof. reflexivity. Qed.

Lemma clear_shopping_cart_run s :
  clear_shopping_cart s =
  (inr tt,
   with_context (<["cart_item" := Py.PStr ""]>
                   (<["shopping_cart" := Py.PStr ""]> (context s))) s).
Proof. reflexivity. Qed.

(** [int(self.context['cart_item'])] on a value that [int] accepts. *)
Lemma int_cart_item_ok s v k :
  context s !! "cart_item" = Some v → Py.int v = inr k →
  int_cart_item s = (inr (Some k), s).
Proof.
  intros Hv Hk. unfold int_cart_item, try_except_ValueError, context_item.
  unfold mbind, M_bind, get_context. rewrite Hv. unfold mret at 1, M_ret at 1.
  unfold lift. by rewrite Hk.
Qed.

(** ... and on a value for which [int] raises [ValueError]. *)
Lemma int_cart_item_ValueError s v :
  context s !! "cart_item" = Some v → Py.int v = inl Py.ValueError →
  int_cart_item s = (inr None, s).
Proof.
  intros Hv Hk. unfold int_cart_item, try_except_ValueError, context_item.
  unfold mbind, M_bind, get_context. rewrite Hv. unfold mret at 1, M_ret at 1.
  unfold lift. by rewrite Hk.
Qed.

(** ... on a value for which [int] raises another exception, which the
    [except ValueError] clause lets through ... *)
Lemma int_cart_item_raises s v (e : Py.exn) :
  context s !! "cart_item" = Some v → Py.int v = inl e →
  e ≠ Py.ValueError →
  int_cart_item s = (inl e, s).
Proof.
  intros Hv Hk Hne. unfold int_cart_item, try_except_ValueError, context_item.
  unfold mbind, M_bind, get_context. rewrite Hv. unfold mret at 1, M_ret at 1.
  unfold lift. rewrite Hk. by destruct e.
Qed.

(** ... and on a context that has no [cart_item]. *)
Lemma int_cart_item_KeyError s :
  context s !! "cart_item" = None → int_cart_item s = (inl Py.KeyError, s).
Proof.
  intros Hv. unfold int_cart_item, try_except_ValueError, context_item.
  unfold mbind, M_bind, get_context. by rewrite Hv.
Qed.

(** A loop none of whose indices is the ordinal does nothing. *)
Lemma for_enumerate_no_match {A} (body : nat → A → @M DB unit) (k : Z)
    (l : list A) (index : nat) s :
  (k < Z.of_nat index + 1 ∨ Z.of_nat index + llen l < k) →
  for_enumerate
    (λ i x, if Z.of_nat i + 1 =? k then body i x else mret tt) index l s
  = (inr tt, s).
Proof.
  revert index. induction l as [|x l IH]; intros index Hk; [done|].
  unfold llen in *. simpl in *. unfold mbind, M_bind.
  destruct (Z.eqb_spec (Z.of_nat index + 1) k) as [|_]; [lia|].
  unfold mret at 1, M_ret at 1. apply IH. lia.
Qed.

Lemma handle_add_to_cart_ValueError s v :
  context s !! "cart_item" = Some v → Py.int v = inl Py.ValueError →
  handle_add_to_cart s = (inr false, s).
Proof.
  intros Hv Hk. unfold handle_add_to_cart.
  by rewrite (bind_ok _ _ _ _ _ (int_cart_item_ValueError s v Hv Hk)).
Qed.

Lemma handle_delete_from_cart_ValueError s c cart v :
  customer s = Some c →
  list_shopping_cart (database s) (email c) = inr cart →
  context s !! "cart_item" = Some v → Py.int v = inl Py.ValueError →
  handle_delete_from_cart s =
  (inr false, with_call (ListShoppingCart (email c)) s).
Proof.
  intros Hc Hl Hv Hk. unfold handle_delete_from_cart.
  rewrite (bind_ok _ _ _ _ _ (customer_email_ok s c Hc)).
  erewrite bind_ok; [|by rewrite call_list_shopping_cart_run, Hl].
  by rewrite (bind_ok _ _ _ _ _
                (int_cart_item_ValueError
                   (with_call (ListShoppingCart (email c)) s) v Hv Hk)).
Qed.

End Runs.

(** ** The cart handlers (C2, C3, C4) *)

(** C4: when the customer is known, the store lists a cart of [n] items
    and [cart_item] is an integer [k] with [k > n] or [k < 1], deleting
    returns without raising and asks for no input; the only call issued
    to the store is the listing, so the database and the cart are as
    before, and nothing is sent to the user.  The two pending fields of
    the context are cleared. *)
Theorem delete_out_of_range_is_noop {DB : Type} `{!CloudantOnlineStore DB}
    (s : self DB) (c : OnlineStoreCustomer) (cart : list string)
    (v : Py.pyval) (k : Z) :
  customer s = Some c →
  list_shopping_cart (database s) (email c) = inr cart →
  context s !! "cart_item" = Some v →
  Py.int v = inr k →
  k > llen cart ∨ k < 1 →
  ∃ s', handle_delete_from_cart s = (inr false, s')
    ∧ store_calls s' = store_calls s ++ [ListShoppingCart (email c)]
    ∧ database s' = database s
    ∧ list_shopping_cart (database s') (email c) = inr cart
    ∧ slack_messages s' = slack_messages s
    ∧ context s' = <["cart_item" := Py.PStr ""]>
                     (<["shopping_cart" := Py.PStr ""]> (context s)).
Proof.
  intros Hc Hl Hv Hk Hrange. eexists. split.
  - unfold handle_delete_from_cart.
    rewrite (bind_ok _ _ _ _ _ (customer_email_ok s c Hc)).
    erewrite bind_ok; [|by rewrite call_list_shopping_cart_run, Hl].
    rewrite (bind_ok _ _ _ _ _
               (int_cart_item_ok
                  (with_call (ListShoppingCart (email c)) s) v k Hv Hk)).
    erewrite bind_ok; [|apply for_enumerate_no_match; lia].
    erewrite bind_ok; [|apply clear_shopping_cart_run].
    reflexivity.
  - by repeat split.
Qed.

Lemma delete_out_of_range_is_noop_witness :
  ∃ s', handle_delete_from_cart
          (session (cart_request "delete" "3") (Some alice)) = (inr false, s')
    ∧ store_calls s' = [ListShoppingCart "alice@example.com"]
    ∧ database s' = two_item_db
    ∧ list_shopping_cart (database s') "alice@example.com"
      = inr ["mug: u1"; "cap: u2"]
    ∧ slack_messages s' = []
    ∧ context s' = <["cart_item" := Py.PStr ""]>
                     (<["shopping_cart" := Py.PStr ""]>
                        (cart_request "delete" "3")).
Proof.
  apply (delete_out_of_range_is_noop
           (session (cart_request "delete" "3") (Some alice)) alice
           ["mug: u1"; "cap: u2"] (Py.PStr "3") 3).
  - reflexivity.
  - reflexivity.
  - reflexivity.
  - reflexivity.
  - left. reflexivity.
Defined.

(** C2, on the code: with [cart_item] set to [abc], adding returns
    without touching the store and leaves [shopping_cart] and
    [cart_item] as they were; so does deleting, after it has listed the
    cart.  Neither clears the two fields. *)
Theorem non_numeric_cart_item_stays_pending :
  handle_add_to_cart (session (cart_request "add" "abc") (Some alice))
  = (inr false, session (cart_request "add" "abc") (Some alice))
  ∧ handle_delete_from_cart (session (cart_request "delete" "abc") (Some alice))
    = (inr false,
       with_call (ListShoppingCart "alice@example.com")
         (session (cart_request "delete" "abc") (Some alice)))
  ∧ cart_request "add" "abc" !! "shopping_cart" = Some (Py.PStr "add")
  ∧ cart_request "add" "abc" !! "cart_item" = Some (Py.PStr "abc")
  ∧ cart_request "delete" "abc" !! "shopping_cart" = Some (Py.PStr "delete")
  ∧ cart_request "delete" "abc" !! "cart_item" = Some (Py.PStr "abc").
Proof.
  split; [|split; [|by repeat split]].
  - by apply (handle_add_to_cart_ValueError _ (Py.PStr "abc")).
  - by apply (handle_delete_from_cart_ValueError _ alice
                ["mug: u1"; "cap: u2"] (Py.PStr "abc")).
Qed.

(** The claim C3 fails on the code: with no customer, a context that
    asks for the listing of the cart makes the message handler raise. *)
Lemma list_without_customer_raises :
  handle_message quiet_config (λ _, "error") (λ item, item) Py.PNone "my cart"
    (session {[ "shopping_cart" := Py.PStr "list" ]} None)
  = (inl Py.AttributeError,
     with_message ("ok" +:+ nl)
       (session {[ "shopping_cart" := Py.PStr "list" ]} None)).
Proof. reflexivity. Qed.

(** C3, as amended: with no customer, no cart handler touches the
    store, the context or any other field, whatever the context holds;
    listing and deleting raise [AttributeError]; adding raises it when
    [int] accepts [cart_item], returns, asking for no input, when [int]
    rejects [cart_item] with a [ValueError], lets any other exception of
    [int] escape, and raises [KeyError] when the context has no
    [cart_item]. *)
Theorem cart_handlers_without_customer {DB : Type} `{!CloudantOnlineStore DB}
    (str_utf8 : string → string) (s : self DB) :
  customer s = None →
  handle_list_shopping_cart str_utf8 s = (inl Py.AttributeError, s)
  ∧ handle_delete_from_cart s = (inl Py.AttributeError, s)
  ∧ (∀ v k, context s !! "cart_item" = Some v → Py.int v = inr k →
            handle_add_to_cart s = (inl Py.AttributeError, s))
  ∧ (∀ v, context s !! "cart_item" = Some v → Py.int v = inl Py.ValueError →
          handle_add_to_cart s = (inr false, s))
  ∧ (∀ v e, context s !! "cart_item" = Some v → Py.int v = inl e →
            e ≠ Py.ValueError →
            handle_add_to_cart s = (inl e, s))
  ∧ (context s !! "cart_item" = None →
     handle_add_to_cart s = (inl Py.KeyError, s))
  ∧ (handle_add_to_cart s).2 = s.
Proof.
  intros Hc. pose proof (customer_email_None s Hc) as He.
  assert (Hint : ∀ v k, context s !! "cart_item" = Some v → Py.int v = inr k →
            handle_add_to_cart s = (inl Py.AttributeError, s)).
  { intros v k Hv Hk. unfold handle_add_to_cart.
    rewrite (bind_ok _ _ _ _ _ (int_cart_item_ok s v k Hv Hk)).
    by rewrite (bind_raise _ _ _ _ _ He). }
  assert (Hother : ∀ v e, context s !! "cart_item" = Some v →
            Py.int v = inl e → e ≠ Py.ValueError →
            handle_add_to_cart s = (inl e, s)).
  { intros v e Hv Hk Hne. unfold handle_add_to_cart.
    by rewrite (bind_raise _ _ _ _ _ (int_cart_item_raises s v e Hv Hk Hne)). }
  assert (Hkey : context s !! "cart_item" = None →
            handle_add_to_cart s = (inl Py.KeyError, s)).
  { intros Hv. unfold handle_add_to_cart.
    by rewrite (bind_raise _ _ _ _ _ (int_cart_item_KeyError s Hv)). }
  split; [|split; [|split; [|split; [|split; [|split]]]]].
  - unfold handle_list_shopping_cart. by rewrite (bind_raise _ _ _ _ _ He).
  - unfold handle_delete_from_cart. by rewrite (bind_raise _ _ _ _ _ He).
  - exact Hint.
  - intros v Hv Hk. by apply (handle_add_to_cart_ValueError s v).
  - exact Hother.
  - exact Hkey.
  - destruct (context s !! "cart_item") as [v|] eqn:Hv.
    + destruct (Py.int v) as [e|k] eqn:Hk.
      * assert (Hdec : e = Py.ValueError ∨ e ≠ Py.ValueError)
          by (destruct e; (by left) || (by right)).
        destruct Hdec as [->|Hne].
        -- by rewrite (handle_add_to_cart_ValueError s v Hv Hk).
        -- by rewrite (Hother v e eq_refl Hk Hne).
      * by rewrite (Hint v k eq_refl Hk).
    + by rewrite (Hkey eq_refl).
Qed.

Lemma cart_handlers_without_customer_witness :
  handle_list_shopping_cart (λ item, item)
    (session {[ "shopping_cart" := Py.PStr "list" ]} None)
  = (inl Py.AttributeError, session {[ "shopping_cart" := Py.PStr "list" ]} None)
  ∧ handle_delete_from_cart (session (cart_request "delete" "1") None)
    = (inl Py.AttributeError, session (cart_request "delete" "1") None)
  ∧ handle_add_to_cart (session (cart_request "add" "1") None)
    = (inl Py.AttributeError, session (cart_request "add" "1") None)
  ∧ handle_add_to_cart (session (cart_request "add" "abc") None)
    = (inr false, session (cart_request "add" "abc") None)
  ∧ handle_add_to_cart
      (session {[ "shopping_cart" := Py.PStr "add"; "cart_item" := Py.PNone ]}
         None)
    = (inl Py.TypeError,
       session {[ "shopping_cart" := Py.PStr "add"; "cart_item" := Py.PNone ]}
         None)
  ∧ handle_add_to_cart (session {[ "shopping_cart" := Py.PStr "add" ]} None)
    = (inl Py.KeyError, session {[ "shopping_cart" := Py.PStr "add" ]} None)
  ∧ (handle_add_to_cart (session (cart_request "add" "1") None)).2
    = session (cart_request "add" "1") None.
Proof.
  split; [|split; [|split; [|split; [|split; [|split]]]]].
  - apply (cart_handlers_without_customer (λ item, item)
             (session {[ "shopping_cart" := Py.PStr "list" ]} None)).
    reflexivity.
  - apply (cart_handlers_without_customer (λ item, item)
             (session (cart_request "delete" "1") None)).
    reflexivity.
  - apply (proj1 (proj2 (proj2
             (cart_handlers_without_customer (λ item, item)
                (session (cart_request "add" "1") None) eq_refl)))
             (Py.PStr "1") 1); reflexivity.
  - apply (proj1 (proj2 (proj2 (proj2
             (cart_handlers_without_customer (λ item, item)
                (session (cart_request "add" "abc") None) eq_refl))))
             (Py.PStr "abc")); reflexivity.
  - apply (proj1 (proj2 (proj2 (proj2 (proj2
             (cart_handlers_without_customer (λ item, item)
                (session {[ "shopping_cart" := Py.PStr "add";
                            "cart_item" := Py.PNone ]} None) eq_refl)))))
             Py.PNone Py.TypeError); [reflexivity|reflexivity|discriminate].
  - apply (proj1 (proj2 (proj2 (proj2 (proj2 (proj2
             (cart_handlers_without_customer (λ item, item)
                (session {[ "shopping_cart" := Py.PStr "add" ]} None)
                eq_refl))))))).
    reflexivity.
  - apply (cart_handlers_without_customer (λ item, item)
             (session (cart_request "add" "1") None)).
    reflexivity.
Defined.

(** ** Running a Discovery query *)

Section Discovery.

Context {DB : Type} `{!CloudantOnlineStore DB}.
Variable cfg : config.
Variable repr_exn : Py.exn → string.
Variable fake_discovery : Py.pyval.
Implicit Types (s : self DB) (v : Py.pyval).

Lemma foldl_rendered (acc : string) (items : list product_data) :
  foldl (λ acc item,
           acc +:+ (nl +:+ cart_number item +:+ ") " +:+ name item
                      +:+ nl +:+ image item)) acc items
  = acc +:+ rendered items.
Proof.
  revert acc. induction items as [|item items IH]; intros acc; simpl.
  - by rewrite str_app_nil_r.
  - rewrite IH. unfold rendered_item. by rewrite !str_app_assoc.
Qed.

(** A successful query, step by step. *)
Lemma get_discovery_response_ok v s query dr out :
  discovery_client cfg = Some query →
  query v DISCOVERY_QUERY_COUNT = inr dr →
  format_discovery_response
    (score_filter_step (discovery_score_filter cfg) dr)
    (discovery_data_source cfg) = inr out →
  get_discovery_response cfg v s
  = (inr {[ "discovery_result" := Py.PStr (rendered out) ]},
     with_response_tuple out s).
Proof.
  intros Hq Hdr Hout. unfold get_discovery_response. rewrite Hq.
  unfold mbind at 1, M_bind at 1, mret at 1, M_ret at 1.
  unfold mbind at 1, M_bind at 1, lift at 1. rewrite Hdr.
  unfold mbind at 1, M_bind at 1, lift at 1. rewrite Hout.
  unfold mbind, M_bind, set_response_tuple, mret, M_ret.
  by rewrite foldl_rendered, str_app_nil_l.
Qed.

Lemma get_discovery_response_query_raises v s query e :
  discovery_client cfg = Some query →
  query v DISCOVERY_QUERY_COUNT = inl e →
  get_discovery_response cfg v s = (inl e, s).
Proof.
  intros Hq Hdr. unfold get_discovery_response. rewrite Hq.
  unfold mbind at 1, M_bind at 1, mret at 1, M_ret at 1.
  unfold mbind at 1, M_bind at 1, lift at 1. by rewrite Hdr.
Qed.

End Discovery.

(** ** The router (C1) *)

Section Router.

Context {DB : Type} `{!CloudantOnlineStore DB}.
Variable cfg : config.
Variable repr_exn : Py.exn → string.
Variable str_utf8 : string → string.
Variable fake_discovery : Py.pyval.
Implicit Types (s : self DB) (v : Py.pyval).

(** Whatever the Discovery client does, [get_discovery_response] at most
    assigns [response_tuple], and what it returns holds a string under
    the one key [discovery_result]. *)
Lemma get_discovery_response_run v s :
  ∃ r s', get_discovery_response cfg v s = (r, s')
    ∧ (s' = s ∨ ∃ rt, s' = with_response_tuple rt s)
    ∧ ∀ m, r = inr m → ∃ txt, m = {[ "discovery_result" := Py.PStr txt ]}.
Proof.
  unfold get_discovery_response.
  destruct (discovery_client cfg) as [query|].
  2:{ eexists _, _. split; [reflexivity|]. split; [by left|done]. }
  unfold mbind at 1, M_bind at 1, mret at 1, M_ret at 1.
  unfold mbind at 1, M_bind at 1, lift at 1.
  destruct (query v DISCOVERY_QUERY_COUNT) as [e|dr].
  { eexists _, _. split; [reflexivity|]. split; [by left|done]. }
  unfold mbind at 1, M_bind at 1, lift at 1.
  destruct (format_discovery_response _ _) as [e|response].
  { eexists _, _. split; [reflexivity|]. split; [by left|done]. }
  eexists _, _. split; [reflexivity|]. split; [right; by eexists|].
  intros m [= <-]. by eexists.
Qed.

(** With a Discovery client, [handle_DiscoveryQuery] returns [False],
    merges a [discovery_result] into the context and leaves the
    customer, the store and the messages as they are. *)
Lemma handle_DiscoveryQuery_run s v query :
  context s !! "discovery_string" = Some v →
  discovery_client cfg = Some query →
  ∃ s' txt,
    handle_DiscoveryQuery cfg repr_exn fake_discovery s = (inr false, s')
    ∧ context s' =
      context_merge (context s) {[ "discovery_result" := Py.PStr txt ]}
    ∧ customer s' = customer s
    ∧ database s' = database s
    ∧ store_calls s' = store_calls s
    ∧ slack_messages s' = slack_messages s.
Proof.
  intros Hv Hq. unfold handle_DiscoveryQuery.
  assert (Hitem : context_item "discovery_string" s = (inr v, s)).
  { unfold context_item, get_context, mbind, M_bind. by rewrite Hv. }
  rewrite (bind_ok _ _ _ _ _ Hitem), Hq.
  destruct (get_discovery_response_run v s) as (r & s1 & Hrun & Hs1 & Hr).
  unfold mbind at 1, M_bind at 1, try_except_Exception. rewrite Hrun.
  destruct r as [e|m].
  - eexists _, (repr_exn e). split; [reflexivity|].
    destruct Hs1 as [->|[rt ->]]; repeat split; reflexivity.
  - destruct (Hr m eq_refl) as [txt ->].
    eexists _, txt. split; [reflexivity|].
    destruct Hs1 as [->|[rt ->]]; repeat split; reflexivity.
Qed.

(** When the client answers, [handle_DiscoveryQuery] keeps the formatted
    list and merges its rendering into the context. *)
Lemma handle_DiscoveryQuery_ok s v query dr out :
  context s !! "discovery_string" = Some v →
  discovery_client cfg = Some query →
  query v DISCOVERY_QUERY_COUNT = inr dr →
  format_discovery_response
    (score_filter_step (discovery_score_filter cfg) dr)
    (discovery_data_source cfg) = inr out →
  handle_DiscoveryQuery cfg repr_exn fake_discovery s
  = (inr false,
     with_context
       (context_merge (context s)
          {[ "discovery_result" := Py.PStr (rendered out) ]})
       (with_response_tuple out s)).
Proof.
  intros Hv Hq Hdr Hout. unfold handle_DiscoveryQuery.
  assert (Hitem : context_item "discovery_string" s = (inr v, s)).
  { unfold context_item, get_context, mbind, M_bind. by rewrite Hv. }
  rewrite (bind_ok _ _ _ _ _ Hitem), Hq.
  unfold mbind at 1, M_bind at 1, try_except_Exception.
  rewrite (get_discovery_response_ok cfg v s query dr out Hq Hdr Hout).
  reflexivity.
Qed.

(** When the client raises, the [repr] of the exception is merged. *)
Lemma handle_DiscoveryQuery_query_raises s v query e :
  context s !! "discovery_string" = Some v →
  discovery_client cfg = Some query →
  query v DISCOVERY_QUERY_COUNT = inl e →
  handle_DiscoveryQuery cfg repr_exn fake_discovery s
  = (inr false,
     with_context
       (context_merge (context s)
          {[ "discovery_result" := Py.PStr (repr_exn e) ]}) s).
Proof.
  intros Hv Hq He. unfold handle_DiscoveryQuery.
  assert (Hitem : context_item "discovery_string" s = (inr v, s)).
  { unfold context_item, get_context, mbind, M_bind. by rewrite Hv. }
  rewrite (bind_ok _ _ _ _ _ Hitem), Hq.
  unfold mbind at 1, M_bind at 1, try_except_Exception.
  rewrite (get_discovery_response_query_raises cfg v s query e Hq He).
  reflexivity.
Qed.

End Router.

(** C1: when the context in force after the exchange with Watson holds a
    true [discovery_string] and a Discovery client is configured, the
    message handler performs the Discovery action and returns [False]
    (no user input required), whatever else the context holds.  The
    client is asked for [DISCOVERY_QUERY_COUNT] results on the value of
    [discovery_string]: when it answers, the results are filtered by
    score and formatted, the formatted list is kept in [response_tuple]
    and its rendering is merged into the context under
    [discovery_result]; when it raises, the [repr] of the exception is
    merged there and [response_tuple] is kept.  No other key of the
    context changes, so [shopping_cart] and [cart_item] are as Watson
    set them; no call is issued to the store, whose database is
    unchanged; and the loop of [run] calls the handler again on the
    resulting state. *)
Theorem discovery_takes_priority {DB : Type} `{!CloudantOnlineStore DB}
    (cfg : config) (repr_exn : Py.exn → string) (str_utf8 : string → string)
    (fake_discovery : Py.pyval) (message : string) (s : self DB)
    (w : watson_response) (v : Py.pyval)
    (query : Py.pyval → Z → result discovery_response) :
  conversation_client cfg message (context s) = inr w →
  default (context s) (wr_context w) !! "discovery_string" = Some v →
  Py.truthy v = true →
  discovery_client cfg = Some query →
  ∃ s' txt,
    handle_message cfg repr_exn str_utf8 fake_discovery message s
    = (inr false, s')
    ∧ context s' =
      context_merge (default (context s) (wr_context w))
        {[ "discovery_result" := Py.PStr txt ]}
    ∧ (∀ k, k ≠ "discovery_result" →
            context s' !! k = default (context s) (wr_context w) !! k)
    ∧ customer s' = customer s
    ∧ database s' = database s
    ∧ store_calls s' = store_calls s
    ∧ slack_messages s' = slack_messages s ++ [joined_output w]
    ∧ (∀ fuel,
        converse cfg repr_exn str_utf8 fake_discovery (S fuel) message s
        = converse cfg repr_exn str_utf8 fake_discovery fuel message s')
    ∧ (∀ dr, query v DISCOVERY_QUERY_COUNT = inr dr →
         ∃ out,
           format_discovery_response
             (score_filter_step (discovery_score_filter cfg) dr)
             (discovery_data_source cfg) = inr out
           ∧ txt = rendered out
           ∧ response_tuple s' = Some out)
    ∧ (∀ e, query v DISCOVERY_QUERY_COUNT = inl e →
         txt = repr_exn e ∧ response_tuple s' = response_tuple s).
Proof.
  intros Hw Hv Htrue Hq.
  set (s1 := match wr_context w with
             | Some c => with_context c s
             | None => s
             end).
  set (s2 := with_message (joined_output w) s1).
  assert (Hctx : context s2 = default (context s) (wr_context w)).
  { unfold s2, s1. by destruct (wr_context w). }
  assert (Hv2 : context s2 !! "discovery_string" = Some v) by by rewrite Hctx.
  assert (Hcust : customer s2 = customer s).
  { unfold s2, s1. by destruct (wr_context w). }
  assert (Hdb : database s2 = database s).
  { unfold s2, s1. by destruct (wr_context w). }
  assert (Hcalls : store_calls s2 = store_calls s).
  { unfold s2, s1. by destruct (wr_context w). }
  assert (Hmsg : slack_messages s2 = slack_messages s ++ [joined_output w]).
  { unfold s2, s1. by destruct (wr_context w). }
  assert (Hrt : response_tuple s2 = response_tuple s).
  { unfold s2, s1. by destruct (wr_context w). }
  assert (Hhandle :
    handle_message cfg repr_exn str_utf8 fake_discovery message s
    = handle_DiscoveryQuery cfg repr_exn fake_discovery s2).
  { unfold handle_message.
    assert (H1 : get_watson_response cfg message s = (inr w, s)).
    { unfold get_watson_response, get_context, mbind, M_bind, lift.
      by rewrite Hw. }
    rewrite (bind_ok _ _ _ _ _ H1).
    assert (H2 : (match wr_context w with
                  | Some c => set_context c
                  | None => mret ()
                  end) s = (inr (), s1)).
    { unfold s1. by destruct (wr_context w). }
    rewrite (bind_ok _ _ _ _ _ H2).
    assert (H3 : send_message (joined_output w) s1 = (inr (), s2)) by done.
    rewrite (bind_ok _ _ _ _ _ H3).
    assert (H4 : get_context s2 = (inr (context s2), s2)) by done.
    rewrite (bind_ok _ _ _ _ _ H4).
    unfold has at 1. rewrite Hv2, Htrue, Hq.
    rewrite bool_decide_eq_true_2 by by eexists.
    reflexivity. }
  assert (Hloop : ∀ s',
    handle_message cfg repr_exn str_utf8 fake_discovery message s
    = (inr false, s') →
    ∀ fuel,
      converse cfg repr_exn str_utf8 fake_discovery (S fuel) message s
      = converse cfg repr_exn str_utf8 fake_discovery fuel message s').
  { intros s' Hs' fuel. simpl converse. by rewrite (bind_ok _ _ _ _ _ Hs'). }
  assert (Hkeys : ∀ txt k, k ≠ "discovery_result" →
    context_merge (context s2) {[ "discovery_result" := Py.PStr txt ]} !! k
    = default (context s) (wr_context w) !! k).
  { intros txt k Hk.
    by rewrite context_merge_lookup, lookup_singleton_ne, Hctx. }
  destruct (query v DISCOVERY_QUERY_COUNT) as [e|dr] eqn:Hdr.
  - rewrite (handle_DiscoveryQuery_query_raises cfg repr_exn fake_discovery
               s2 v query e Hv2 Hq Hdr) in Hhandle.
    eexists _, (repr_exn e). split; [exact Hhandle|].
    split; [cbn [context with_context]; by rewrite Hctx|].
    split; [intros k Hk; cbn [context with_context]; by apply Hkeys|].
    split; [exact Hcust|]. split; [exact Hdb|]. split; [exact Hcalls|].
    split; [exact Hmsg|]. split; [exact (Hloop _ Hhandle)|].
    split; [intros dr [=]|].
    intros e' [= <-]. split; [reflexivity|exact Hrt].
  - pose proof (format_discovery_response_eq
                  (score_filter_step (discovery_score_filter cfg) dr)
                  (discovery_data_source cfg)) as Hout.
    rewrite (handle_DiscoveryQuery_ok cfg repr_exn fake_discovery
               s2 v query dr _ Hv2 Hq Hdr Hout) in Hhandle.
    eexists _, _. split; [exact Hhandle|].
    split; [cbn [context with_context]; by rewrite Hctx|].
    split; [intros k Hk; cbn [context with_context]; by apply Hkeys|].
    split; [exact Hcust|]. split; [exact Hdb|]. split; [exact Hcalls|].
    split; [exact Hmsg|]. split; [exact (Hloop _ Hhandle)|].
    split; [|intros e [=]].
    intros dr' [= <-]. eexists. split; [exact Hout|].
    split; reflexivity.
Qed.

Lemma discovery_takes_priority_witness :
  ∃ s' txt,
    handle_message search_config (λ _, "error") (λ item, item) Py.PNone
      "find a mug" (session search_and_list (Some alice))
    = (inr false, s')
    ∧ context s' =
      context_merge search_and_list {[ "discovery_result" := Py.PStr txt ]}
    ∧ (∀ k, k ≠ "discovery_result" →
            context s' !! k = search_and_list !! k)
    ∧ customer s' = Some alice
    ∧ database s' = two_item_db
    ∧ store_calls s' = []
    ∧ slack_messages s' = [joined_output (WatsonResponse None ["ok"])]
    ∧ (∀ fuel,
        converse search_config (λ _, "error") (λ item, item) Py.PNone (S fuel)
          "find a mug" (session search_and_list (Some alice))
        = converse search_config (λ _, "error") (λ item, item) Py.PNone fuel
            "find a mug" s')
    ∧ ∃ out,
        format_discovery_response (score_filter_step 0.6 four_scores)
          "ibm_store" = inr out
        ∧ txt = rendered out
        ∧ response_tuple s' = Some out.
Proof.
  destruct (discovery_takes_priority search_config (λ _, "error")
              (λ item, item) Py.PNone "find a mug"
              (session search_and_list (Some alice))
              (WatsonResponse None ["ok"]) (Py.PStr "mug")
              (λ _ _, inr four_scores) eq_refl eq_refl eq_refl eq_refl)
    as (s' & txt & Hrun & Hc & Hk & Hcu & Hdb & Hca & Hms & Hloop & Hok & _).
  exists s', txt.
  split; [exact Hrun|]. split; [exact Hc|]. split; [exact Hk|].
  split; [exact Hcu|]. split; [exact Hdb|]. split; [exact Hca|].
  split; [exact Hms|]. split; [exact Hloop|].
  exact (Hok four_scores eq_refl).
Defined.

(** * Further properties of the code *)

(** ** [context_merge] as an operation *)

(** X1: merging is associative and the empty dict is neutral on both
    sides, so a chain of merges can be grouped at will; merging a dict
    into itself changes nothing. *)
Theorem context_merge_monoid (A B C : gmap string Py.pyval) :
  context_merge (context_merge A B) C = context_merge A (context_merge B C)
  ∧ context_merge A ∅ = A
  ∧ context_merge ∅ A = A
  ∧ context_merge A A = A.
Proof.
  split; [|split; [|split]]; apply map_eq; intros k;
    rewrite ?context_merge_lookup.
  - by destruct (C !! k), (B !! k).
  - by rewrite lookup_empty.
  - rewrite lookup_empty. by destruct (A !! k).
  - by destruct (A !! k).
Qed.

(** X2: the keys of a merge are the keys of either dict. *)
Theorem context_merge_dom (A B : gmap string Py.pyval) :
  dom (context_merge A B) = dom A ∪ dom B.
Proof.
  apply set_eq. intros k.
  rewrite elem_of_union, !elem_of_dom, context_merge_lookup.
  destruct (B !! k), (A !! k); split; intros; eauto;
    try (destruct H as [[? [=]]|[? [=]]]); try (by destruct H as [? [=]]).
Qed.

(** ** [add_customer_to_context] *)

(** X3: with a customer, [add_customer_to_context] puts the identity of
    the customer under [type], [email], [first_name], [last_name] and
    [shopping_cart], whatever the context held there, and leaves every
    other key and every other field as it was; with no customer it
    raises [AttributeError] and changes nothing. *)
Theorem add_customer_to_context_sets_identity {DB : Type} (s : self DB) :
  (∀ c, customer s = Some c →
     ∃ s', add_customer_to_context s = (inr (), s')
       ∧ context s' !! "type" = Some (Py.PStr "customer")
       ∧ context s' !! "email" = Some (Py.PStr (email c))
       ∧ context s' !! "first_name" = Some (Py.PStr (first_name c))
       ∧ context s' !! "last_name" = Some (Py.PStr (last_name c))
       ∧ context s' !! "shopping_cart"
         = Some (Py.PList (Py.PStr <$> shopping_cart c))
       ∧ (∀ k, k ∉ ["type"; "email"; "first_name"; "last_name";
                     "shopping_cart"] →
               context s' !! k = context s !! k)
       ∧ s' = with_context (context s') s)
  ∧ (customer s = None →
     add_customer_to_context s = (inl Py.AttributeError, s)).
Proof.
  split.
  - intros c Hc. eexists. unfold add_customer_to_context. rewrite Hc.
    split; [reflexivity|]. unfold set_context, with_context. simpl.
    repeat split; try (rewrite context_merge_lookup; reflexivity).
    intros k Hk. rewrite context_merge_lookup.
    unfold get_customer_dict.
    rewrite !lookup_insert_ne, lookup_singleton_ne; [done|..];
      intros <-; apply Hk; set_solver.
  - intros Hc. unfold add_customer_to_context. by rewrite Hc.
Qed.

Lemma add_customer_to_context_sets_identity_witness :
  (∃ s', add_customer_to_context (session (cart_request "add" "1") (Some alice))
         = (inr (), s')
     ∧ context s' !! "type" = Some (Py.PStr "customer")
     ∧ context s' !! "email" = Some (Py.PStr "alice@example.com")
     ∧ context s' !! "first_name" = Some (Py.PStr "Alice")
     ∧ context s' !! "last_name" = Some (Py.PStr "Ames")
     ∧ context s' !! "shopping_cart" = Some (Py.PList [])
     ∧ (∀ k, k ∉ ["type"; "email"; "first_name"; "last_name";
                   "shopping_cart"] →
             context s' !! k = cart_request "add" "1" !! k)
     ∧ s' = with_context (context s')
              (session (cart_request "add" "1") (Some alice)))
  ∧ add_customer_to_context (session (cart_request "add" "1") None)
    = (inl Py.AttributeError, session (cart_request "add" "1") None).
Proof.
  split.
  - apply (proj1 (add_customer_to_context_sets_identity
                    (session (cart_request "add" "1") (Some alice))) alice).
    reflexivity.
  - apply (proj2 (add_customer_to_context_sets_identity
                    (session (cart_request "add" "1") None))).
    reflexivity.
Defined.

(** ** [slack_encode] *)

Section SlackEncode.

Implicit Types (s a b : string) (c old : ascii).

Lemma replace_char_app old new a b :
  Py.replace_char old new (a +:+ b)
  = Py.replace_char old new a +:+ Py.replace_char old new b.
Proof.
  induction a as [|c a IH]; [done|].
  rewrite str_app_cons. simpl. rewrite IH.
  destruct (Ascii.eqb c old); [by rewrite str_app_assoc|done].
Qed.

(** The three replacements in sequence on one character followed by an
    already treated rest. *)
Lemma slack_entity_passes c :
  Py.replace_char ">" "&gt;"
    (Py.replace_char "<" "&lt;"
       (Py.replace_char "&" "&amp;" (String c EmptyString)))
  = slack_entity c.
Proof.
  unfold slack_entity. simpl.
  destruct (Ascii.eqb_spec c "&") as [->|H1]; [reflexivity|]. simpl.
  destruct (Ascii.eqb_spec c "<") as [->|H2]; [reflexivity|]. simpl.
  destruct (Ascii.eqb_spec c ">") as [->|H3]; reflexivity.
Qed.

Lemma three_passes_escape_each s :
  Py.replace_char ">" "&gt;"
    (Py.replace_char "<" "&lt;" (Py.replace_char "&" "&amp;" s))
  = escape_each s.
Proof.
  induction s as [|c s IH]; [done|].
  change (String c s) with (String c EmptyString +:+ s).
  rewrite !replace_char_app, IH, slack_entity_passes. reflexivity.
Qed.

Lemma slack_entity_cases c :
  (c = "&"%char ∧ slack_entity c = "&amp;")
  ∨ (c = "<"%char ∧ slack_entity c = "&lt;")
  ∨ (c = ">"%char ∧ slack_entity c = "&gt;")
  ∨ (c ≠ "&"%char ∧ c ≠ "<"%char ∧ c ≠ ">"%char
     ∧ slack_entity c = String c EmptyString).
Proof.
  unfold slack_entity.
  destruct (Ascii.eqb_spec c "&") as [->|H1]; [by left|].
  destruct (Ascii.eqb_spec c "<") as [->|H2]; [by right; left|].
  destruct (Ascii.eqb_spec c ">") as [->|H3]; [by right; right; left|].
  by right; right; right.
Qed.

Lemma escape_each_cons c s :
  escape_each (String c s) = slack_entity c +:+ escape_each s.
Proof. reflexivity. Qed.

Lemma escape_each_inj a b : escape_each a = escape_each b → a = b.
Proof.
  revert b. induction a as [|c a IH]; intros [|d b] H;
    rewrite ?escape_each_cons in H; change (escape_each EmptyString)
      with EmptyString in H.
  - done.
  - destruct (slack_entity_cases d) as [[_ E]|[[_ E]|[[_ E]|(_ & _ & _ & E)]]];
      rewrite E in H; discriminate H.
  - destruct (slack_entity_cases c) as [[_ E]|[[_ E]|[[_ E]|(_ & _ & _ & E)]]];
      rewrite E in H; discriminate H.
  - destruct (slack_entity_cases c) as [[-> E]|[[-> E]|[[-> E]|(?&?&?& E)]]];
      destruct (slack_entity_cases d) as [[-> E']|[[-> E']|[[-> E']|(?&?&?& E')]]];
      rewrite ?E, ?E' in H;
      repeat rewrite str_app_cons in H; rewrite ?str_app_nil_l in H;
      try discriminate H; try congruence;
      injection H as H; try congruence; f_equal; try congruence;
      by apply IH.
Qed.

End SlackEncode.

(** X4: [slack_encode] replaces every [&], [<] and [>] of the text by
    its entity and keeps every other character: the ampersands of the
    entities it writes for [<] and [>] are not escaped a second time. *)
Theorem slack_encode_each_character (s : string) :
  slack_encode s = escape_each s.
Proof.
  unfold slack_encode. destruct s as [|c s]; [done|].
  change (String.eqb (String c s) EmptyString) with false. cbv iota.
  apply three_passes_escape_each.
Qed.

Lemma no_char_nil (a : ascii) (i : nat) :
  ¬ occurs_at (String a EmptyString) EmptyString i.
Proof. intros Hi%occurs_at_length. simpl in Hi. lia. Qed.

Lemma no_char_cons (a b : ascii) (s : string) :
  a ≠ b →
  (∀ i, ¬ occurs_at (String a EmptyString) s i) →
  ∀ i, ¬ occurs_at (String a EmptyString) (String b s) i.
Proof.
  intros Hne Hs [|i] Hi.
  - apply occurs_at_0 in Hi. cbn [Py.startswith] in Hi.
    apply andb_true_iff in Hi as [Hi _]. by apply Ascii.eqb_eq in Hi.
  - apply occurs_at_S in Hi. by apply (Hs i).
Qed.

Lemma no_char_entity (a c : ascii) (r : string) :
  a = "<"%char ∨ a = ">"%char →
  (∀ i, ¬ occurs_at (String a EmptyString) r i) →
  ∀ i, ¬ occurs_at (String a EmptyString) (slack_entity c +:+ r) i.
Proof.
  intros Ha Hr.
  destruct (slack_entity_cases c) as [[_ E]|[[_ E]|[[_ E]|(?&?&?& E)]]];
    rewrite E; repeat rewrite str_app_cons; rewrite str_app_nil_l;
    repeat (apply no_char_cons; [destruct Ha as [-> | ->]; congruence|]);
    exact Hr.
Qed.

(** X5: the text that [slack_encode] returns holds no [<] and no [>]. *)
Theorem slack_encode_no_angle_bracket (s : string) (i : nat) :
  ¬ occurs_at "<" (slack_encode s) i ∧ ¬ occurs_at ">" (slack_encode s) i.
Proof.
  rewrite slack_encode_each_character. revert i.
  induction s as [|c s IH]; intros i.
  - split; apply no_char_nil.
  - rewrite escape_each_cons.
    split; apply no_char_entity; auto; intros j; by destruct (IH j).
Qed.

(** X6: [slack_encode] loses nothing: two texts with the same encoding
    are the same text. *)
Theorem slack_encode_injective (a b : string) :
  slack_encode a = slack_encode b → a = b.
Proof. rewrite !slack_encode_each_character. apply escape_each_inj. Qed.

Lemma slack_encode_injective_witness :
  String "&" EmptyString = String "&" EmptyString.
Proof.
  apply (slack_encode_injective (String "&" EmptyString)
           (String "&" EmptyString)).
  reflexivity.
Defined.

(** ** The extractors for source [ibm_store] and the edges of [amazon] *)

Section MoreExtractors.

Implicit Types (e : entry) (t pre rest post a r : string) (n : nat).

Lemma str_take_min n r :
  Py.str_take (Nat.min n (String.length r)) r = Py.str_take n r.
Proof.
  revert r. induction n as [|n IH]; intros [|c r]; simpl; try done.
  by rewrite IH.
Qed.

(** [s[len(a):len(a)+n]] is made of the first [n] characters after [a]. *)
Lemma slice_after a r (n : Z) :
  0 ≤ n →
  Py.slice (a +:+ r) (Py.len a) (Py.len a + n) = Py.str_take (Z.to_nat n) r.
Proof.
  intros Hn. unfold Py.slice, Py.clamp. rewrite len_app.
  pose proof (len_nonneg a). pose proof (len_nonneg r).
  destruct (Z.ltb_spec (Py.len a) 0); [lia|].
  destruct (Z.ltb_spec (Py.len a + n) 0); [lia|].
  replace (Z.min (Py.len a) (Py.len a + Py.len r)) with (Py.len a) by lia.
  destruct (Z.ltb_spec (Py.len a) (Z.min (Py.len a + n) (Py.len a + Py.len r)))
    as [Hlt|Hge].
  - replace (Z.to_nat (Py.len a)) with (String.length a)
      by (unfold Py.len; lia).
    rewrite str_drop_app.
    replace (Z.to_nat (Z.min (Py.len a + n) (Py.len a + Py.len r) - Py.len a))
      with (Nat.min (Z.to_nat n) (String.length r))
      by (unfold Py.len in *; lia).
    apply str_take_min.
  - rewrite <- str_take_min.
    replace (Nat.min (Z.to_nat n) (String.length r)) with O
      by (unfold Py.len in *; lia).
    done.
Qed.

Lemma get_product_url_ibm_store e t :
  html e = Some t →
  get_product_url e "ibm_store" =
  let sidx := Py.find t pid_tag 0 (Py.len t) in
  if 0 <? sidx then
    store_host +:+ pid_tag
      +:+ Py.slice t (sidx + Py.len pid_tag) (sidx + Py.len pid_tag + 6)
  else EmptyString.
Proof. intros H. unfold get_product_url. rewrite H. reflexivity. Qed.

Lemma get_image_url_ibm_store e t :
  html e = Some t →
  get_image_url e "ibm_store" =
  let simg := Py.find t zoom_tag 0 (Py.len t) in
  if 0 <? simg then
    let eimg := Py.find t dquote (simg + Py.len zoom_tag) (Py.len t) in
    if 0 <? eimg then sub_scale (Py.slice t (simg + Py.len zoom_tag) eimg) O
    else EmptyString
  else EmptyString.
Proof. intros H. unfold get_image_url. rewrite H. reflexivity. Qed.

Lemma length_str_take_le n r : (String.length (Py.str_take n r) ≤ n)%nat.
Proof.
  revert r. induction n as [|n IH]; intros [|c r]; simpl; try lia.
  specialize (IH r). lia.
Qed.

(** *** The rewriting of the scale directive *)

Lemma sub_scale_skip a r : sub_scale (a +:+ r) (String.length a) = sub_scale r O.
Proof. induction a as [|c a IH]; [done|]. rewrite str_app_cons. exact IH. Qed.

Lemma span_digits_run ds rest :
  all_digits ds = true →
  span_digits (ds +:+ String "]" rest) = String.length ds.
Proof.
  induction ds as [|c ds IH]; intros H; [done|].
  simpl in H. apply andb_true_iff in H as [Hc Hds].
  rewrite str_app_cons. simpl. by rewrite Hc, IH.
Qed.

Lemma match_scale_directive ds rest :
  all_digits ds = true → ds ≠ EmptyString →
  match_scale ("scale[" +:+ ds +:+ String "]" rest)
  = Some (6 + String.length ds + 1)%nat.
Proof.
  intros Hds Hne. unfold match_scale. rewrite startswith_app.
  change (Py.str_drop 6 ("scale[" +:+ ds +:+ String "]" rest))
    with (ds +:+ String "]" rest).
  rewrite (span_digits_run _ _ Hds), str_drop_app.
  destruct ds; [done|]. reflexivity.
Qed.

Lemma match_scale_None s :
  Py.startswith "scale[" s = false → match_scale s = None.
Proof. intros H. unfold match_scale. by rewrite H. Qed.

Lemma sub_scale_cons_no_match c s :
  Py.startswith "scale[" (String c s) = false →
  sub_scale (String c s) O = String c (sub_scale s O).
Proof. intros H. simpl. by rewrite (match_scale_None _ H). Qed.

Lemma sub_scale_prefix pre r :
  (∀ i, occurs_at "scale[" (pre +:+ r) i → (String.length pre ≤ i)%nat) →
  sub_scale (pre +:+ r) O = pre +:+ sub_scale r O.
Proof.
  induction pre as [|c pre IH]; intros H; [done|].
  rewrite !str_app_cons. rewrite sub_scale_cons_no_match.
  - rewrite IH; [done|]. intros i Hi.
    apply (occurs_at_S _ c) in Hi. rewrite <- str_app_cons in Hi.
    apply H in Hi. simpl in Hi. lia.
  - destruct (Py.startswith _ _) eqn:E; [|done].
    apply occurs_at_0 in E. rewrite <- str_app_cons in E.
    apply H in E. simpl in E. lia.
Qed.

End MoreExtractors.

(** X7: for source [ibm_store], when the first [/ProductDetail.aspx?pid=]
    of the page is at a positive index, the URL is the host, the path
    pattern and the characters that follow the pattern, six of them or
    fewer when the page ends before; when the pattern is absent or opens
    the page, the URL is empty. *)
Theorem product_url_ibm_store (e : entry) (t : string) :
  html e = Some t →
  (∀ pre rest,
     t = pre +:+ pid_tag +:+ rest →
     pre ≠ EmptyString →
     (∀ i, occurs_at pid_tag t i → (String.length pre ≤ i)%nat) →
     get_product_url e "ibm_store"
     = store_host +:+ pid_tag +:+ Py.str_take 6 rest
     ∧ (String.length (Py.str_take 6 rest) ≤ 6)%nat)
  ∧ ((∀ i, ¬ occurs_at pid_tag t i) →
     get_product_url e "ibm_store" = EmptyString)
  ∧ (∀ rest, t = pid_tag +:+ rest →
     get_product_url e "ibm_store" = EmptyString).
Proof.
  intros Ht. rewrite (get_product_url_ibm_store e t Ht). split; [|split].
  - intros pre rest E Hpre Hfirst.
    rewrite (find_first t pid_tag pre _ E Hfirst). cbv zeta.
    pose proof (len_pos pre Hpre).
    destruct (Z.ltb_spec 0 (Py.len pre)) as [_|]; [|lia].
    split; [|apply length_str_take_le].
    do 2 f_equal. subst t.
    replace (Py.len pre + Py.len pid_tag) with (Py.len (pre +:+ pid_tag))
      by apply len_app.
    rewrite <- str_app_assoc. by rewrite slice_after.
  - intros Habs. by rewrite (find_absent t pid_tag Habs).
  - intros rest ->. by rewrite find_whole, find_from_eq, startswith_app.
Qed.

Lemma product_url_ibm_store_witness :
  (get_product_url product_page "ibm_store"
   = store_host +:+ pid_tag +:+ "123456"
   ∧ (String.length "123456" ≤ 6)%nat)
  ∧ (get_product_url short_pid_page "ibm_store"
     = store_host +:+ pid_tag +:+ "12"
     ∧ (String.length "12" ≤ 6)%nat)
  ∧ get_product_url no_anchor "ibm_store" = EmptyString.
Proof.
  split; [|split].
  - apply (proj1 (product_url_ibm_store product_page _ eq_refl)
             ("<p>" +:+ zoom_tag +:+ "img/scale[200]/mug.jpg" +:+ dquote
              +:+ "> ") "1234567 </p>").
    + reflexivity.
    + discriminate.
    + apply first_occurrence_check. reflexivity.
  - apply (proj1 (product_url_ibm_store short_pid_page _ eq_refl) "<p>" "12").
    + reflexivity.
    + discriminate.
    + apply first_occurrence_check. reflexivity.
  - apply (proj1 (proj2 (product_url_ibm_store no_anchor _ eq_refl))).
    apply no_occurrence_check. reflexivity.
Defined.

(** X8: for source [ibm_store], when the first zoom anchor of the page
    is at a positive index, the image URL is the text between that
    anchor and the next double quote, with its scale directives
    rewritten; when the anchor is absent, opens the page, or no double
    quote follows it, the image URL is empty. *)
Theorem image_url_ibm_store (e : entry) (t : string) :
  html e = Some t →
  (∀ pre img post,
     t = pre +:+ zoom_tag +:+ img +:+ dquote +:+ post →
     pre ≠ EmptyString →
     (∀ i, occurs_at zoom_tag t i → (String.length pre ≤ i)%nat) →
     (∀ i, ¬ occurs_at dquote img i) →
     get_image_url e "ibm_store" = sub_scale img O)
  ∧ ((∀ i, ¬ occurs_at zoom_tag t i) →
     get_image_url e "ibm_store" = EmptyString)
  ∧ (∀ rest, t = zoom_tag +:+ rest →
     get_image_url e "ibm_store" = EmptyString)
  ∧ (∀ pre rest,
       t = pre +:+ zoom_tag +:+ rest →
       (∀ i, occurs_at zoom_tag t i → (String.length pre ≤ i)%nat) →
       (∀ i, ¬ occurs_at dquote rest i) →
       get_image_url e "ibm_store" = EmptyString).
Proof.
  intros Ht. rewrite (get_image_url_ibm_store e t Ht).
  split; [|split; [|split]].
  - intros pre img post E Hpre Hfirst Hq.
    rewrite (find_first t zoom_tag pre _ E Hfirst). cbv zeta.
    pose proof (len_pos pre Hpre).
    destruct (Z.ltb_spec 0 (Py.len pre)) as [_|]; [|lia].
    replace (Py.len pre + Py.len zoom_tag) with (Py.len (pre +:+ zoom_tag))
      by apply len_app.
    clear Ht Hfirst. subst t.
    replace (pre +:+ zoom_tag +:+ img +:+ dquote +:+ post)
      with ((pre +:+ zoom_tag) +:+ img +:+ dquote +:+ post)
      by (by rewrite !str_app_assoc).
    rewrite find_after.
    2:{ intros i Hi.
        destruct (decide (String.length img ≤ i)%nat) as [|Hlt]; [done|].
        exfalso. apply (Hq i). apply (occurs_at_app_l _ _ _ _ Hi).
        simpl. lia. }
    pose proof (len_nonneg (pre +:+ zoom_tag)). pose proof (len_nonneg img).
    rewrite len_app in *. change (Py.len zoom_tag) with 24 in *.
    destruct (Z.ltb_spec 0 (Py.len pre + 24 + Py.len img)) as [_|]; [|lia].
    f_equal. change 24 with (Py.len zoom_tag).
    rewrite <- (len_app pre zoom_tag). apply slice_mid.
  - intros Habs. by rewrite (find_absent t zoom_tag Habs).
  - intros rest ->. by rewrite find_whole, find_from_eq, startswith_app.
  - intros pre rest E Hfirst Hq.
    rewrite (find_first t zoom_tag pre _ E Hfirst). cbv zeta.
    destruct (Z.ltb_spec 0 (Py.len pre)) as [_|]; [|done].
    replace (Py.len pre + Py.len zoom_tag) with (Py.len (pre +:+ zoom_tag))
      by apply len_app.
    subst t. rewrite <- str_app_assoc.
    by rewrite (find_after_absent _ _ _ Hq).
Qed.

Lemma image_url_ibm_store_witness :
  get_image_url product_page "ibm_store" = "img/scale[50]/mug.jpg"
  ∧ get_image_url no_anchor "ibm_store" = EmptyString.
Proof.
  split.
  - apply (proj1 (image_url_ibm_store product_page _ eq_refl)
             "<p>" "img/scale[200]/mug.jpg"
             "> /ProductDetail.aspx?pid=1234567 </p>").
    + reflexivity.
    + discriminate.
    + apply first_occurrence_check. reflexivity.
    + apply no_occurrence_check. reflexivity.
  - apply (proj1 (proj2 (image_url_ibm_store no_anchor _ eq_refl))).
    apply no_occurrence_check. reflexivity.
Defined.

(** X9: the rewriting of the scale directive copies the text up to the
    first [scale[]; there, a non-empty run of digits closed by a bracket
    is replaced by [50] and the rewriting goes on after the bracket; a
    text without [scale[] is returned as it is. *)
Theorem sub_scale_rewrites_directive (pre ds rest : string) :
  (all_digits ds = true → ds ≠ EmptyString →
   (∀ i, occurs_at "scale[" (pre +:+ "scale[" +:+ ds +:+ String "]" rest) i →
         (String.length pre ≤ i)%nat) →
   sub_scale (pre +:+ "scale[" +:+ ds +:+ String "]" rest) O
   = pre +:+ "scale[50]" +:+ sub_scale rest O)
  ∧ ((∀ i, ¬ occurs_at "scale[" pre i) → sub_scale pre O = pre).
Proof.
  split.
  - intros Hds Hne Hfirst. rewrite (sub_scale_prefix _ _ Hfirst). f_equal.
    pose proof (match_scale_directive ds rest Hds Hne) as Hm.
    remember ("scale[" +:+ ds +:+ String "]" rest) as body eqn:Eb.
    assert (Eb' : body = String "s" ("cale[" +:+ ds +:+ String "]" rest))
      by by rewrite Eb.
    rewrite Eb' in Hm |- *. cbn [sub_scale]. rewrite Hm. f_equal.
    replace (6 + String.length ds + 1 - 1)%nat
      with (String.length ("cale[" +:+ ds +:+ String "]" EmptyString))
      by (rewrite !str_length_app; simpl; lia).
    replace ("cale[" +:+ ds +:+ String "]" rest)
      with (("cale[" +:+ ds +:+ String "]" EmptyString) +:+ rest)
      by (by rewrite !str_app_assoc).
    apply sub_scale_skip.
  - intros Habs. rewrite <- (str_app_nil_r pre) at 1.
    rewrite sub_scale_prefix; [apply str_app_nil_r|].
    intros i Hi. rewrite str_app_nil_r in Hi. by apply Habs in Hi.
Qed.

Lemma sub_scale_rewrites_directive_witness :
  sub_scale "img/scale[200]/mug.jpg" O = "img/" +:+ "scale[50]" +:+ "/mug.jpg"
  ∧ sub_scale "img/" O = "img/".
Proof.
  split.
  - apply (proj1 (sub_scale_rewrites_directive "img/" "200" "/mug.jpg")).
    + reflexivity.
    + discriminate.
    + apply first_occurrence_check. reflexivity.
  - apply (proj2 (sub_scale_rewrites_directive "img/" "200" "/mug.jpg")).
    apply no_occurrence_check. reflexivity.
Defined.

(** X10: for a data source that is neither [amazon] nor [ibm_store],
    the three fields extracted from any result are empty, so every
    record of the formatted list carries only its ordinal. *)
Theorem unknown_source_gives_blank_fields (data_source : string)
    (cart_number : Z) (result : entry) :
  data_source ≠ "amazon" → data_source ≠ "ibm_store" →
  make_product_data cart_number result data_source
  = {| cart_number := Py.str_of_int cart_number; name := EmptyString;
       url := EmptyString; image := EmptyString |}.
Proof.
  intros Ha Hi. apply String.eqb_neq in Ha, Hi.
  unfold make_product_data, get_product_name, get_product_url, get_image_url.
  rewrite Ha, Hi. by destruct (html result).
Qed.

Lemma unknown_source_gives_blank_fields_witness :
  make_product_data 1 product_page "ebay"
  = {| cart_number := "1"; name := EmptyString;
       url := EmptyString; image := EmptyString |}.
Proof.
  apply (unknown_source_gives_blank_fields "ebay" 1 product_page);
    discriminate.
Defined.

(** X11: for source [amazon], a page whose only anchor-opening pattern
    is at its very start yields the empty URL: as for the name (C10),
    the pattern is accepted only at a strictly positive index. *)
Theorem product_url_anchor_at_start (e : entry) (rest : string) :
  html e = Some ("<a href=" +:+ rest) →
  (∀ i, occurs_at "<a href=" ("<a href=" +:+ rest) i → i = O) →
  get_product_url e "amazon" = EmptyString.
Proof.
  intros Ht Hlast. rewrite (get_product_url_amazon e _ Ht).
  rewrite (rfind_last _ "<a href=" EmptyString rest); [done|done|].
  intros i Hi. apply Hlast in Hi. simpl. lia.
Qed.

Lemma product_url_anchor_at_start_witness :
  get_product_url anchor_at_start "amazon" = EmptyString.
Proof.
  apply (product_url_anchor_at_start anchor_at_start "'u1'>x</a>").
  - reflexivity.
  - intros i Hi.
    pose proof (last_occurrence_check "<a href=" "<a href='u1'>x</a>" O
                  eq_refl i Hi). lia.
Defined.

(** ** The Discovery query, step by step *)

(** X12: when the Discovery client answers, [get_discovery_response]
    asks it for [DISCOVERY_QUERY_COUNT] results, filters them by score,
    formats them, keeps the formatted list in [response_tuple] and
    returns its rendering under [discovery_result], changing no other
    field; the list has at most [DISCOVERY_KEEP_COUNT] records: as many
    as that or as there are results above a positive minimum score, and
    as many as that or as there are results when the minimum is zero. *)
Theorem get_discovery_response_keeps_formatted_list {DB : Type}
    (cfg : config) (v : Py.pyval) (s : self DB)
    (query : Py.pyval → Z → result discovery_response)
    (dr : discovery_response) :
  discovery_client cfg = Some query →
  query v DISCOVERY_QUERY_COUNT = inr dr →
  ∃ out,
    get_discovery_response cfg v s
    = (inr {[ "discovery_result" := Py.PStr (rendered out) ]},
       with_response_tuple out s)
    ∧ format_discovery_response
        (score_filter_step (discovery_score_filter cfg) dr)
        (discovery_data_source cfg) = inr out
    ∧ llen out ≤ DISCOVERY_KEEP_COUNT
    ∧ (∀ rs, results dr = Some rs →
         PrimFloat.ltb 0 (discovery_score_filter cfg) = true →
         llen out
         = Z.min DISCOVERY_KEEP_COUNT
             (llen (filter (above_threshold (discovery_score_filter cfg)) rs))
         ∧ out = imap (λ j r, make_product_data (1 + Z.of_nat j) r
                                (discovery_data_source cfg))
                   (take (Z.to_nat DISCOVERY_KEEP_COUNT)
                      (filter (above_threshold (discovery_score_filter cfg))
                         rs)))
    ∧ (∀ rs, results dr = Some rs →
         discovery_score_filter cfg = 0%float →
         llen out = Z.min DISCOVERY_KEEP_COUNT (llen rs)
         ∧ out = imap (λ j r, make_product_data (1 + Z.of_nat j) r
                                (discovery_data_source cfg))
                   (take (Z.to_nat DISCOVERY_KEEP_COUNT) rs))
    ∧ (results dr = None → out = []).
Proof.
  intros Hq Hdr.
  pose proof (format_discovery_response_eq
                (score_filter_step (discovery_score_filter cfg) dr)
                (discovery_data_source cfg)) as Hout.
  eexists. split; [exact (get_discovery_response_ok cfg v s query dr _ Hq Hdr Hout)|].
  split; [exact Hout|].
  assert (Hlen : ∀ l : list entry,
            llen (imap (λ j r, make_product_data (1 + Z.of_nat j) r
                                 (discovery_data_source cfg))
                    (take (Z.to_nat DISCOVERY_KEEP_COUNT) l))
            = Z.min DISCOVERY_KEEP_COUNT (llen l)).
  { intros l. unfold llen. rewrite length_imap, length_take.
    unfold DISCOVERY_KEEP_COUNT. lia. }
  split; [rewrite Hlen; lia|]. split; [|split].
  - intros rs Hrs Hpos.
    assert (Hrs' : default [] (results (score_filter_step
                                          (discovery_score_filter cfg) dr))
                   = filter (above_threshold (discovery_score_filter cfg)) rs).
    { unfold score_filter_step.
      rewrite Hrs, (positive_float_truthy _ Hpos). simpl.
      by rewrite filter_keep_entry. }
    rewrite Hrs'. split; [apply Hlen|reflexivity].
  - intros rs Hrs Hzero.
    assert (Hrs' : default [] (results (score_filter_step
                                          (discovery_score_filter cfg) dr))
                   = rs).
    { unfold score_filter_step. rewrite Hrs, Hzero. simpl. by rewrite Hrs. }
    rewrite Hrs'. split; [apply Hlen|reflexivity].
  - intros Hnone. unfold score_filter_step. by rewrite Hnone, Hnone.
Qed.

Lemma get_discovery_response_keeps_formatted_list_witness :
  ∃ out,
    get_discovery_response search_config (Py.PStr "mug")
      (session search_and_list (Some alice))
    = (inr {[ "discovery_result" := Py.PStr (rendered out) ]},
       with_response_tuple out (session search_and_list (Some alice)))
    ∧ format_discovery_response (score_filter_step 0.6 four_scores)
        "ibm_store" = inr out
    ∧ llen out ≤ DISCOVERY_KEEP_COUNT
    ∧ llen out
      = Z.min DISCOVERY_KEEP_COUNT
          (llen (filter (above_threshold 0.6)
                   (default [] (results four_scores))))
    ∧ out = imap (λ j r, make_product_data (1 + Z.of_nat j) r "ibm_store")
              (take (Z.to_nat DISCOVERY_KEEP_COUNT)
                 (filter (above_threshold 0.6)
                    (default [] (results four_scores)))).
Proof.
  destruct (get_discovery_response_keeps_formatted_list search_config
              (Py.PStr "mug") (session search_and_list (Some alice))
              (λ _ _, inr four_scores) four_scores eq_refl eq_refl)
    as (out & Hrun & Hfmt & Hle & Hpos & _).
  exists out. split; [exact Hrun|]. split; [exact Hfmt|]. split; [exact Hle|].
  apply Hpos; reflexivity.
Defined.

(** X13: [handle_DiscoveryQuery] raises only when the context has no
    [discovery_string], and then it raises [KeyError] and changes
    nothing.  Otherwise it returns [False] whatever the Discovery client
    does: it merges a [discovery_result] into the context and leaves the
    customer, the store and the messages alone; with no client, the
    result merged is the fake one and [response_tuple] is kept. *)
Theorem handle_DiscoveryQuery_outcome {DB : Type} `{!CloudantOnlineStore DB}
    (cfg : config) (repr_exn : Py.exn → string) (fake_discovery : Py.pyval)
    (s : self DB) :
  (context s !! "discovery_string" = None →
   handle_DiscoveryQuery cfg repr_exn fake_discovery s = (inl Py.KeyError, s))
  ∧ (∀ v, context s !! "discovery_string" = Some v →
     ∃ s' val,
       handle_DiscoveryQuery cfg repr_exn fake_discovery s = (inr false, s')
       ∧ context s'
         = context_merge (context s) {[ "discovery_result" := val ]}
       ∧ customer s' = customer s
       ∧ database s' = database s
       ∧ store_calls s' = store_calls s
       ∧ slack_messages s' = slack_messages s
       ∧ (discovery_client cfg = None →
          val = fake_discovery ∧ response_tuple s' = response_tuple s)).
Proof.
  split.
  - intros Hnone. unfold handle_DiscoveryQuery.
    assert (Hitem : context_item "discovery_string" s = (inl Py.KeyError, s)).
    { unfold context_item, get_context, mbind, M_bind. by rewrite Hnone. }
    by rewrite (bind_raise _ _ _ _ _ Hitem).
  - intros v Hv. destruct (discovery_client cfg) as [query|] eqn:Hq.
    + destruct (handle_DiscoveryQuery_run cfg repr_exn fake_discovery s v query
                  Hv Hq) as (s' & txt & Hrun & Hc & Hcu & Hdb & Hca & Hms).
      exists s', (Py.PStr txt). by repeat (split; [done|]).
    + eexists _, fake_discovery. unfold handle_DiscoveryQuery.
      assert (Hitem : context_item "discovery_string" s = (inr v, s)).
      { unfold context_item, get_context, mbind, M_bind. by rewrite Hv. }
      rewrite (bind_ok _ _ _ _ _ Hitem), Hq.
      split; [reflexivity|]. repeat split; reflexivity.
Qed.

Lemma handle_DiscoveryQuery_outcome_witness :
  handle_DiscoveryQuery quiet_config (λ _, "error") (Py.PStr "fake")
    (session (cart_request "add" "1") (Some alice))
  = (inl Py.KeyError, session (cart_request "add" "1") (Some alice))
  ∧ ∃ s' val,
      handle_DiscoveryQuery quiet_config (λ _, "error") (Py.PStr "fake")
        (session search_and_list (Some alice)) = (inr false, s')
      ∧ context s'
        = context_merge search_and_list {[ "discovery_result" := val ]}
      ∧ val = Py.PStr "fake".
Proof.
  split.
  - apply (proj1 (handle_DiscoveryQuery_outcome quiet_config (λ _, "error")
                    (Py.PStr "fake")
                    (session (cart_request "add" "1") (Some alice)))).
    reflexivity.
  - destruct (proj2 (handle_DiscoveryQuery_outcome quiet_config (λ _, "error")
                       (Py.PStr "fake") (session search_and_list (Some alice)))
                (Py.PStr "mug") eq_refl)
      as (s' & val & Hrun & Hc & _ & _ & _ & _ & Hfake).
    exists s', val. split; [exact Hrun|]. split; [exact Hc|].
    by destruct (Hfake eq_refl).
Defined.

(** X14: when the Discovery client raises, [handle_DiscoveryQuery]
    still returns [False]: the [repr] of the exception is what it stores
    under [discovery_result], every other key of the context is kept,
    and [response_tuple] still holds the list of the previous search. *)
Theorem handle_DiscoveryQuery_stores_error {DB : Type}
    `{!CloudantOnlineStore DB}
    (cfg : config) (repr_exn : Py.exn → string) (fake_discovery : Py.pyval)
    (s : self DB) (v : Py.pyval)
    (query : Py.pyval → Z → result discovery_response) (e : Py.exn) :
  context s !! "discovery_string" = Some v →
  discovery_client cfg = Some query →
  query v DISCOVERY_QUERY_COUNT = inl e →
  handle_DiscoveryQuery cfg repr_exn fake_discovery s
  = (inr false,
     with_context (<["discovery_result" := Py.PStr (repr_exn e)]> (context s)) s).
Proof.
  intros Hv Hq He. unfold handle_DiscoveryQuery.
  assert (Hitem : context_item "discovery_string" s = (inr v, s)).
  { unfold context_item, get_context, mbind, M_bind. by rewrite Hv. }
  rewrite (bind_ok _ _ _ _ _ Hitem), Hq.
  unfold mbind at 1, M_bind at 1, try_except_Exception.
  rewrite (get_discovery_response_query_raises cfg v s query e Hq He).
  unfold mret at 1, M_ret at 1.
  unfold mbind, M_bind, get_context, set_context, mret, M_ret.
  do 2 f_equal. unfold with_context. f_equal.
  apply map_eq. intros k. rewrite context_merge_lookup.
  destruct (decide (k = "discovery_result")) as [->|Hk].
  - by rewrite lookup_singleton_eq, lookup_insert_eq.
  - by rewrite lookup_singleton_ne, lookup_insert_ne.
Qed.

Lemma handle_DiscoveryQuery_stores_error_witness :
  handle_DiscoveryQuery failing_config
    (λ e, match e with Py.ServiceError m => m | _ => "error" end)
    Py.PNone (session search_and_list (Some alice))
  = (inr false,
     with_context (<["discovery_result" := Py.PStr "timeout"]> search_and_list)
       (session search_and_list (Some alice))).
Proof.
  apply (handle_DiscoveryQuery_stores_error failing_config
           (λ e, match e with Py.ServiceError m => m | _ => "error" end)
           Py.PNone
           (session search_and_list (Some alice)) (Py.PStr "mug")
           (λ _ _, inl (Py.ServiceError "timeout")) (Py.ServiceError "timeout"));
    reflexivity.
Defined.

(** ** The cart handlers on a known customer *)

Section CartHandlers.

Context {DB : Type} `{!CloudantOnlineStore DB}.
Implicit Types (s : self DB) (v : Py.pyval) (k : Z) (c : OnlineStoreCustomer).

(** A loop in which the ordinal designates the element of index [i]
    runs the body once, on that element. *)
Lemma for_enumerate_match {A} (body : nat → A → @M DB unit) (k : Z)
    (l : list A) (index i : nat) (x : A) s :
  l !! i = Some x →
  k = Z.of_nat (index + i) + 1 →
  for_enumerate
    (λ j y, if Z.of_nat j + 1 =? k then body j y else mret tt) index l s
  = body (index + i)%nat x s.
Proof.
  revert index i. induction l as [|y l IH]; intros index i Hx Hk; [done|].
  destruct i as [|i]; simpl in Hx.
  - injection Hx as ->. rewrite Nat.add_0_r in *. simpl.
    unfold mbind, M_bind.
    destruct (Z.eqb_spec (Z.of_nat index + 1) k) as [_|]; [|lia].
    destruct (body index x s) as [[e|[]] s']; [done|].
    apply for_enumerate_no_match. lia.
  - simpl. unfold mbind, M_bind.
    destruct (Z.eqb_spec (Z.of_nat index + 1) k) as [|_]; [lia|].
    unfold mret at 1, M_ret at 1.
    rewrite (IH (S index) i Hx) by lia. f_equal. lia.
Qed.

Lemma foldl_cart_listing (str_utf8 : string → string) (acc : string)
    (index : nat) (cart : list string) :
  foldl (λ acc '(index, item),
           acc +:+ (Py.str_of_int (Z.of_nat index + 1) +:+ ") "
                      +:+ str_utf8 item +:+ nl))
        acc (imap (λ j, pair (index + j)%nat) cart)
  = acc +:+ cart_listing str_utf8 index cart.
Proof.
  revert acc index. induction cart as [|item cart IH]; intros acc index; simpl.
  - by rewrite str_app_nil_r.
  - rewrite (imap_ext _ (λ j, pair (S index + j)%nat)).
    2:{ intros j x _. simpl. f_equal. lia. }
    rewrite IH, Nat.add_0_r. by rewrite !str_app_assoc.
Qed.

Lemma call_delete_run s em item :
  call_delete_item_shopping_cart em item s =
  match delete_item_shopping_cart (database s) em item with
  | inr d => (inr (), with_database d (with_call (DeleteItemShoppingCart em item) s))
  | inl e => (inl e, with_call (DeleteItemShoppingCart em item) s)
  end.
Proof.
  unfold call_delete_item_shopping_cart, mbind, M_bind, log_call,
    get_database, lift, set_database. simpl.
  by destruct (delete_item_shopping_cart _ _ _).
Qed.

Lemma call_add_run s em item :
  call_add_to_shopping_cart em item s =
  match add_to_shopping_cart (database s) em item with
  | inr d => (inr (), with_database d (with_call (AddToShoppingCart em item) s))
  | inl e => (inl e, with_call (AddToShoppingCart em item) s)
  end.
Proof.
  unfold call_add_to_shopping_cart, mbind, M_bind, log_call,
    get_database, lift, set_database. simpl.
  by destruct (add_to_shopping_cart _ _ _).
Qed.

Lemma iter_response_tuple_ok s rt :
  response_tuple s = Some rt → iter_response_tuple s = (inr rt, s).
Proof. intros H. unfold iter_response_tuple. by rewrite H. Qed.

End CartHandlers.

(** X15: with a known customer whose cart the store lists,
    [handle_list_shopping_cart] returns [False] after the one listing
    call and stores under [shopping_cart] the numbered lines of the
    cart, the empty string for an empty cart; this text is never [list],
    [add] or [delete], so no cart action is left pending.  When the
    store raises, the exception escapes and the context is as before. *)
Theorem handle_list_shopping_cart_lists {DB : Type} `{!CloudantOnlineStore DB}
    (str_utf8 : string → string) (s : self DB) (c : OnlineStoreCustomer) :
  customer s = Some c →
  (∀ cart, list_shopping_cart (database s) (email c) = inr cart →
     handle_list_shopping_cart str_utf8 s
     = (inr false,
        with_context
          (<["shopping_cart" := Py.PStr (cart_listing str_utf8 O cart)]>
             (context s))
          (with_call (ListShoppingCart (email c)) s))
     ∧ cart_listing str_utf8 O cart ≠ "list"
     ∧ cart_listing str_utf8 O cart ≠ "add"
     ∧ cart_listing str_utf8 O cart ≠ "delete"
     ∧ (cart = [] → cart_listing str_utf8 O cart = EmptyString))
  ∧ (∀ e, list_shopping_cart (database s) (email c) = inl e →
     handle_list_shopping_cart str_utf8 s
     = (inl e, with_call (ListShoppingCart (email c)) s)).
Proof.
  intros Hc. split.
  - intros cart Hl. split.
    + unfold handle_list_shopping_cart.
      rewrite (bind_ok _ _ _ _ _ (customer_email_ok s c Hc)).
      erewrite bind_ok; [|by rewrite call_list_shopping_cart_run, Hl].
      rewrite (imap_ext _ (λ j, pair (0 + j)%nat)) by done.
      rewrite foldl_cart_listing, str_app_nil_l. reflexivity.
    + destruct cart as [|item cart]; [done|].
      cbn [cart_listing]. change (Py.str_of_int (Z.of_nat 0 + 1)) with "1".
      rewrite !str_app_cons. repeat split; discriminate.
  - intros e Hl. unfold handle_list_shopping_cart.
    rewrite (bind_ok _ _ _ _ _ (customer_email_ok s c Hc)).
    erewrite bind_raise; [done|]. by rewrite call_list_shopping_cart_run, Hl.
Qed.

Lemma handle_list_shopping_cart_lists_witness :
  handle_list_shopping_cart (λ item, item)
    (session (cart_request "list" "") (Some alice))
  = (inr false,
     with_context
       (<["shopping_cart" :=
            Py.PStr ("1) mug: u1" +:+ nl +:+ "2) cap: u2" +:+ nl)]>
          (cart_request "list" ""))
       (with_call (ListShoppingCart "alice@example.com")
          (session (cart_request "list" "") (Some alice)))).
Proof.
  assert (Hl : list_shopping_cart
                 (database (session (cart_request "list" "") (Some alice)))
                 (email alice) = inr ["mug: u1"; "cap: u2"]) by reflexivity.
  exact (proj1 (proj1 (handle_list_shopping_cart_lists (λ item, item)
                         (session (cart_request "list" "") (Some alice)) alice
                         eq_refl) _ Hl)).
Defined.

(** X16: with a known customer, a listed cart and a [cart_item] that
    [int] reads as the ordinal of an item of the cart,
    [handle_delete_from_cart] issues, after the listing, one delete call
    for that very item; when the store accepts it, the handler installs
    the new database, clears the two pending fields and returns
    [False]. *)
Theorem delete_in_range_deletes_item {DB : Type} `{!CloudantOnlineStore DB}
    (s : self DB) (c : OnlineStoreCustomer) (cart : list string)
    (v : Py.pyval) (i : nat) (item : string) (d : DB) :
  customer s = Some c →
  list_shopping_cart (database s) (email c) = inr cart →
  context s !! "cart_item" = Some v →
  Py.int v = inr (Z.of_nat i + 1) →
  cart !! i = Some item →
  delete_item_shopping_cart (database s) (email c) item = inr d →
  handle_delete_from_cart s
  = (inr false,
     with_context
       (<["cart_item" := Py.PStr ""]>
          (<["shopping_cart" := Py.PStr ""]> (context s)))
       (with_database d
          (with_call (DeleteItemShoppingCart (email c) item)
             (with_call (ListShoppingCart (email c)) s)))).
Proof.
  intros Hc Hl Hv Hk Hi Hd. unfold handle_delete_from_cart.
  rewrite (bind_ok _ _ _ _ _ (customer_email_ok s c Hc)).
  erewrite bind_ok; [|by rewrite call_list_shopping_cart_run, Hl].
  rewrite (bind_ok _ _ _ _ _
             (int_cart_item_ok
                (with_call (ListShoppingCart (email c)) s) v _ Hv Hk)).
  erewrite bind_ok.
  2:{ rewrite (for_enumerate_match _ _ _ O i item _ Hi) by (simpl; lia).
      rewrite call_delete_run. simpl. rewrite Hd. reflexivity. }
  reflexivity.
Qed.

Lemma delete_in_range_deletes_item_witness :
  handle_delete_from_cart (session (cart_request "delete" "2") (Some alice))
  = (inr false,
     with_context (cart_request "" "")
       (with_database {[ "alice@example.com" := ["mug: u1"] ]}
          (with_call (DeleteItemShoppingCart "alice@example.com" "cap: u2")
             (with_call (ListShoppingCart "alice@example.com")
                (session (cart_request "delete" "2") (Some alice)))))).
Proof.
  apply (delete_in_range_deletes_item
           (session (cart_request "delete" "2") (Some alice)) alice
           ["mug: u1"; "cap: u2"] (Py.PStr "2") 1 "cap: u2"
           {[ "alice@example.com" := ["mug: u1"] ]});
    reflexivity.
Defined.

(** X17: in the same situation, when the store raises on the delete
    call, the exception escapes from [handle_delete_from_cart]: the
    database is untouched and the two pending fields of the context are
    not cleared. *)
Theorem delete_failure_escapes {DB : Type} `{!CloudantOnlineStore DB}
    (s : self DB) (c : OnlineStoreCustomer) (cart : list string)
    (v : Py.pyval) (i : nat) (item : string) (e : Py.exn) :
  customer s = Some c →
  list_shopping_cart (database s) (email c) = inr cart →
  context s !! "cart_item" = Some v →
  Py.int v = inr (Z.of_nat i + 1) →
  cart !! i = Some item →
  delete_item_shopping_cart (database s) (email c) item = inl e →
  handle_delete_from_cart s
  = (inl e,
     with_call (DeleteItemShoppingCart (email c) item)
       (with_call (ListShoppingCart (email c)) s)).
Proof.
  intros Hc Hl Hv Hk Hi Hd. unfold handle_delete_from_cart.
  rewrite (bind_ok _ _ _ _ _ (customer_email_ok s c Hc)).
  erewrite bind_ok; [|by rewrite call_list_shopping_cart_run, Hl].
  rewrite (bind_ok _ _ _ _ _
             (int_cart_item_ok
                (with_call (ListShoppingCart (email c)) s) v _ Hv Hk)).
  erewrite bind_raise; [reflexivity|].
  rewrite (for_enumerate_match _ _ _ O i item _ Hi) by (simpl; lia).
  rewrite call_delete_run. simpl. by rewrite Hd.
Qed.

(** X18: with a known customer, a formatted list kept from a search and
    a [cart_item] that [int] reads as the ordinal of one of its records,
    [handle_add_to_cart] issues one add call whose item is the name of
    the record, a colon and a blank, its URL and a line feed; when the
    store accepts it, the handler installs the new database, clears the
    two pending fields and returns [False]. *)
Theorem add_in_range_adds_item {DB : Type} `{!CloudantOnlineStore DB}
    (s : self DB) (c : OnlineStoreCustomer) (rt : list product_data)
    (v : Py.pyval) (i : nat) (entry : product_data) (d : DB) :
  customer s = Some c →
  response_tuple s = Some rt →
  context s !! "cart_item" = Some v →
  Py.int v = inr (Z.of_nat i + 1) →
  rt !! i = Some entry →
  add_to_shopping_cart (database s) (email c)
    (name entry +:+ ": " +:+ url entry +:+ nl) = inr d →
  handle_add_to_cart s
  = (inr false,
     with_context
       (<["cart_item" := Py.PStr ""]>
          (<["shopping_cart" := Py.PStr ""]> (context s)))
       (with_database d
          (with_call
             (AddToShoppingCart (email c)
                (name entry +:+ ": " +:+ url entry +:+ nl)) s))).
Proof.
  intros Hc Hrt Hv Hk Hi Hd. unfold handle_add_to_cart.
  rewrite (bind_ok _ _ _ _ _ (int_cart_item_ok s v _ Hv Hk)).
  rewrite (bind_ok _ _ _ _ _ (customer_email_ok s c Hc)).
  rewrite (bind_ok _ _ _ _ _ (iter_response_tuple_ok s rt Hrt)).
  erewrite bind_ok.
  2:{ rewrite (for_enumerate_match
                 (λ _ entry, call_add_to_shopping_cart (email c)
                               (name entry +:+ ": " +:+ url entry +:+ nl))
                 _ _ O i entry _ Hi) by (simpl; lia).
      rewrite call_add_run. rewrite Hd. reflexivity. }
  reflexivity.
Qed.

(** X19: with a known customer, [handle_add_to_cart] on an ordinal that
    designates no record of the kept list issues no call to the store,
    clears the two pending fields and returns [False]; and when no
    search has been made yet, so that there is no list to enumerate, it
    raises [TypeError] and changes nothing. *)
Theorem add_out_of_range_or_before_search {DB : Type}
    `{!CloudantOnlineStore DB}
    (s : self DB) (c : OnlineStoreCustomer) (v : Py.pyval) (k : Z) :
  customer s = Some c →
  context s !! "cart_item" = Some v →
  Py.int v = inr k →
  (∀ rt, response_tuple s = Some rt → (k > llen rt ∨ k < 1) →
     handle_add_to_cart s
     = (inr false,
        with_context
          (<["cart_item" := Py.PStr ""]>
             (<["shopping_cart" := Py.PStr ""]> (context s))) s))
  ∧ (response_tuple s = None →
     handle_add_to_cart s = (inl Py.TypeError, s)).
Proof.
  intros Hc Hv Hk. split.
  - intros rt Hrt Hrange. unfold handle_add_to_cart.
    rewrite (bind_ok _ _ _ _ _ (int_cart_item_ok s v _ Hv Hk)).
    rewrite (bind_ok _ _ _ _ _ (customer_email_ok s c Hc)).
    rewrite (bind_ok _ _ _ _ _ (iter_response_tuple_ok s rt Hrt)).
    erewrite bind_ok.
    2:{ apply (for_enumerate_no_match
                 (λ _ entry, call_add_to_shopping_cart (email c)
                               (name entry +:+ ": " +:+ url entry +:+ nl))).
        lia. }
    reflexivity.
  - intros Hnone. unfold handle_add_to_cart.
    rewrite (bind_ok _ _ _ _ _ (int_cart_item_ok s v _ Hv Hk)).
    rewrite (bind_ok _ _ _ _ _ (customer_email_ok s c Hc)).
    erewrite bind_raise; [reflexivity|].
    unfold iter_response_tuple. by rewrite Hnone.
Qed.

Lemma delete_failure_escapes_witness :
  handle_delete_from_cart (read_only_session (cart_request "delete" "1"))
  = (inl (Py.ServiceError "read only"),
     with_call (DeleteItemShoppingCart "alice@example.com" "mug: u1")
       (with_call (ListShoppingCart "alice@example.com")
          (read_only_session (cart_request "delete" "1")))).
Proof.
  apply (delete_failure_escapes
           (read_only_session (cart_request "delete" "1")) alice
           ["mug: u1"] (Py.PStr "1") 0 "mug: u1"
           (Py.ServiceError "read only"));
    reflexivity.
Defined.

Lemma add_in_range_adds_item_witness :
  handle_add_to_cart
    (with_response_tuple three_results (fresh_session (cart_request "add" "2")))
  = (inr false,
     with_context (cart_request "" "")
       (with_database
          {[ "alice@example.com" :=
               ["mug: u1"; "cap: u2"; "cap: u2" +:+ nl] ]}
          (with_call
             (AddToShoppingCart "alice@example.com" ("cap: u2" +:+ nl))
             (with_response_tuple three_results
                (fresh_session (cart_request "add" "2")))))).
Proof.
  apply (add_in_range_adds_item
           (with_response_tuple three_results
              (fresh_session (cart_request "add" "2")))
           alice three_results (Py.PStr "2") 1
           {| cart_number := "2"; name := "cap"; url := "u2"; image := "i2" |}
           {[ "alice@example.com" :=
                ["mug: u1"; "cap: u2"; "cap: u2" +:+ nl] ]});
    reflexivity.
Defined.

Lemma add_out_of_range_or_before_search_witness :
  handle_add_to_cart
    (with_response_tuple three_results (fresh_session (cart_request "add" "4")))
  = (inr false,
     with_context (cart_request "" "")
       (with_response_tuple three_results
          (fresh_session (cart_request "add" "4"))))
  ∧ handle_add_to_cart (fresh_session (cart_request "add" "1"))
    = (inl Py.TypeError, fresh_session (cart_request "add" "1")).
Proof.
  split.
  - apply (proj1 (add_out_of_range_or_before_search
                    (with_response_tuple three_results
                       (fresh_session (cart_request "add" "4")))
                    alice (Py.PStr "4") 4 eq_refl eq_refl eq_refl)
             three_results eq_refl).
    left. reflexivity.
  - apply (proj2 (add_out_of_range_or_before_search
                    (fresh_session (cart_request "add" "1"))
                    alice (Py.PStr "1") 1 eq_refl eq_refl eq_refl)).
    reflexivity.
Defined.

(** ** The router, branch by branch *)

Section Routes.

Context {DB : Type} `{!CloudantOnlineStore DB}.
Variable cfg : config.
Variable repr_exn : Py.exn → string.
Variable str_utf8 : string → string.
Variable fake_discovery : Py.pyval.
Implicit Types (s : self DB) (v : Py.pyval) (w : watson_response).

(** Once Watson has answered, [handle_message] is the chain of tests on
    the context in force, run on the fields after the exchange. *)
Lemma handle_message_after_exchange (message : string) s w :
  conversation_client cfg message (context s) = inr w →
  handle_message cfg repr_exn str_utf8 fake_discovery message s =
  let s2 := after_exchange w s in
  let c := context s2 in
  if wants_discovery cfg c
  then handle_DiscoveryQuery cfg repr_exn fake_discovery s2
  else if has c "shopping_cart" (λ v, Py.eq_str v "list")
  then handle_list_shopping_cart str_utf8 s2
  else if has c "shopping_cart" (λ v, Py.eq_str v "add")
          && has c "cart_item" (λ v, negb (Py.eq_str v ""))
  then handle_add_to_cart s2
  else if has c "shopping_cart" (λ v, Py.eq_str v "delete")
          && has c "cart_item" (λ v, negb (Py.eq_str v ""))
  then handle_delete_from_cart s2
  else if has c "get_input" (λ v, Py.eq_str v "no")
  then (inr false, s2)
  else (inr true, s2).
Proof.
  intros Hw. unfold handle_message.
  assert (H1 : get_watson_response cfg message s = (inr w, s)).
  { unfold get_watson_response, get_context, mbind, M_bind, lift.
    by rewrite Hw. }
  rewrite (bind_ok _ _ _ _ _ H1).
  assert (H2 : (match wr_context w with
                | Some c => set_context c
                | None => mret ()
                end) s
               = (inr (), match wr_context w with
                          | Some c => with_context c s
                          | None => s
                          end)).
  { by destruct (wr_context w). }
  rewrite (bind_ok _ _ _ _ _ H2).
  assert (H3 : send_message (joined_output w)
                 (match wr_context w with
                  | Some c => with_context c s
                  | None => s
                  end) = (inr (), after_exchange w s)) by done.
  rewrite (bind_ok _ _ _ _ _ H3).
  assert (H4 : get_context (after_exchange w s)
               = (inr (context (after_exchange w s)), after_exchange w s))
    by done.
  rewrite (bind_ok _ _ _ _ _ H4). cbv zeta. unfold wants_discovery.
  repeat case_match; reflexivity.
Qed.

Lemma handle_message_watson_raises (message : string) s e :
  conversation_client cfg message (context s) = inl e →
  handle_message cfg repr_exn str_utf8 fake_discovery message s = (inl e, s).
Proof.
  intros Hw. unfold handle_message.
  assert (H1 : get_watson_response cfg message s = (inl e, s)).
  { unfold get_watson_response, get_context, mbind, M_bind, lift.
    by rewrite Hw. }
  by rewrite (bind_raise _ _ _ _ _ H1).
Qed.

Lemma context_after_exchange w s :
  context (after_exchange w s) = default (context s) (wr_context w).
Proof. unfold after_exchange. by destruct (wr_context w). Qed.

End Routes.

(** X20: a [cart_item] that is not the empty string but that [int]
    refuses with another exception than [ValueError] (a null, a list)
    passes the test of the router for the add action and makes
    [handle_message] raise that exception, after the reply of Watson has
    been sent. *)
Theorem add_with_unreadable_cart_item_raises {DB : Type}
    `{!CloudantOnlineStore DB}
    (cfg : config) (repr_exn : Py.exn → string) (str_utf8 : string → string)
    (fake_discovery : Py.pyval) (message : string) (s : self DB)
    (w : watson_response) (v : Py.pyval) (e : Py.exn) :
  conversation_client cfg message (context s) = inr w →
  wants_discovery cfg (context (after_exchange w s)) = false →
  context (after_exchange w s) !! "shopping_cart" = Some (Py.PStr "add") →
  context (after_exchange w s) !! "cart_item" = Some v →
  Py.eq_str v "" = false →
  Py.int v = inl e →
  e ≠ Py.ValueError →
  handle_message cfg repr_exn str_utf8 fake_discovery message s
  = (inl e, after_exchange w s).
Proof.
  intros Hw Hd Hsc Hv Hne He Hnv.
  rewrite (handle_message_after_exchange _ _ _ _ _ _ _ Hw). cbv zeta.
  rewrite Hd. unfold has. rewrite Hsc, Hv, Hne. simpl.
  unfold handle_add_to_cart.
  assert (Hint : int_cart_item (after_exchange w s)
                 = (inl e, after_exchange w s)).
  { unfold int_cart_item, try_except_ValueError, context_item.
    unfold mbind, M_bind, get_context. rewrite Hv.
    unfold mret at 1, M_ret at 1. unfold lift. rewrite He.
    by destruct e. }
  by rewrite (bind_raise _ _ _ _ _ Hint).
Qed.

Lemma add_with_unreadable_cart_item_raises_witness :
  handle_message quiet_config (λ _, "error") (λ item, item) Py.PNone "add it"
    (session {[ "shopping_cart" := Py.PStr "add"; "cart_item" := Py.PNone ]}
       (Some alice))
  = (inl Py.TypeError,
     after_exchange (WatsonResponse None ["ok"])
       (session {[ "shopping_cart" := Py.PStr "add"; "cart_item" := Py.PNone ]}
          (Some alice))).
Proof.
  apply (add_with_unreadable_cart_item_raises quiet_config (λ _, "error")
           (λ item, item) Py.PNone "add it"
           (session {[ "shopping_cart" := Py.PStr "add";
                       "cart_item" := Py.PNone ]} (Some alice))
           (WatsonResponse None ["ok"]) Py.PNone Py.TypeError);
    try reflexivity.
  discriminate.
Defined.

(** X21: when the context in force asks for no Discovery query and its
    [shopping_cart] is absent or is none of [list], [add] and [delete],
    [handle_message] does nothing beyond the exchange with Watson: it
    asks for user input unless [get_input] is [no]. *)
Theorem no_action_waits_for_input {DB : Type} `{!CloudantOnlineStore DB}
    (cfg : config) (repr_exn : Py.exn → string) (str_utf8 : string → string)
    (fake_discovery : Py.pyval) (message : string) (s : self DB)
    (w : watson_response) :
  conversation_client cfg message (context s) = inr w →
  wants_discovery cfg (context (after_exchange w s)) = false →
  has (context (after_exchange w s)) "shopping_cart"
    (λ v, Py.eq_str v "list" || Py.eq_str v "add" || Py.eq_str v "delete")
  = false →
  handle_message cfg repr_exn str_utf8 fake_discovery message s
  = (inr (negb (has (context (after_exchange w s)) "get_input"
                  (λ v, Py.eq_str v "no"))),
     after_exchange w s).
Proof.
  intros Hw Hd Hsc.
  rewrite (handle_message_after_exchange _ _ _ _ _ _ _ Hw). cbv zeta.
  rewrite Hd. unfold has in *.
  destruct (context (after_exchange w s) !! "shopping_cart") as [sc|].
  - apply orb_false_iff in Hsc as [Hsc Hdel].
    apply orb_false_iff in Hsc as [Hlist Hadd].
    rewrite Hlist, Hadd, Hdel. simpl. by case_match.
  - simpl. by case_match.
Qed.

Lemma no_action_waits_for_input_witness :
  handle_message quiet_config (λ _, "error") (λ item, item) Py.PNone "hello"
    (session {[ "get_input" := Py.PStr "no" ]} (Some alice))
  = (inr false,
     after_exchange (WatsonResponse None ["ok"])
       (session {[ "get_input" := Py.PStr "no" ]} (Some alice)))
  ∧ handle_message quiet_config (λ _, "error") (λ item, item) Py.PNone "hello"
      (session (cart_request "" "") (Some alice))
    = (inr true,
       after_exchange (WatsonResponse None ["ok"])
         (session (cart_request "" "") (Some alice))).
Proof.
  split.
  - etrans.
    + apply (no_action_waits_for_input quiet_config (λ _, "error")
               (λ item, item) Py.PNone "hello"
               (session {[ "get_input" := Py.PStr "no" ]} (Some alice))
               (WatsonResponse None ["ok"])); reflexivity.
    + reflexivity.
  - etrans.
    + apply (no_action_waits_for_input quiet_config (λ _, "error")
               (λ item, item) Py.PNone "hello"
               (session (cart_request "" "") (Some alice))
               (WatsonResponse None ["ok"])); reflexivity.
    + reflexivity.
Defined.

(** X22: an [add] or a [delete] whose [cart_item] is absent or is the
    empty string is not performed: with no Discovery query asked,
    [handle_message] issues no call to the store, leaves the pending
    [shopping_cart] in the context and falls to the test of
    [get_input]. *)
Theorem cart_action_without_item_is_skipped {DB : Type}
    `{!CloudantOnlineStore DB}
    (cfg : config) (repr_exn : Py.exn → string) (str_utf8 : string → string)
    (fake_discovery : Py.pyval) (message : string) (s : self DB)
    (w : watson_response) (action : string) :
  conversation_client cfg message (context s) = inr w →
  wants_discovery cfg (context (after_exchange w s)) = false →
  action = "add" ∨ action = "delete" →
  context (after_exchange w s) !! "shopping_cart" = Some (Py.PStr action) →
  (context (after_exchange w s) !! "cart_item" = None
   ∨ context (after_exchange w s) !! "cart_item" = Some (Py.PStr "")) →
  handle_message cfg repr_exn str_utf8 fake_discovery message s
  = (inr (negb (has (context (after_exchange w s)) "get_input"
                  (λ v, Py.eq_str v "no"))),
     after_exchange w s).
Proof.
  intros Hw Hd Hact Hsc Hitem.
  rewrite (handle_message_after_exchange _ _ _ _ _ _ _ Hw). cbv zeta.
  rewrite Hd. unfold has. rewrite Hsc.
  destruct Hact as [-> | ->], Hitem as [-> | ->]; simpl; by case_match.
Qed.

Lemma cart_action_without_item_is_skipped_witness :
  handle_message quiet_config (λ _, "error") (λ item, item) Py.PNone "add"
    (session (cart_request "add" "") (Some alice))
  = (inr true,
     after_exchange (WatsonResponse None ["ok"])
       (session (cart_request "add" "") (Some alice))).
Proof.
  etrans.
  - apply (cart_action_without_item_is_skipped quiet_config (λ _, "error")
             (λ item, item) Py.PNone "add"
             (session (cart_request "add" "") (Some alice))
             (WatsonResponse None ["ok"]) "add"); try reflexivity.
    + by left.
    + by right.
  - reflexivity.
Defined.

(** X23: with no Discovery client, a [discovery_string] in the context
    triggers nothing, not even the fake query: when [shopping_cart] is
    [list], [handle_message] lists the cart on this very turn. *)
Theorem without_client_discovery_is_skipped {DB : Type}
    `{!CloudantOnlineStore DB}
    (cfg : config) (repr_exn : Py.exn → string) (str_utf8 : string → string)
    (fake_discovery : Py.pyval) (message : string) (s : self DB)
    (w : watson_response) :
  conversation_client cfg message (context s) = inr w →
  discovery_client cfg = None →
  context (after_exchange w s) !! "shopping_cart" = Some (Py.PStr "list") →
  handle_message cfg repr_exn str_utf8 fake_discovery message s
  = handle_list_shopping_cart str_utf8 (after_exchange w s).
Proof.
  intros Hw Hq Hsc.
  rewrite (handle_message_after_exchange _ _ _ _ _ _ _ Hw). cbv zeta.
  unfold wants_discovery. rewrite Hq.
  rewrite bool_decide_eq_false_2 by (by intros [? [=]]).
  rewrite andb_false_r. unfold has. by rewrite Hsc.
Qed.

Lemma without_client_discovery_is_skipped_witness :
  handle_message quiet_config (λ _, "error") (λ item, item) Py.PNone "mug"
    (session search_and_list (Some alice))
  = handle_list_shopping_cart (λ item, item)
      (after_exchange (WatsonResponse None ["ok"])
         (session search_and_list (Some alice))).
Proof.
  apply (without_client_discovery_is_skipped quiet_config (λ _, "error")
           (λ item, item) Py.PNone "mug"
           (session search_and_list (Some alice))
           (WatsonResponse None ["ok"])); reflexivity.
Defined.

(** ** What the handlers never touch *)

Section Frame.

Context {DB : Type} `{!CloudantOnlineStore DB}.
Implicit Types (s : self DB).

Lemma extends_refl s : extends s s.
Proof. by repeat split. Qed.

Lemma extends_trans s1 s2 s3 : extends s1 s2 → extends s2 s3 → extends s1 s3.
Proof.
  intros (Hc1 & Hm1 & Hp1) (Hc2 & Hm2 & Hp2). repeat split.
  - by rewrite Hc2.
  - by rewrite Hm2.
  - by etrans.
Qed.

Lemma keeps_ret {A} (x : A) : keeps_session (mret x : @M DB A).
Proof. intros s. apply extends_refl. Qed.

Lemma keeps_raise {A} e : keeps_session (raise e : @M DB A).
Proof. intros s. apply extends_refl. Qed.

Lemma keeps_lift {A} (r : result A) : keeps_session (lift r : @M DB A).
Proof. intros s. apply extends_refl. Qed.

Lemma keeps_bind {A B} (m : @M DB A) (f : A → @M DB B) :
  keeps_session m → (∀ x, keeps_session (f x)) → keeps_session (m ≫= f).
Proof.
  intros Hm Hf s. unfold mbind, M_bind. specialize (Hm s).
  destruct (m s) as [[e|x] s1]; [exact Hm|].
  eapply extends_trans; [exact Hm|apply Hf].
Qed.

Lemma keeps_get_context : keeps_session (@get_context DB).
Proof. intros s. apply extends_refl. Qed.

Lemma keeps_get_database : keeps_session (@get_database DB).
Proof. intros s. apply extends_refl. Qed.

Lemma keeps_set_context c : keeps_session (@set_context DB c).
Proof. intros s. by repeat split. Qed.

Lemma keeps_set_database d : keeps_session (@set_database DB d).
Proof. intros s. by repeat split. Qed.

Lemma keeps_set_response_tuple r : keeps_session (@set_response_tuple DB r).
Proof. intros s. by repeat split. Qed.

Lemma keeps_log_call c : keeps_session (@log_call DB c).
Proof. intros s. repeat split. simpl. by apply prefix_app_r. Qed.

Lemma keeps_customer_email : keeps_session (@customer_email DB).
Proof.
  intros s. unfold customer_email. destruct (customer s); apply extends_refl.
Qed.

Lemma keeps_iter_response_tuple : keeps_session (@iter_response_tuple DB).
Proof.
  intros s. unfold iter_response_tuple.
  destruct (response_tuple s); apply extends_refl.
Qed.

Lemma keeps_context_item k : keeps_session (@context_item DB k).
Proof.
  apply keeps_bind; [apply keeps_get_context|].
  intros c. destruct (c !! k); [apply keeps_ret|apply keeps_raise].
Qed.

Lemma keeps_set_context_item k v : keeps_session (@set_context_item DB k v).
Proof.
  apply keeps_bind; [apply keeps_get_context|].
  intros c. apply keeps_set_context.
Qed.

Lemma keeps_try_except_ValueError {A} (body handler : @M DB A) :
  keeps_session body → keeps_session handler →
  keeps_session (try_except_ValueError body handler).
Proof.
  intros Hb Hh s. unfold try_except_ValueError. specialize (Hb s).
  destruct (body s) as [[e|x] s1]; [|exact Hb].
  destruct e; try exact Hb.
  eapply extends_trans; [exact Hb|apply Hh].
Qed.

Lemma keeps_try_except_Exception {A} (body : @M DB A) handler :
  keeps_session body → (∀ e, keeps_session (handler e)) →
  keeps_session (try_except_Exception body handler).
Proof.
  intros Hb Hh s. unfold try_except_Exception. specialize (Hb s).
  destruct (body s) as [[e|x] s1]; [|exact Hb].
  eapply extends_trans; [exact Hb|apply Hh].
Qed.

Lemma keeps_for_enumerate {A} (body : nat → A → @M DB unit) index l :
  (∀ i x, keeps_session (body i x)) →
  keeps_session (for_enumerate body index l).
Proof.
  intros Hb. revert index. induction l as [|x l IH]; intros index.
  - apply keeps_ret.
  - simpl. apply keeps_bind; [apply Hb|]. intros _. apply IH.
Qed.

Lemma keeps_call_list em : keeps_session (call_list_shopping_cart em).
Proof.
  apply keeps_bind; [apply keeps_log_call|]. intros _.
  apply keeps_bind; [apply keeps_get_database|]. intros d. apply keeps_lift.
Qed.

Lemma keeps_call_add em item :
  keeps_session (call_add_to_shopping_cart em item).
Proof.
  apply keeps_bind; [apply keeps_log_call|]. intros _.
  apply keeps_bind; [apply keeps_get_database|]. intros d.
  apply keeps_bind; [apply keeps_lift|]. intros d'. apply keeps_set_database.
Qed.

Lemma keeps_call_delete em item :
  keeps_session (call_delete_item_shopping_cart em item).
Proof.
  apply keeps_bind; [apply keeps_log_call|]. intros _.
  apply keeps_bind; [apply keeps_get_database|]. intros d.
  apply keeps_bind; [apply keeps_lift|]. intros d'. apply keeps_set_database.
Qed.

Lemma keeps_clear_shopping_cart : keeps_session (@clear_shopping_cart DB).
Proof.
  apply keeps_bind; [apply keeps_set_context_item|]. intros _.
  apply keeps_set_context_item.
Qed.

Lemma keeps_int_cart_item : keeps_session (@int_cart_item DB).
Proof.
  apply keeps_try_except_ValueError; [|apply keeps_ret].
  apply keeps_bind; [apply keeps_context_item|]. intros v.
  apply keeps_bind; [apply keeps_lift|]. intros n. apply keeps_ret.
Qed.

Lemma keeps_handle_list str_utf8 :
  keeps_session (handle_list_shopping_cart str_utf8).
Proof.
  apply keeps_bind; [apply keeps_customer_email|]. intros cust.
  apply keeps_bind; [apply keeps_call_list|]. intros l.
  apply keeps_bind; [apply keeps_set_context_item|]. intros _.
  apply keeps_ret.
Qed.

Lemma keeps_handle_delete : keeps_session (@handle_delete_from_cart DB _).
Proof.
  apply keeps_bind; [apply keeps_customer_email|]. intros em.
  apply keeps_bind; [apply keeps_call_list|]. intros l.
  apply keeps_bind; [apply keeps_int_cart_item|]. intros [k|]; [|apply keeps_ret].
  apply keeps_bind.
  { apply keeps_for_enumerate. intros i x.
    case_match; [apply keeps_call_delete|apply keeps_ret]. }
  intros _. apply keeps_bind; [apply keeps_clear_shopping_cart|].
  intros _. apply keeps_ret.
Qed.

Lemma keeps_handle_add : keeps_session (@handle_add_to_cart DB _).
Proof.
  apply keeps_bind; [apply keeps_int_cart_item|]. intros [k|]; [|apply keeps_ret].
  apply keeps_bind; [apply keeps_customer_email|]. intros em.
  apply keeps_bind; [apply keeps_iter_response_tuple|]. intros rt.
  apply keeps_bind.
  { apply keeps_for_enumerate. intros i x.
    case_match; [apply keeps_call_add|apply keeps_ret]. }
  intros _. apply keeps_bind; [apply keeps_clear_shopping_cart|].
  intros _. apply keeps_ret.
Qed.

Lemma keeps_get_discovery_response cfg v :
  keeps_session (@get_discovery_response DB cfg v).
Proof.
  apply keeps_bind.
  { destruct (discovery_client cfg); [apply keeps_ret|apply keeps_raise]. }
  intros q. apply keeps_bind; [apply keeps_lift|]. intros dr.
  apply keeps_bind; [apply keeps_lift|]. intros r.
  apply keeps_bind; [apply keeps_set_response_tuple|]. intros _.
  apply keeps_ret.
Qed.

Lemma keeps_handle_DiscoveryQuery cfg repr_exn fake_discovery :
  keeps_session (@handle_DiscoveryQuery DB cfg repr_exn fake_discovery).
Proof.
  apply keeps_bind; [apply keeps_context_item|]. intros v.
  apply keeps_bind.
  { destruct (discovery_client cfg); [|apply keeps_ret].
    apply keeps_try_except_Exception; [apply keeps_get_discovery_response|].
    intros e. apply keeps_ret. }
  intros r. apply keeps_bind; [apply keeps_get_context|]. intros c.
  apply keeps_bind; [apply keeps_set_context|]. intros _. apply keeps_ret.
Qed.

End Frame.

(** X24: whatever the context asks for and whatever the collaborators
    answer, one call of [handle_message] leaves the customer of the
    session as it is and only adds to the calls issued to the store;
    when Watson answers, it sends one message to Slack, the reply of
    Watson, and when the call to Watson raises, that exception escapes
    and nothing at all has changed. *)
Theorem handle_message_keeps_session {DB : Type} `{!CloudantOnlineStore DB}
    (cfg : config) (repr_exn : Py.exn → string) (str_utf8 : string → string)
    (fake_discovery : Py.pyval) (message : string) (s : self DB) :
  let out := handle_message cfg repr_exn str_utf8 fake_discovery message s in
  customer out.2 = customer s
  ∧ store_calls s `prefix_of` store_calls out.2
  ∧ (∀ w, conversation_client cfg message (context s) = inr w →
          slack_messages out.2 = slack_messages s ++ [joined_output w])
  ∧ (∀ e, conversation_client cfg message (context s) = inl e →
          out = (inl e, s)).
Proof.
  cbv zeta.
  destruct (conversation_client cfg message (context s)) as [e|w] eqn:Hw.
  - rewrite (handle_message_watson_raises _ _ _ _ _ _ _ Hw).
    repeat split; try done. intros e' [= <-]. done.
  - rewrite (handle_message_after_exchange _ _ _ _ _ _ _ Hw). cbv zeta.
    assert (Hext : ∀ (m : @M DB bool), keeps_session m →
              customer (m (after_exchange w s)).2 = customer s
              ∧ store_calls s `prefix_of` store_calls (m (after_exchange w s)).2
              ∧ (∀ w0, (inr w : result watson_response) = inr w0 →
                   slack_messages (m (after_exchange w s)).2
                   = slack_messages s ++ [joined_output w0])
              ∧ (∀ e, (inr w : result watson_response) = inl e →
                   m (after_exchange w s) = (inl e, s))).
    { intros m Hm. destruct (Hm (after_exchange w s)) as (Hc & Hs & Hp).
      split; [rewrite Hc; unfold after_exchange; by destruct (wr_context w)|].
      split; [etrans; [|exact Hp]; unfold after_exchange;
              by destruct (wr_context w)|].
      split; [|done]. intros w0 [= <-]. rewrite Hs.
      unfold after_exchange. by destruct (wr_context w). }
    repeat case_match.
    + apply (Hext _ (keeps_handle_DiscoveryQuery cfg repr_exn fake_discovery)).
    + apply (Hext _ (keeps_handle_list str_utf8)).
    + apply (Hext _ keeps_handle_add).
    + apply (Hext _ keeps_handle_delete).
    + apply (Hext (λ s0, (inr false, s0))). intros s0. apply extends_refl.
    + apply (Hext (λ s0, (inr true, s0))). intros s0. apply extends_refl.
Qed.

(** X25: the pending fields that a non-numeric [cart_item] leaves in the
    context (C2) keep the loop of [run] turning: if Watson answers every
    turn and leaves the context as it is, with [shopping_cart] set to
    [add], a [cart_item] that is not a number and no Discovery query
    asked, then however many turns the loop is given it never reaches
    the point of asking for user input; each turn sends one more
    message, and the store is never called. *)
Theorem pending_add_never_asks_for_input {DB : Type}
    `{!CloudantOnlineStore DB}
    (cfg : config) (repr_exn : Py.exn → string) (str_utf8 : string → string)
    (fake_discovery : Py.pyval) (message : string) (s : self DB)
    (t : string) :
  (∀ c, ∃ w, conversation_client cfg message c = inr w
             ∧ default c (wr_context w) = c) →
  wants_discovery cfg (context s) = false →
  context s !! "shopping_cart" = Some (Py.PStr "add") →
  context s !! "cart_item" = Some (Py.PStr t) →
  t ≠ EmptyString →
  Py.int_of_str t = None →
  ∀ fuel, ∃ s',
    converse cfg repr_exn str_utf8 fake_discovery fuel message s
    = (inr None, s')
    ∧ context s' = context s
    ∧ length (slack_messages s') = (length (slack_messages s) + fuel)%nat
    ∧ store_calls s' = store_calls s.
Proof.
  intros Hecho Hd Hsc Hitem Hne Hint fuel. revert s Hd Hsc Hitem.
  induction fuel as [|fuel IH]; intros s Hd Hsc Hitem.
  - exists s. repeat split. simpl. lia.
  - destruct (Hecho (context s)) as (w & Hw & Hsame).
    pose proof (context_after_exchange w s) as Hctx. rewrite Hsame in Hctx.
    assert (Hrun : handle_message cfg repr_exn str_utf8 fake_discovery message s
                   = (inr false, after_exchange w s)).
    { rewrite (handle_message_after_exchange _ _ _ _ _ _ _ Hw). cbv zeta.
      rewrite Hctx, Hd. unfold has. rewrite Hsc, Hitem. simpl.
      apply String.eqb_neq in Hne. rewrite Hne. simpl.
      apply (handle_add_to_cart_ValueError _ (Py.PStr t)).
      - by rewrite Hctx.
      - simpl. by rewrite Hint. }
    destruct (IH (after_exchange w s)) as (s' & Hconv & Hc' & Hm' & Hs');
      try (by rewrite Hctx).
    exists s'. split.
    + simpl converse. by rewrite (bind_ok _ _ _ _ _ Hrun).
    + rewrite Hc', Hctx, Hm', Hs'. repeat split.
      * unfold after_exchange. destruct (wr_context w); simpl;
          rewrite length_app; simpl; lia.
      * unfold after_exchange. by destruct (wr_context w).
Qed.

Lemma pending_add_never_asks_for_input_witness :
  ∃ s',
    converse echo_config (λ _, "error") (λ item, item) Py.PNone 100 "add abc"
      (session (cart_request "add" "abc") (Some alice))
    = (inr None, s')
    ∧ context s' = cart_request "add" "abc"
    ∧ length (slack_messages s') = (0 + 100)%nat
    ∧ store_calls s' = [].
Proof.
  refine (pending_add_never_asks_for_input echo_config (λ _, "error")
            (λ item, item) Py.PNone "add abc"
            (session (cart_request "add" "abc") (Some alice)) "abc"
            _ _ _ _ _ _ 100%nat).
  - intros c. eexists. split; reflexivity.
  - reflexivity.
  - reflexivity.
  - reflexivity.
  - discriminate.
  - reflexivity.
Defined.

(** ** [setup_conversation_workspace] *)

Lemma find_none_iff {A} (p : A → bool) (l : list A) :
  List.find p l = None ↔ ∀ x, x ∈ l → p x = false.
Proof.
  induction l as [|y l IH]; simpl.
  - split; [intros _ x Hx; by apply elem_of_nil in Hx|done].
  - destruct (p y) eqn:Hy.
    + split; [done|]. intros H. specialize (H y (list_elem_of_here _ _)).
      congruence.
    + rewrite IH. split.
      * intros H x [->|Hx]%elem_of_cons; auto.
      * intros H x Hx. apply H. by apply list_elem_of_further.
Qed.

Lemma find_first_match {A} (p : A → bool) (l1 l2 : list A) (x : A) :
  (∀ y, y ∈ l1 → p y = false) → p x = true →
  List.find p (l1 ++ x :: l2) = Some x.
Proof.
  intros H1 Hx. induction l1 as [|y l1 IH]; simpl.
  - by rewrite Hx.
  - rewrite (H1 y (list_elem_of_here _ _)). apply IH.
    intros z Hz. apply H1. by apply list_elem_of_further.
Qed.

(** X26: when [WORKSPACE_ID] is set to a non-empty string and the
    listing succeeds, [setup_conversation_workspace] does nothing but
    list the workspaces: it returns that id when one of them carries it
    and raises otherwise, also when a workspace with the wanted name
    exists; it neither reads the workspace file nor creates anything. *)
Theorem setup_with_workspace_id (client : workspace_client)
    (file : result (gmap string Py.pyval)) (environ : gmap string string)
    (id : string) (workspaces : list workspace) :
  environ !! "WORKSPACE_ID" = Some id →
  id ≠ EmptyString →
  list_workspaces client = inr workspaces →
  (setup_conversation_workspace client file environ).2 = [ListWorkspaces]
  ∧ (id ∈ workspace_id <$> workspaces →
     (setup_conversation_workspace client file environ).1 = inr id)
  ∧ (id ∉ workspace_id <$> workspaces →
     (setup_conversation_workspace client file environ).1
     = inl (WorkspaceNotFound id)).
Proof.
  intros Hid Hne Hl. unfold setup_conversation_workspace. rewrite Hl, Hid.
  destruct id as [|c id']; [done|].
  destruct (List.find _ workspaces) as [w|] eqn:Hf.
  - split; [done|]. split; [done|]. intros Hnot. exfalso. apply Hnot.
    apply find_some in Hf as [Hin Heq]. apply String.eqb_eq in Heq.
    rewrite <- Heq. apply list_elem_of_fmap. exists w. split; [done|].
    by apply list_elem_of_In.
  - split; [done|]. split; [|done]. intros Hin. exfalso.
    apply list_elem_of_fmap in Hin as (w & Hw & Hin).
    rewrite find_none_iff in Hf. specialize (Hf w Hin).
    apply String.eqb_neq in Hf. by rewrite Hw in Hf.
Qed.

Lemma setup_with_workspace_id_witness :
  (setup_conversation_workspace (sample_workspace_client two_workspaces)
     (inr sample_workspace_json) {[ "WORKSPACE_ID" := "id-1" ]}).2
  = [ListWorkspaces]
  ∧ (setup_conversation_workspace (sample_workspace_client two_workspaces)
       (inr sample_workspace_json) {[ "WORKSPACE_ID" := "id-1" ]}).1
    = inr "id-1"
  ∧ (setup_conversation_workspace (sample_workspace_client two_workspaces)
       (inr sample_workspace_json) {[ "WORKSPACE_ID" := "id-3" ]}).1
    = inl (WorkspaceNotFound "id-3").
Proof.
  split; [|split].
  - apply (setup_with_workspace_id (sample_workspace_client two_workspaces)
             (inr sample_workspace_json) {[ "WORKSPACE_ID" := "id-1" ]}
             "id-1" two_workspaces); [reflexivity|discriminate|reflexivity].
  - apply (setup_with_workspace_id (sample_workspace_client two_workspaces)
             (inr sample_workspace_json) {[ "WORKSPACE_ID" := "id-1" ]}
             "id-1" two_workspaces); [reflexivity|discriminate|reflexivity|].
    apply list_elem_of_In. simpl. by left.
  - apply (setup_with_workspace_id (sample_workspace_client two_workspaces)
             (inr sample_workspace_json) {[ "WORKSPACE_ID" := "id-3" ]}
             "id-3" two_workspaces); [reflexivity|discriminate|reflexivity|].
    intros Hin. apply list_elem_of_In in Hin. simpl in Hin.
    destruct Hin as [[=]|[[=]|[]]].
Defined.

(** X27: when [WORKSPACE_ID] is unset or empty and the listing
    succeeds, the workspace is looked up by name, [WORKSPACE_NAME] or
    [watson-online-store] by default: the id of the first workspace
    with that name is returned and nothing is created; when no
    workspace has that name, the workspace file is read and one
    workspace is created under that name, whose id is returned. *)
Theorem setup_by_name (client : workspace_client)
    (file : result (gmap string Py.pyval)) (environ : gmap string string)
    (workspaces : list workspace) :
  environ !! "WORKSPACE_ID" = None
  ∨ environ !! "WORKSPACE_ID" = Some EmptyString →
  list_workspaces client = inr workspaces →
  let name := default "watson-online-store" (environ !! "WORKSPACE_NAME") in
  (∀ l1 w l2,
     workspaces = l1 ++ w :: l2 →
     workspace_name w = name →
     (∀ x, x ∈ l1 → workspace_name x ≠ name) →
     setup_conversation_workspace client file environ
     = (inr (workspace_id w), [ListWorkspaces]))
  ∧ ((∀ x, x ∈ workspaces → workspace_name x ≠ name) →
     ∀ j d id,
       file = inr j →
       read_definition j = inr d →
       create_workspace client name workspace_description d = inr id →
       setup_conversation_workspace client file environ
       = (inr id,
          [ListWorkspaces; ReadWorkspaceJson;
           CreateWorkspace name workspace_description d])).
Proof.
  intros Hid Hl name. unfold setup_conversation_workspace. rewrite Hl.
  fold name. split.
  - intros l1 w l2 -> Hw Hl1.
    rewrite (find_first_match _ l1 l2 w).
    + by destruct Hid as [-> | ->].
    + intros y Hy. apply String.eqb_neq. by apply Hl1.
    + by apply String.eqb_eq.
  - intros Hnone j d id -> Hd Hc.
    assert (Hf : List.find (λ w, String.eqb (workspace_name w) name) workspaces
                 = None).
    { apply find_none_iff. intros x Hx. apply String.eqb_neq. by apply Hnone. }
    rewrite Hf. simpl. rewrite Hd, Hc. by destruct Hid as [-> | ->].
Qed.

Lemma setup_by_name_witness :
  setup_conversation_workspace (sample_workspace_client two_workspaces)
    (inr sample_workspace_json) ∅
  = (inr "id-2", [ListWorkspaces])
  ∧ setup_conversation_workspace (sample_workspace_client two_workspaces)
      (inr sample_workspace_json)
      {[ "WORKSPACE_ID" := EmptyString; "WORKSPACE_NAME" := "shop" ]}
    = (inr "new-id",
       [ListWorkspaces; ReadWorkspaceJson;
        CreateWorkspace "shop" workspace_description
          (WorkspaceDefinition (Py.PStr "en") (Py.PList []) (Py.PList [])
             (Py.PList []) (Py.PList []) Py.PNone)]).
Proof.
  split.
  - refine (proj1 (setup_by_name (sample_workspace_client two_workspaces)
                     (inr sample_workspace_json) ∅ two_workspaces _ _)
              [Workspace "id-1" "other"]
              (Workspace "id-2" "watson-online-store") [] _ _ _).
    + left. reflexivity.
    + reflexivity.
    + reflexivity.
    + reflexivity.
    + intros x Hx. apply list_elem_of_In in Hx. simpl in Hx.
      destruct Hx as [<-|[]]. discriminate.
  - refine (proj2 (setup_by_name (sample_workspace_client two_workspaces)
                     (inr sample_workspace_json)
                     {[ "WORKSPACE_ID" := EmptyString;
                        "WORKSPACE_NAME" := "shop" ]} two_workspaces _ _)
              _ sample_workspace_json _ "new-id" _ _ _).
    + right. reflexivity.
    + reflexivity.
    + intros x Hx. apply list_elem_of_In in Hx. simpl in Hx.
      destruct Hx as [<-|[<-|[]]]; discriminate.
    + reflexivity.
    + reflexivity.
    + reflexivity.
Defined.

(** ** [parse_slack_output] *)

Lemma lower_char_idemp (c : ascii) : lower_char (lower_char c) = lower_char c.
Proof. by destruct c as [[] [] [] [] [] [] [] []]. Qed.

Lemma lower_idemp (s : string) : lower (lower s) = lower s.
Proof.
  induction s as [|c s IH]; [done|]. simpl. by rewrite lower_char_idemp, IH.
Qed.

Lemma parse_slack_output_ignored (bot_id : string) (ev : slack_event)
    (rest : list slack_event) :
  ignored bot_id ev →
  parse_slack_output bot_id (ev :: rest) = parse_slack_output bot_id rest.
Proof.
  intros [Ht|[Hu|[Hp|(text & user & channel & Ht & Hu & Hc & Hm & Hd)]]];
    cbn [parse_slack_output].
  - by rewrite Ht.
  - rewrite Hu. by destruct (ev_text ev).
  - rewrite Hp. by destruct (ev_text ev), (ev_user ev).
  - rewrite Ht, Hu, Hc, Hm. destruct (ev_user_profile ev); [done|].
    destruct Hd as [-> | ->]; [done|].
    by rewrite String.eqb_refl, andb_false_r.
Qed.

Lemma parse_slack_output_skip (bot_id : string)
    (skipped rest : list slack_event) :
  Forall (ignored bot_id) skipped →
  parse_slack_output bot_id (skipped ++ rest) = parse_slack_output bot_id rest.
Proof.
  induction 1 as [|ev skipped Hev _ IH]; [done|].
  rewrite <- app_comm_cons. by rewrite parse_slack_output_ignored.
Qed.

(** X28: [parse_slack_output] returns nothing for a list all of whose
    events lack a text or a user, carry a [user_profile], or, without a
    mention of the bot, come from a channel that is not a direct one or
    from the bot itself; the empty list is such a list. *)
Theorem parse_slack_output_nothing_relevant (bot_id : string)
    (events : list slack_event) :
  Forall (ignored bot_id) events →
  parse_slack_output bot_id events = inr None.
Proof.
  intros H. rewrite <- (app_nil_r events).
  by rewrite parse_slack_output_skip.
Qed.

Lemma parse_slack_output_nothing_relevant_witness :
  parse_slack_output "B1" [public_event; profile_event] = inr None.
Proof.
  apply (parse_slack_output_nothing_relevant "B1"
           [public_event; profile_event]).
  apply Forall_cons_2; [|apply Forall_cons_2; [|apply Forall_nil_2]].
  - right; right; right. exists "Hello", "U7", "C1".
    repeat (split; [reflexivity|]). left. reflexivity.
  - right; right; by left.
Defined.

(** X29: the first event that is not passed over decides.  If its text
    mentions the bot, the result is that text without the mentions,
    stripped and in lower case, with the channel and the user of the
    event, in any channel and also when the user is the bot itself;
    otherwise, in a direct channel and from another user, it is the
    stripped text in lower case.  The returned text is unchanged by a
    second [lower].  When such an event has no [channel], [KeyError] is
    raised. *)
Theorem parse_slack_output_first_relevant (bot_id : string)
    (skipped rest : list slack_event) (ev : slack_event)
    (text user : string) :
  Forall (ignored bot_id) skipped →
  ev_text ev = Some text →
  ev_user ev = Some user →
  ev_user_profile ev = false →
  (str_contains (at_bot bot_id) text = true →
   (∀ channel, ev_channel ev = Some channel →
      ∃ said,
        parse_slack_output bot_id (skipped ++ ev :: rest)
        = inr (Some (said, channel, user))
        ∧ said = lower (Py.strip (remove_all (at_bot bot_id) text O))
        ∧ lower said = said)
   ∧ (ev_channel ev = None →
      parse_slack_output bot_id (skipped ++ ev :: rest) = inl Py.KeyError))
  ∧ (str_contains (at_bot bot_id) text = false →
     (∀ channel, ev_channel ev = Some channel →
        Py.startswith "D" channel = true → user ≠ bot_id →
        parse_slack_output bot_id (skipped ++ ev :: rest)
        = inr (Some (lower (Py.strip text), channel, user))
        ∧ lower (lower (Py.strip text)) = lower (Py.strip text))
     ∧ (ev_channel ev = None →
        parse_slack_output bot_id (skipped ++ ev :: rest) = inl Py.KeyError)).
Proof.
  intros Hskip Ht Hu Hp. rewrite (parse_slack_output_skip _ _ _ Hskip).
  cbn [parse_slack_output]. rewrite Ht, Hu, Hp. split; intros Hm; rewrite Hm; split.
  - intros channel Hc. rewrite Hc. eexists. split; [reflexivity|].
    split; [reflexivity|]. apply lower_idemp.
  - by intros ->.
  - intros channel Hc Hd Hne. rewrite Hc, Hd.
    apply String.eqb_neq in Hne. rewrite Hne. simpl.
    split; [reflexivity|apply lower_idemp].
  - by intros ->.
Qed.

Lemma parse_slack_output_first_relevant_witness :
  (∃ said,
     parse_slack_output "B1" ([public_event; profile_event]
                              ++ mention_event :: [direct_event])
     = inr (Some (said, "C1", "U7"))
     ∧ said = "find a mug" ∧ lower said = said)
  ∧ parse_slack_output "B1" ([public_event] ++ direct_event :: [])
    = inr (Some ("show my cart", "D9", "U7"))
  ∧ parse_slack_output "B1" ([] ++ no_channel_event :: [])
    = inl Py.KeyError.
Proof.
  assert (Hpub : ignored "B1" public_event).
  { right; right; right. exists "Hello", "U7", "C1".
    repeat (split; [reflexivity|]). left. reflexivity. }
  assert (Hprof : ignored "B1" profile_event).
  { right; right; by left. }
  split; [|split].
  - destruct (proj1 (proj1 (parse_slack_output_first_relevant "B1"
                 [public_event; profile_event] [direct_event] mention_event
                 " <@B1> Find a MUG " "U7"
                 (Forall_cons_2 _ _ _ Hpub (Forall_cons_2 _ _ _ Hprof
                    (Forall_nil_2 _)))
                 eq_refl eq_refl eq_refl) eq_refl) "C1" eq_refl)
      as (said & Hrun & Hsaid & Hlow).
    exists said. split; [exact Hrun|]. split; [|exact Hlow].
    rewrite Hsaid. reflexivity.
  - apply (proj1 (proj2 (parse_slack_output_first_relevant "B1"
                 [public_event] [] direct_event " Show my Cart" "U7"
                 (Forall_cons_2 _ _ _ Hpub (Forall_nil_2 _))
                 eq_refl eq_refl eq_refl) eq_refl) "D9" eq_refl eq_refl).
    discriminate.
  - apply (proj2 (proj1 (parse_slack_output_first_relevant "B1"
                 [] [] no_channel_event "<@B1> hi" "U7"
                 (Forall_nil_2 _) eq_refl eq_refl eq_refl) eq_refl)).
    reflexivity.
Defined.

(** ** [init_customer] *)

(** X30: for a non-empty user id, [init_customer] swallows a failure of
    the Slack call and changes nothing; a customer whose document the
    store finds is set from that document, with an empty cart, and one
    that the store does not know is set from the Slack profile and
    handed to the store; in both cases the identity of the customer is
    merged into the context.  A reply with no user, or a user with no
    email, leaves a session without customer as it is. *)
Theorem init_customer_outcomes {DB : Type} `{!CustomerDirectory DB}
    (users_info : string → result (option slack_user)) (user_id : string)
    (s : self DB) :
  user_id ≠ EmptyString →
  (∀ e, users_info user_id = inl e →
     init_customer users_info user_id s = (inr (), s))
  ∧ (∀ user cust data em f l,
       users_info user_id = inr (Some user) →
       profile_email user = Some cust → cust ≠ EmptyString →
       find_customer (database s) cust = inr (Some data) →
       data !! "email" = Some em →
       data !! "first_name" = Some f →
       data !! "last_name" = Some l →
       init_customer users_info user_id s
       = (inr (),
          with_context
            (context_merge (context s) (get_customer_dict (Customer em f l [])))
            (with_customer (Customer em f l []) s)))
  ∧ (∀ user p cust f l d,
       users_info user_id = inr (Some user) →
       su_profile user = Some p →
       pr_email p = Some cust → cust ≠ EmptyString →
       pr_first_name p = Some f →
       pr_last_name p = Some l →
       find_customer (database s) cust = inr None →
       add_customer_obj (database s) (Some (Customer cust f l [])) = inr d →
       init_customer users_info user_id s
       = (inr (),
          with_context
            (context_merge (context s)
               (get_customer_dict (Customer cust f l [])))
            (with_database d (with_customer (Customer cust f l []) s))))
  ∧ (users_info user_id = inr None
     ∨ (∃ user, users_info user_id = inr (Some user)
                ∧ (profile_email user = None
                   ∨ profile_email user = Some EmptyString)) →
     customer s = None →
     init_customer users_info user_id s = (inr (), s)).
Proof.
  intros Hid. apply String.eqb_neq in Hid.
  unfold init_customer. rewrite Hid. split; [|split; [|split]].
  - intros e He. by rewrite He.
  - intros user cust data em f l Hu Hcust Hne Hfind He Hf Hl.
    rewrite Hu, Hcust. destruct cust as [|c cust']; [done|].
    assert (Hrun : find_or_create user (String c cust') s
                   = (inr (), with_customer (Customer em f l []) s)).
    { unfold find_or_create, mbind, M_bind, get_database, lift.
      rewrite Hfind. rewrite bool_decide_eq_false_2.
      2:{ intros ->. by rewrite lookup_empty in He. }
      unfold customer_from_db, document_item, mbind, M_bind.
      rewrite He. unfold mret at 1, M_ret at 1.
      rewrite Hf. unfold mret at 1, M_ret at 1.
      rewrite Hl. reflexivity. }
    by rewrite (bind_ok _ _ _ _ _ Hrun).
  - intros user p cust f l d Hu Hp Hcust Hne Hf Hl Hfind Hadd.
    rewrite Hu. unfold profile_email. rewrite Hp, Hcust.
    destruct cust as [|c cust']; [done|].
    assert (Hrun : find_or_create user (String c cust') s
                   = (inr (),
                      with_database d
                        (with_customer (Customer (String c cust') f l []) s))).
    { unfold find_or_create, mbind, M_bind, get_database, lift.
      rewrite Hfind.
      unfold create_user_from_ui, profile_item, mbind, M_bind.
      rewrite Hp. unfold mret at 1, M_ret at 1.
      rewrite Hcust. unfold mret at 1, M_ret at 1.
      rewrite Hf. unfold mret at 1, M_ret at 1.
      rewrite Hl. unfold mret at 1, M_ret at 1.
      unfold set_customer, persist_customer. simpl. by rewrite Hadd. }
    by rewrite (bind_ok _ _ _ _ _ Hrun).
  - intros [Hu|(user & Hu & [He|He])] Hc; rewrite Hu; [done|..];
      rewrite He; unfold mbind, M_bind, mret, M_ret, add_customer_if_any;
      by rewrite Hc.
Qed.

Lemma init_customer_outcomes_witness :
  init_customer (λ _, inl (Py.ServiceError "down")) "U7" (directory_session ∅)
  = (inr (), directory_session ∅)
  ∧ init_customer (λ _, inr (Some alice_profile)) "U7"
      (directory_session {[ "alice@example.com" := alice_document ]})
    = (inr (),
       with_context
         (context_merge {[ "get_input" := Py.PStr "yes" ]}
            (get_customer_dict alice))
         (with_customer alice
            (directory_session {[ "alice@example.com" := alice_document ]})))
  ∧ init_customer (λ _, inr (Some alice_profile)) "U7" (directory_session ∅)
    = (inr (),
       with_context
         (context_merge {[ "get_input" := Py.PStr "yes" ]}
            (get_customer_dict alice))
         (with_database {[ "alice@example.com" := alice_document ]}
            (with_customer alice (directory_session ∅))))
  ∧ init_customer (λ _, inr None) "U7" (directory_session ∅)
    = (inr (), directory_session ∅).
Proof.
  split; [|split; [|split]].
  - refine (proj1 (init_customer_outcomes _ "U7" (directory_session ∅) _)
              (Py.ServiceError "down") _); [discriminate|reflexivity].
  - refine (proj1 (proj2 (init_customer_outcomes
                            (λ _, inr (Some alice_profile)) "U7"
                            (directory_session
                               {[ "alice@example.com" := alice_document ]}) _))
              alice_profile "alice@example.com" alice_document
              "alice@example.com" "Alice" "Ames" _ _ _ _ _ _ _);
      try reflexivity; discriminate.
  - refine (proj1 (proj2 (proj2 (init_customer_outcomes
                                   (λ _, inr (Some alice_profile)) "U7"
                                   (directory_session ∅) _)))
              alice_profile
              (SlackProfile (Some "alice@example.com") (Some "Alice")
                 (Some "Ames"))
              "alice@example.com" "Alice" "Ames"
              {[ "alice@example.com" := alice_document ]} _ _ _ _ _ _ _ _);
      try reflexivity; discriminate.
  - refine (proj2 (proj2 (proj2 (init_customer_outcomes (λ _, inr None) "U7"
                                   (directory_session ∅) _))) _ _);
      [discriminate|by left|reflexivity].
Defined.
